(** * A shallow embedding of the VPS manager bot (src/v2.py)

    The development follows the source file top to bottom: Python-level
    helpers, the state-and-exception monad in which the commands run, the
    process runner [execute_incus], the network inspector, the record store,
    the slash commands, the CPU monitor thread, the legacy-shape loader and
    the [ManageView] button callbacks; then the parts the first reading
    left out: the CPU sampler, the remaining admin commands, the statistics
    and the opening of views.  Theorems come after the definitions.

    Conventions.
    - Python [int] is [Z].  A [bytes] object is the [string] of its bytes
      and a [str] the [string] of its UTF-8 encoding, so that [decode]
      checks the bytes and hands them on.  [strip] and the padding of
      [int] know every whitespace code point; the case function, the
      regular expression of the network inspector and [split] treat the
      ASCII range.
    - A Discord member is represented by [str(member.id)], the key under
      which the program stores everything about them.
    - Every command runs to completion before the next one starts; Discord
      calls (sending, editing, role changes) append to an outbox and do not
      fail.  The external [incus] process is an oracle of its history.
    - A command is the body of its function: the [@is_admin()] check that
      Discord runs before an admin command is not part of it. *)

From Stdlib Require Import ZArith QArith String Ascii List Lia DecimalString DecimalZ.
From stdpp Require Import base gmap strings list.
Import ListNotations.

#[local] Set Warnings "-register-all".
Local Open Scope Z_scope.
Local Open Scope string_scope.
Local Open Scope list_scope.

(** ** Python strings *)

Module Py.

(** [str(n)] for an [int]. *)
Definition str_of_Z (z : Z) : string := NilZero.string_of_int (Z.to_int z).

(** [bytes(l)]. *)
Definition of_bytes (l : list nat) : string :=
  fold_right (fun n s => String (ascii_of_nat n) s) EmptyString l.

(** The ASCII characters for which [str.isspace] holds: tab to carriage
    return, the four separators 0x1C to 0x1F and the space. *)
Definition isspace (c : ascii) : bool :=
  let n := nat_of_ascii c in
  (((9 <=? n) && (n <=? 13)) || ((28 <=? n) && (n <=? 32)))%nat.

(** The other code points for which [str.isspace] holds, in UTF-8: U+0085,
    U+00A0, U+1680, U+2000 to U+200A, U+2028, U+2029, U+202F, U+205F and
    U+3000. *)
Definition wide_spaces : list string :=
  ([of_bytes [194; 133]; of_bytes [194; 160]; of_bytes [225; 154; 128]]
   ++ map (fun n => of_bytes [226; 128; n]) (seq 128 11)
   ++ [of_bytes [226; 128; 168]; of_bytes [226; 128; 169]; of_bytes [226; 128; 175];
       of_bytes [226; 129; 159]; of_bytes [227; 128; 128]])%list%nat.

Definition wide_space (s : string) : bool := existsb (String.eqb s) wide_spaces.

(** [s] is one whitespace character: an ASCII one as [pad] has it, or one
    of the wide ones. *)
Definition space_char (pad : ascii -> bool) (s : string) : bool :=
  match s with
  | String c EmptyString => pad c
  | _ => wide_space s
  end.

(** Dropping the whitespace at the start of a text, one character (of one,
    two or three bytes) at a time. *)
Fixpoint lstrip_of (pad : ascii -> bool) (s : string) : string :=
  match s with
  | String c1 s1 =>
      if pad c1 then lstrip_of pad s1 else
      match s1 with
      | String c2 s2 =>
          if wide_space (String c1 (String c2 EmptyString)) then lstrip_of pad s2 else
          match s2 with
          | String c3 s3 =>
              if wide_space (String c1 (String c2 (String c3 EmptyString)))
              then lstrip_of pad s3 else s
          | EmptyString => s
          end
      | EmptyString => s
      end
  | EmptyString => EmptyString
  end.

(** Dropping it at the end: what is left of [s] once its tail is trimmed
    goes too when it is a single whitespace character. *)
Fixpoint rstrip_of (pad : ascii -> bool) (s : string) : string :=
  match s with
  | String c s' =>
      let r := String c (rstrip_of pad s') in
      if space_char pad r then EmptyString else r
  | EmptyString => EmptyString
  end.

Definition lstrip (s : string) : string := lstrip_of isspace s.
Definition rstrip (s : string) : string := rstrip_of isspace s.

(** [s.strip()]. *)
Definition strip (s : string) : string := lstrip (rstrip s).

(** Truth value of a [str]: the empty string is falsy. *)
Definition truthy (s : string) : bool :=
  match s with EmptyString => false | _ => true end.

(** Truth value of an [Optional[str]] argument ([None] is falsy). *)
Definition truthy_opt (o : option string) : bool :=
  match o with Some s => truthy s | None => false end.

(** [a or b] on strings. *)
Definition str_or (a b : string) : string := if truthy a then a else b.

(** [p in s]. *)
Fixpoint contains (p s : string) : bool :=
  String.prefix p s ||
  match s with String _ s' => contains p s' | EmptyString => false end.

Fixpoint drop (n : nat) (s : string) : string :=
  match n, s with
  | S n', String _ s' => drop n' s'
  | _, _ => s
  end.

(** [s.replace(old, new)] for a non-empty [old]: left to right, without
    overlap.  The fuel is the length of [s]. *)
Fixpoint replace_fuel (fuel : nat) (old new s : string) : string :=
  match fuel with
  | O => s
  | S fuel' =>
      match s with
      | EmptyString => EmptyString
      | String c s' =>
          if String.prefix old s
          then new +:+ replace_fuel fuel' old new (drop (String.length old) s)
          else String c (replace_fuel fuel' old new s')
      end
  end.

Definition replace (old new s : string) : string :=
  replace_fuel (String.length s) old new s.

Definition lower_ascii (c : ascii) : ascii :=
  let n := nat_of_ascii c in
  if ((65 <=? n) && (n <=? 90))%nat then ascii_of_nat (n + 32) else c.

Fixpoint lower (s : string) : string :=
  match s with
  | String c s' => String (lower_ascii c) (lower s')
  | EmptyString => EmptyString
  end.

(** [s.split('\n')]. *)
Fixpoint split_lines_aux (cur : string) (s : string) : list string :=
  match s with
  | EmptyString => [cur]
  | String c s' =>
      if Ascii.eqb c "010"%char
      then cur :: split_lines_aux EmptyString s'
      else split_lines_aux (cur +:+ String c EmptyString) s'
  end.

Definition split_lines (s : string) : list string :=
  split_lines_aux EmptyString s.

(** [int(s)] on a [str]: surrounding whitespace, an optional sign, decimal
    digits with single underscores between them.  [None] is [ValueError].
    The whitespace [int] skips is not quite that of [strip]: of the ASCII
    range it takes tab to carriage return and the space, not the
    separators 0x1C to 0x1F.  The digits are the ASCII ones. *)
Definition int_padding (c : ascii) : bool :=
  let n := nat_of_ascii c in
  (((9 <=? n) && (n <=? 13)) || (n =? 32))%nat.

Definition digit_of (c : ascii) : option Z :=
  let n := nat_of_ascii c in
  if ((48 <=? n) && (n <=? 57))%nat then Some (Z.of_nat (n - 48)) else None.

Fixpoint parse_digits (s : string) (acc : Z) (after_digit : bool) : option Z :=
  match s with
  | EmptyString => if after_digit then Some acc else None
  | String c s' =>
      if Ascii.eqb c "_"%char
      then (if after_digit then parse_digits s' acc false else None)
      else match digit_of c with
           | Some d => parse_digits s' (10 * acc + d) true
           | None => None
           end
  end.

Definition int (s : string) : option Z :=
  match lstrip_of int_padding (rstrip_of int_padding s) with
  | String "-"%char r => Z.opp <$> parse_digits r 0 false
  | String "+"%char r => parse_digits r 0 false
  | r => parse_digits r 0 false
  end.

(** [b.decode()]: strict UTF-8.  [lead n] is what the first byte [n] of a
    character of two to four bytes announces: how many bytes follow and
    the range of the first of them, which keeps out overlong forms,
    surrogates and code points past U+10FFFF.  The bytes after that one
    are in 0x80 to 0xBF. *)
Definition lead (n : nat) : option (nat * nat * nat) :=
  (if (194 <=? n) && (n <=? 223) then Some (1, 128, 191)
   else if n =? 224 then Some (2, 160, 191)
   else if ((225 <=? n) && (n <=? 236)) || ((238 <=? n) && (n <=? 239))
        then Some (2, 128, 191)
   else if n =? 237 then Some (2, 128, 159)
   else if n =? 240 then Some (3, 144, 191)
   else if (241 <=? n) && (n <=? 243) then Some (3, 128, 191)
   else if n =? 244 then Some (3, 128, 143)
   else None)%nat.

Definition hex_digit (d : nat) : ascii :=
  match String.get d "0123456789abcdef" with Some c => c | None => "0"%char end.

(** [str(e)] of the [UnicodeDecodeError] for the bytes at [first] to
    [last]. *)
Definition codec_error (byte first last : nat) (reason : string) : string :=
  "'utf-8' codec can't decode "
    +:+ (if (first =? last)%nat
         then "byte 0x" +:+ String (hex_digit (byte / 16)) (String (hex_digit (byte mod 16)) "")
                +:+ " in position " +:+ str_of_Z (Z.of_nat first)
         else "bytes in position " +:+ str_of_Z (Z.of_nat first)
                +:+ "-" +:+ str_of_Z (Z.of_nat last))
    +:+ ": " +:+ reason.

(** The decoder at position [pos], the rest of the input being [b]: at the
    start of a character ([inside] is [None]) or inside one that began at
    [first] with [byte] and lacks [more] bytes, the next of them in [lo] to
    [hi].  The result is the message of the first error, if there is one. *)
Fixpoint decode_error (inside : option (nat * nat * nat * nat * nat)) (pos : nat)
    (b : string) : option string :=
  match b, inside with
  | EmptyString, None => None
  | EmptyString, Some (first, byte, _, _, _) =>
      Some (codec_error byte first (pos - 1) "unexpected end of data")
  | String c b', None =>
      let n := nat_of_ascii c in
      if (n <? 128)%nat then decode_error None (S pos) b'
      else match lead n with
           | Some (more, lo, hi) => decode_error (Some (pos, n, more, lo, hi)) (S pos) b'
           | None => Some (codec_error n pos pos "invalid start byte")
           end
  | String c b', Some (first, byte, more, lo, hi) =>
      let n := nat_of_ascii c in
      if ((lo <=? n) && (n <=? hi))%nat
      then decode_error (if (more =? 1)%nat then None
                         else Some (first, byte, (more - 1)%nat, 128%nat, 191%nat))
                        (S pos) b'
      else Some (codec_error byte first (pos - 1) "invalid continuation byte")
  end.

(** The text, or the message of the [UnicodeDecodeError]. *)
Definition decode (b : string) : string + string :=
  match decode_error None 0 b with
  | None => inl b
  | Some message => inr message
  end.

Definition decodes (b : string) : bool :=
  match decode b with inl _ => true | inr _ => false end.

(** ["\n"]. *)
Definition nl : string := String "010"%char EmptyString.

(** [x] occurs somewhere inside [s]. *)
Definition embeds (x s : string) : Prop :=
  exists pre post : string, s = pre +:+ x +:+ post.

End Py.

(** ** Exceptions and the command monad *)

Inductive exn_class : Set :=
| Exception | NameError | IndexError | KeyError | TypeError | ValueError
| AttributeError | OSError | CalledProcessError | UnicodeDecodeError.

(** An exception object: its class and [str(e)].  Every class above derives
    from [Exception], so [except Exception] catches each of them. *)
Record exn : Set := mk_exn { exn_cls : exn_class; exn_msg : string }.

Inductive res (A : Type) : Type :=
| Ret (a : A)
| Raise (e : exn).
Arguments Ret {A} a.
Arguments Raise {A} e.

(** A command is a state transformer that may end in an exception; what it
    changed before raising stays changed. *)
Definition M (S A : Type) : Type := S -> res A * S.

Section Monad.
Context {S : Type}.

Definition ret {A} (a : A) : M S A := fun s => (Ret a, s).

Definition bind {A B} (m : M S A) (k : A -> M S B) : M S B :=
  fun s => match m s with
           | (Ret a, s') => k a s'
           | (Raise e, s') => (Raise e, s')
           end.

Definition raise {A} (e : exn) : M S A := fun s => (Raise e, s).

(** [try: body except Exception as e: handler(e)]. *)
Definition try_except {A} (body : M S A) (handler : exn -> M S A) : M S A :=
  fun s => match body s with
           | (Ret a, s') => (Ret a, s')
           | (Raise e, s') => handler e s'
           end.

Definition get : M S S := fun s => (Ret s, s).
Definition gets {A} (f : S -> A) : M S A := fun s => (Ret (f s), s).
Definition modify (f : S -> S) : M S unit := fun s => (Ret tt, f s).

(** The state a command leaves behind, and its outcome. *)
Definition exec {A} (m : M S A) (s : S) : S := snd (m s).
Definition outcome {A} (m : M S A) (s : S) : res A := fst (m s).
End Monad.

Notation "x <- m ;; k" := (bind m (fun x => k))
  (at level 100, m at next level, right associativity).
Notation "m ;;; k" := (bind m (fun _ => k))
  (at level 100, right associativity).

(** ** Data model *)

(** A VPS record: the dict built by [slash_create] and [slash_buywc].  The
    keys the program reads with [.get] or tests with [in] are optional. *)
Record VPS : Set := mkVPS {
  container_name : string;
  ram : string;
  cpu : string;
  storage : string;
  status : option string;
  created_at : string;
  ipv4 : string;
  ipv6 : string;
  shared_with : option (list string);
  plan : option string;
  processor : option string
}.

Definition set_status (v : string) (r : VPS) : VPS :=
  mkVPS (container_name r) (ram r) (cpu r) (storage r) (Some v) (created_at r)
        (ipv4 r) (ipv6 r) (shared_with r) (plan r) (processor r).

Definition set_created_at (v : string) (r : VPS) : VPS :=
  mkVPS (container_name r) (ram r) (cpu r) (storage r) (status r) v
        (ipv4 r) (ipv6 r) (shared_with r) (plan r) (processor r).

Definition set_shared_with (v : list string) (r : VPS) : VPS :=
  mkVPS (container_name r) (ram r) (cpu r) (storage r) (status r) (created_at r)
        (ipv4 r) (ipv6 r) (Some v) (plan r) (processor r).

(** What the bot says on Discord.  An embed is kept as its kind (the colour
    [create_success_embed] and its siblings choose), its title without the
    leading emoji, and its description; the fields added with [add_field]
    are left out. *)
Inductive embed_kind : Set := Plain | Success | Error | Info | Warning.

Record embed : Set := mk_embed {
  e_kind : embed_kind;
  e_title : string;
  e_desc : string
}.

Definition create_success_embed (title description : string) : embed :=
  mk_embed Success title description.
Definition create_error_embed (title description : string) : embed :=
  mk_embed Error title description.
Definition create_info_embed (title description : string) : embed :=
  mk_embed Info title description.
Definition create_warning_embed (title description : string) : embed :=
  mk_embed Warning title description.

(** The calls made to Discord.  [AddRole] and [RemoveRole] stand for the
    bookkeeping of the "VPS User" role around [get_or_create_vps_role]. *)
Inductive discord_call : Set :=
| Defer
| SendMessage (e : embed)
| FollowupSend (e : embed)
| EditOriginalResponse (e : embed)
| EditMessage
| DirectMessage (member : string) (e : embed)
| AddRole (member : string)
| RemoveRole (member : string).

Inductive log_level : Set := INFO | WARNING | ERROR.

(** The three files [save_data] writes. *)
Record Disk : Type := mkDisk {
  user_data_json : gmap string Z;
  vps_data_json : gmap string (list VPS);
  admin_data_json : list string
}.

(** What became of one command line: the process ended with a return code
    and the bytes it wrote to its two pipes, it was still running at the
    timeout, or it was never started. *)
Inductive proc_outcome : Set :=
| Exited (returncode : Z) (stdout stderr : string)
| TimedOut
| NotRun (e : exn).

(** The container runtime: its answer to a command line, given the command
    lines it was sent before. *)
Definition Runtime : Type := list string -> string -> proc_outcome.

(** The value [execute_incus] returns: trimmed stdout, or [True] when
    stdout is empty. *)
Inductive output : Set := Stdout (s : string) | PyTrue.

(** The in-memory inventory is a parameter of the global state: the slash
    commands reach records through [vps_data] only, the button callbacks of
    [ManageView] keep references to list and record objects.  Either way
    [save_data] writes the inventory out as plain JSON. *)
Class Store (St : Type) : Type := dump : St -> gmap string (list VPS).

Record World {St : Type} : Type := mkWorld {
  vps_data : St;
  user_data : gmap string Z;
  admin_data : list string;
  cpu_monitor_active : bool;
  monitor_alive : bool;
  disk : Disk;
  calls : list string;
  outbox : list discord_call;
  logs : list (log_level * string)
}.
Arguments World St : clear implicits.
Arguments mkWorld {St}.

Section WorldOps.
Context {St : Type}.
Implicit Type w : World St.

Definition set_vps_data (f : St -> St) w : World St :=
  mkWorld (f (vps_data w)) (user_data w) (admin_data w) (cpu_monitor_active w)
          (monitor_alive w) (disk w) (calls w) (outbox w) (logs w).
Definition set_user_data (f : gmap string Z -> gmap string Z) w : World St :=
  mkWorld (vps_data w) (f (user_data w)) (admin_data w) (cpu_monitor_active w)
          (monitor_alive w) (disk w) (calls w) (outbox w) (logs w).
Definition set_cpu_monitor_active (b : bool) w : World St :=
  mkWorld (vps_data w) (user_data w) (admin_data w) b
          (monitor_alive w) (disk w) (calls w) (outbox w) (logs w).
Definition set_monitor_alive (b : bool) w : World St :=
  mkWorld (vps_data w) (user_data w) (admin_data w) (cpu_monitor_active w)
          b (disk w) (calls w) (outbox w) (logs w).
Definition set_disk (d : Disk) w : World St :=
  mkWorld (vps_data w) (user_data w) (admin_data w) (cpu_monitor_active w)
          (monitor_alive w) d (calls w) (outbox w) (logs w).
Definition add_call (c : string) w : World St :=
  mkWorld (vps_data w) (user_data w) (admin_data w) (cpu_monitor_active w)
          (monitor_alive w) (disk w) (calls w ++ [c])%list (outbox w) (logs w).
Definition add_outbox (c : discord_call) w : World St :=
  mkWorld (vps_data w) (user_data w) (admin_data w) (cpu_monitor_active w)
          (monitor_alive w) (disk w) (calls w) (outbox w ++ [c])%list (logs w).
Definition add_log (l : log_level) (t : string) w : World St :=
  mkWorld (vps_data w) (user_data w) (admin_data w) (cpu_monitor_active w)
          (monitor_alive w) (disk w) (calls w) (outbox w) (logs w ++ [(l, t)])%list.

Definition discord (c : discord_call) : M (World St) unit := modify (add_outbox c).
Definition logger (l : log_level) (t : string) : M (World St) unit :=
  modify (add_log l t).

(** [asyncio.sleep] and [time.sleep]: time is not part of the state. *)
Definition sleep (seconds : Z) : M (World St) unit := ret tt.

(** [save_data]: the three documents are written from memory. *)
Definition save_data `{Store St} : M (World St) unit :=
  modify (fun w => set_disk (mkDisk (user_data w) (dump (vps_data w)) (admin_data w)) w) ;;;
  logger INFO "Data saved successfully".

(** ** Process runner *)

Variable rt : Runtime.

(** Hand one command line to the runtime and record that it was sent. *)
Definition run_process (command : string) : M (World St) proc_outcome :=
  w <- get ;;
  modify (add_call command) ;;;
  ret (rt (calls w) command).

(** [b.decode()] on what the process printed. *)
Definition decoded (b : string) : M (World St) string :=
  match Py.decode b with
  | inl text => ret text
  | inr message => raise (mk_exn UnicodeDecodeError message)
  end.

(** The outcomes are the three ways out of the [try] block: the process
    ended ([communicate] returned in time), [wait_for] gave up, or
    [shlex.split] or the launch of the process raised. *)
Definition execute_incus (command : string) (timeout : Z) : M (World St) output :=
  o <- run_process command ;;
  match o with
  | Exited returncode stdout stderr =>
      try_except
        (stdout_str <- (if Py.truthy stdout
                        then text <- decoded stdout ;; ret (Py.strip text)
                        else ret "") ;;
         stderr_str <- (if Py.truthy stderr
                        then text <- decoded stderr ;; ret (Py.strip text)
                        else ret "") ;;
         if negb (returncode =? 0)%Z then
           let error_msg :=
             Py.str_or stderr_str "Unknown error (empty stderr)"
               +:+ ". Command: " +:+ command +:+ ". STDOUT: " +:+ stdout_str in
           logger ERROR ("Incus command failed: " +:+ command +:+ " - Return code: "
                           +:+ Py.str_of_Z returncode +:+ " - STDERR: " +:+ stderr_str
                           +:+ " - STDOUT: " +:+ stdout_str) ;;;
           raise (mk_exn Exception error_msg)
         else
           logger INFO ("Incus command succeeded: " +:+ command +:+ " - STDOUT: "
                          +:+ stdout_str) ;;;
           ret (if Py.truthy stdout_str then Stdout stdout_str else PyTrue))
        (fun e =>
           logger ERROR ("Incus Error: " +:+ command +:+ " - " +:+ exn_msg e) ;;;
           raise e)
  | TimedOut =>
      logger ERROR ("Incus command timed out after " +:+ Py.str_of_Z timeout
                      +:+ "s: " +:+ command) ;;;
      raise (mk_exn Exception
               ("Command timed out after " +:+ Py.str_of_Z timeout
                  +:+ " seconds - container may be unresponsive. Try manual stop or increase timeout."))
  | NotRun e =>
      logger ERROR ("Incus Error: " +:+ command +:+ " - " +:+ exn_msg e) ;;;
      raise e
  end.

(** ** Network inspector *)

(** The part of [s] before its last ["/"], if it has one. *)
Fixpoint before_last_slash (s : string) : option string :=
  match s with
  | EmptyString => None
  | String c s' =>
      match before_last_slash s' with
      | Some p => Some (String c p)
      | None => if Ascii.eqb c "/"%char then Some EmptyString else None
      end
  end.

(** The longest prefix of [s] without whitespace. *)
Fixpoint nonspace_run (s : string) : string :=
  match s with
  | String c s' => if Py.isspace c then EmptyString else String c (nonspace_run s')
  | EmptyString => EmptyString
  end.

(** [(\S+)/] matched at the start of [s]: group 1.  The greedy [\S+]
    takes the whole run and backs up to the last ["/"] that leaves it at
    least one character. *)
Definition match_token (s : string) : option string :=
  match nonspace_run s with
  | String c run => String c <$> before_last_slash run
  | EmptyString => None
  end.

(** [re.search(key + r'(\S+)/', line).group(1)] for a literal [key]. *)
Fixpoint re_search (key line : string) : option string :=
  match (if String.prefix key line
         then match_token (Py.drop (String.length key) line) else None) with
  | Some g => Some g
  | None =>
      match line with
      | String _ line' => re_search key line'
      | EmptyString => None
      end
  end.

Definition first_address (key line current : string) : string :=
  if Py.contains key line then
    match re_search key line with
    | Some g => if String.eqb current "Not assigned" then g else current
    | None => current
    end
  else current.

Fixpoint scan_addresses (lines : list string) (ipv4 ipv6 : string) : string * string :=
  match lines with
  | [] => (ipv4, ipv6)
  | line :: rest =>
      scan_addresses rest (first_address "inet " line ipv4)
                          (first_address "inet6 " line ipv6)
  end.

Definition get_container_ips (container_name : string) : M (World St) (string * string) :=
  try_except
    (let ip_cmd := "incus exec " +:+ container_name +:+ " -- ip addr show eth0" in
     out <- execute_incus ip_cmd 60 ;;
     match out with
     | Stdout s => ret (scan_addresses (Py.split_lines s) "Not assigned" "Not assigned")
     | PyTrue => raise (mk_exn AttributeError "'bool' object has no attribute 'split'")
     end)
    (fun e =>
       logger ERROR ("Error getting IPs for " +:+ container_name +:+ ": " +:+ exn_msg e) ;;;
       ret ("Error", "Error")).

Definition set_static_ip (container_name : string) (ipv4 ipv6 : option string)
  : M (World St) bool :=
  try_except
    ((if Py.truthy_opt ipv4 then
        execute_incus ("incus config device set " +:+ container_name
                         +:+ " eth0 ipv4.address=" +:+ default "" ipv4) 300 ;;; ret tt
      else ret tt) ;;;
     (if Py.truthy_opt ipv6 then
        execute_incus ("incus config device set " +:+ container_name
                         +:+ " eth0 ipv6.address=" +:+ default "" ipv6) 300 ;;; ret tt
      else ret tt) ;;;
     execute_incus ("incus restart " +:+ container_name) 300 ;;;
     ret true)
    (fun e =>
       logger ERROR ("Error setting static IP for " +:+ container_name +:+ ": "
                       +:+ exn_msg e) ;;;
       ret false).

End WorldOps.

(** ** The slash commands *)

(** For the slash commands the inventory is the dict [vps_data] itself: a
    map from [str(user.id)] to that user's list of records. *)
Abbreviation Inventory := (gmap string (list VPS)).

#[export] Instance inventory_store : Store Inventory := fun d => d.

Abbreviation State := (World Inventory).

(** What a command learns from its [interaction]: who invoked it, whether
    it came from a guild, and the clock ([datetime.now().isoformat()]). *)
Record Interaction : Set := mkInteraction {
  user : string;
  guild : bool;
  now : string
}.

Definition mention (member : string) : string := "<@" +:+ member +:+ ">".

(** [d[k]] in a dict literal. *)
Fixpoint assoc {A} (k : string) (d : list (string * A)) : option A :=
  match d with
  | [] => None
  | (k', v) :: d' => if String.eqb k k' then Some v else assoc k d'
  end.

Definition prices : list (string * list (string * Z)) :=
  [ ("Starter", [("Intel", 42); ("AMD", 83)]);
    ("Basic", [("Intel", 96); ("AMD", 164)]);
    ("Standard", [("Intel", 192); ("AMD", 320)]);
    ("Pro", [("Intel", 220); ("AMD", 340)]) ].

Record plan_spec : Set := mk_plan { p_ram : string; p_cpu : string; p_storage : string }.

Definition plans : list (string * plan_spec) :=
  [ ("Starter", mk_plan "4GB" "1" "10GB");
    ("Basic", mk_plan "8GB" "1" "10GB");
    ("Standard", mk_plan "12GB" "2" "10GB");
    ("Pro", mk_plan "16GB" "2" "10GB") ].

Section Commands.
Variable rt : Runtime.

(** [if user_id not in vps_data: vps_data[user_id] = []]. *)
Definition ensure_list (user_id : string) : M State unit :=
  modify (set_vps_data (fun d =>
    match d !! user_id with
    | Some _ => d
    | None => <[user_id := []]> d
    end)).

(** [vps_data[user_id].append(vps_info)]. *)
Definition append_vps (user_id : string) (vps_info : VPS) : M State unit :=
  w <- get ;;
  match vps_data w !! user_id with
  | Some l => modify (set_vps_data (<[user_id := (l ++ [vps_info])%list]>))
  | None => raise (mk_exn KeyError ("'" +:+ user_id +:+ "'"))
  end.

(** [if user_id not in user_data: user_data[user_id] = {"credits": 0}]. *)
Definition ensure_account (user_id : string) : M State unit :=
  modify (set_user_data (fun d =>
    match d !! user_id with
    | Some _ => d
    | None => <[user_id := 0]> d
    end)).

(** [user_data[user_id]["credits"]] once the account exists. *)
Definition credits (user_id : string) (w : State) : Z :=
  default 0 (user_data w !! user_id).

Definition container_name_for (user_id : string) (vps_count : Z) : string :=
  "vps-" +:+ user_id +:+ "-" +:+ Py.str_of_Z vps_count.

Definition launch_command (container_name : string) (ram_mb : Z) (cpu : string) : string :=
  "incus launch ubuntu:22.04 " +:+ container_name +:+ " --config limits.memory="
    +:+ Py.str_of_Z ram_mb +:+ "MB --config limits.cpu=" +:+ cpu +:+ " -s btrpool".

(** The address part shared by [slash_create] and [slash_buywc]: query the
    dynamic addresses, then try the static ones if any was asked for. *)
Definition assign_addresses (container_name : string) (ipv4 ipv6 : option string)
  : M State (string * string) :=
  sleep 10 ;;;
  dynamic <- get_container_ips rt container_name ;;
  if Py.truthy_opt ipv4 || Py.truthy_opt ipv6 then
    success <- set_static_ip rt container_name ipv4 ipv6 ;;
    if success : bool then
      sleep 5 ;;;
      get_container_ips rt container_name
    else
      discord (FollowupSend (create_warning_embed "Static IP Failed"
                               "Using dynamic IPs instead.")) ;;;
      ret dynamic
  else ret dynamic.

Definition slash_create (i : Interaction) (user : string) (ram cpu : Z)
    (ipv4 ipv6 : option string) : M State unit :=
  if ((ram <=? 0) || (cpu <=? 0))%Z then
    discord (SendMessage (create_error_embed "Invalid Specs"
                            "RAM and CPU must be positive integers."))
  else
    let user_id := user in
    ensure_list user_id ;;;
    l <- gets (fun w => default [] (vps_data w !! user_id)) ;;
    let vps_count := (Z.of_nat (length l) + 1)%Z in
    let container_name := container_name_for user_id vps_count in
    let ram_mb := (ram * 1024)%Z in
    discord (SendMessage (create_info_embed "Creating VPS"
               ("Deploying VPS for " +:+ mention user +:+ "..."))) ;;;
    try_except
      (execute_incus rt (launch_command container_name ram_mb (Py.str_of_Z cpu)) 300 ;;;
       ips <- assign_addresses container_name ipv4 ipv6 ;;
       let vps_info :=
         mkVPS container_name (Py.str_of_Z ram +:+ "GB") (Py.str_of_Z cpu) "10GB"
               (Some "running") (now i) (fst ips) (snd ips) (Some []) None None in
       append_vps user_id vps_info ;;;
       save_data ;;;
       (if guild i then discord (AddRole user) else ret tt) ;;;
       discord (EditOriginalResponse (create_success_embed "VPS Created Successfully" "")) ;;;
       discord (DirectMessage user
                  (create_success_embed "VPS Created!"
                     "Your VPS has been successfully deployed!")))
      (fun e =>
         discord (EditOriginalResponse
                    (create_error_embed "Creation Failed" ("Error: " +:+ exn_msg e)))).

Definition slash_delete_vps (i : Interaction) (user : string) (vps_number : Z)
    (reason : string) : M State unit :=
  let user_id := user in
  w <- get ;;
  match vps_data w !! user_id with
  | None =>
      discord (SendMessage (create_error_embed "Invalid VPS"
                              "Invalid VPS number or user doesn't have a VPS."))
  | Some l =>
      if ((vps_number <? 1) || (Z.of_nat (length l) <? vps_number))%Z then
        discord (SendMessage (create_error_embed "Invalid VPS"
                                "Invalid VPS number or user doesn't have a VPS."))
      else
        let idx := Z.to_nat (vps_number - 1) in
        match l !! idx with
        | None => raise (mk_exn IndexError "list index out of range")
        | Some vps =>
            let container_name := container_name vps in
            discord (SendMessage (create_info_embed "Deleting VPS"
                       ("Removing VPS #" +:+ Py.str_of_Z vps_number +:+ "..."))) ;;;
            try_except
              (execute_incus rt ("incus delete " +:+ container_name +:+ " --force") 300 ;;;
               modify (set_vps_data (<[user_id := delete idx l]>)) ;;;
               (if bool_decide (delete idx l = []) then
                  modify (set_vps_data (delete user_id)) ;;;
                  (if guild i then discord (RemoveRole user) else ret tt)
                else ret tt) ;;;
               save_data ;;;
               discord (EditOriginalResponse
                          (create_success_embed "VPS Deleted Successfully" "")))
              (fun e =>
                 discord (EditOriginalResponse
                            (create_error_embed "Deletion Failed"
                               ("Error: " +:+ exn_msg e))))
        end
  end.

Definition slash_share_user (i : Interaction) (shared_user : string) (vps_number : Z)
  : M State unit :=
  let user_id := user i in
  let shared_user_id := shared_user in
  w <- get ;;
  match vps_data w !! user_id with
  | None =>
      discord (SendMessage (create_error_embed "Invalid VPS"
                              "Invalid VPS number or you don't have a VPS."))
  | Some l =>
      if ((vps_number <? 1) || (Z.of_nat (length l) <? vps_number))%Z then
        discord (SendMessage (create_error_embed "Invalid VPS"
                                "Invalid VPS number or you don't have a VPS."))
      else
        let idx := Z.to_nat (vps_number - 1) in
        match l !! idx with
        | None => raise (mk_exn IndexError "list index out of range")
        | Some vps =>
            (* if "shared_with" not in vps: vps["shared_with"] = [] *)
            let current := default [] (shared_with vps) in
            if bool_decide (shared_user_id ∈ current) then
              modify (set_vps_data (<[user_id := <[idx := set_shared_with current vps]> l]>)) ;;;
              discord (SendMessage (create_error_embed "Already Shared"
                         (mention shared_user +:+ " already has access!")))
            else
              modify (set_vps_data
                        (<[user_id := <[idx := set_shared_with (current ++ [shared_user_id])%list vps]> l]>)) ;;;
              save_data ;;;
              discord (SendMessage (create_success_embed "VPS Shared"
                         ("VPS #" +:+ Py.str_of_Z vps_number +:+ " shared with "
                            +:+ mention shared_user +:+ "!"))) ;;;
              discord (DirectMessage shared_user
                         (mk_embed Plain "VPS Access Granted"
                            ("You have access to VPS #" +:+ Py.str_of_Z vps_number
                               +:+ " from " +:+ mention (user i)
                         +:+ ". Use `/manage-shared " +:+ mention (user i) +:+ " "
                         +:+ Py.str_of_Z vps_number +:+ "`")))
        end
  end.

(** [list.remove(x)]: the first occurrence goes. *)
Fixpoint list_remove (x : string) (l : list string) : list string :=
  match l with
  | [] => []
  | y :: l' => if String.eqb x y then l' else y :: list_remove x l'
  end.

Definition slash_revoke_share (i : Interaction) (shared_user : string) (vps_number : Z)
  : M State unit :=
  let user_id := user i in
  let shared_user_id := shared_user in
  w <- get ;;
  match vps_data w !! user_id with
  | None =>
      discord (SendMessage (create_error_embed "Invalid VPS"
                              "Invalid VPS number or you don't have a VPS."))
  | Some l =>
      if ((vps_number <? 1) || (Z.of_nat (length l) <? vps_number))%Z then
        discord (SendMessage (create_error_embed "Invalid VPS"
                                "Invalid VPS number or you don't have a VPS."))
      else
        let idx := Z.to_nat (vps_number - 1) in
        match l !! idx with
        | None => raise (mk_exn IndexError "list index out of range")
        | Some vps =>
            let current := default [] (shared_with vps) in
            if negb (bool_decide (shared_user_id ∈ current)) then
              modify (set_vps_data (<[user_id := <[idx := set_shared_with current vps]> l]>)) ;;;
              discord (SendMessage (create_error_embed "Not Shared"
                         (mention shared_user +:+ " doesn't have access!")))
            else
              modify (set_vps_data
                        (<[user_id := <[idx := set_shared_with (list_remove shared_user_id current) vps]> l]>)) ;;;
              save_data ;;;
              discord (SendMessage (create_success_embed "Access Revoked"
                         ("Access to VPS #" +:+ Py.str_of_Z vps_number
                            +:+ " revoked from " +:+ mention shared_user +:+ "!"))) ;;;
              discord (DirectMessage shared_user
                         (mk_embed Plain "VPS Access Revoked"
                            ("Your access to VPS #" +:+ Py.str_of_Z vps_number
                               +:+ " by " +:+ mention (user i) +:+ " has been revoked.")))
        end
  end.

(** *** Credits *)

Definition slash_buywc (i : Interaction) (plan processor : string)
    (ipv4 ipv6 : option string) : M State unit :=
  let user_id := user i in
  match assoc plan prices with
  | None =>
      discord (SendMessage (create_error_embed "Invalid Plan"
                              "Available: Starter, Basic, Standard, Pro"))
  | Some by_processor =>
      if negb (bool_decide (processor ∈ ["Intel"; "AMD"])) then
        discord (SendMessage (create_error_embed "Invalid Processor"
                                "Choose: Intel or AMD"))
      else
        match assoc processor by_processor with
        | None => raise (mk_exn KeyError ("'" +:+ processor +:+ "'"))
        | Some cost =>
            ensure_account user_id ;;;
            balance <- gets (credits user_id) ;;
            if (balance <? cost)%Z then
              discord (SendMessage (create_error_embed "Insufficient Credits"
                         ("You need " +:+ Py.str_of_Z cost +:+ " credits but have "
                            +:+ Py.str_of_Z balance)))
            else
              modify (set_user_data (<[user_id := (balance - cost)%Z]>)) ;;;
              ensure_list user_id ;;;
              l <- gets (fun w => default [] (vps_data w !! user_id)) ;;
              let vps_count := (Z.of_nat (length l) + 1)%Z in
              let container_name := container_name_for user_id vps_count in
              match assoc plan plans with
              | None => raise (mk_exn KeyError ("'" +:+ plan +:+ "'"))
              | Some spec =>
                  let ram_str := p_ram spec in
                  let cpu_str := p_cpu spec in
                  match Py.int (Py.replace "GB" "" ram_str) with
                  | None => raise (mk_exn ValueError "invalid literal for int() with base 10")
                  | Some ram_gb =>
                      let ram_mb := (ram_gb * 1024)%Z in
                      discord (SendMessage (create_info_embed "Processing Purchase"
                                 ("Deploying " +:+ plan +:+ " VPS..."))) ;;;
                      try_except
                        (execute_incus rt (launch_command container_name ram_mb cpu_str) 300 ;;;
                         ips <- assign_addresses container_name ipv4 ipv6 ;;
                         let vps_info :=
                           mkVPS container_name ram_str cpu_str (p_storage spec)
                                 (Some "running") (now i) (fst ips) (snd ips) (Some [])
                                 (Some plan) (Some processor) in
                         append_vps user_id vps_info ;;;
                         save_data ;;;
                         (if guild i then discord (AddRole user_id) else ret tt) ;;;
                         discord (EditOriginalResponse
                                    (create_success_embed "VPS Purchased Successfully" "")) ;;;
                         discord (DirectMessage user_id
                                    (create_success_embed "VPS Purchased!"
                                       ("Your " +:+ plan
                                          +:+ " VPS has been successfully deployed!"))))
                        (fun e =>
                           discord (EditOriginalResponse
                                      (create_error_embed "Purchase Failed"
                                         ("Error: " +:+ exn_msg e))))
                  end
              end
        end
  end.

Definition slash_admin_credits (i : Interaction) (user : string) (amount : Z)
  : M State unit :=
  if (amount <=? 0)%Z then
    discord (SendMessage (create_error_embed "Invalid Amount"
                            "Amount must be a positive integer."))
  else
    let user_id := user in
    ensure_account user_id ;;;
    balance <- gets (credits user_id) ;;
    modify (set_user_data (<[user_id := (balance + amount)%Z]>)) ;;;
    save_data ;;;
    discord (SendMessage (create_success_embed "Credits Added"
               ("Added " +:+ Py.str_of_Z amount +:+ " credits to " +:+ mention user
              +:+ Py.nl +:+ "New balance: " +:+ Py.str_of_Z (balance + amount)))).

Definition slash_admin_remove_credits (i : Interaction) (user : string)
    (amount_or_all : string) : M State unit :=
  let user_id := user in
  ensure_account user_id ;;;
  current_credits <- gets (credits user_id) ;;
  if String.eqb (Py.lower amount_or_all) "all" then
    modify (set_user_data (<[user_id := 0%Z]>)) ;;;
    save_data ;;;
    discord (SendMessage (create_success_embed "Credits Removed"
               ("All credits removed from " +:+ mention user
              +:+ Py.nl +:+ "Remaining: " +:+ Py.str_of_Z 0)))
  else
    match Py.int amount_or_all with
    | None =>
        discord (SendMessage (create_error_embed "Invalid Amount" "Enter number or 'all'"))
    | Some amount =>
        if (amount <=? 0)%Z then
          discord (SendMessage (create_error_embed "Invalid Amount"
                                  "Use positive number or 'all'"))
        else
          let amount := if (amount >? current_credits)%Z then current_credits else amount in
          balance <- gets (credits user_id) ;;
          modify (set_user_data (<[user_id := (balance - amount)%Z]>)) ;;;
          save_data ;;;
          discord (SendMessage (create_success_embed "Credits Removed"
                     (Py.str_of_Z amount +:+ " credits removed from " +:+ mention user
                    +:+ Py.nl +:+ "Remaining: " +:+ Py.str_of_Z (balance - amount))))
    end.

Definition slash_credits (i : Interaction) : M State unit :=
  let user_id := user i in
  w <- get ;;
  (match user_data w !! user_id with
   | Some _ => ret tt
   | None => modify (set_user_data (<[user_id := 0%Z]>)) ;;; save_data
   end) ;;;
  discord (SendMessage (mk_embed Plain "Credit Balance" "Your account balance:")).

End Commands.

(** ** CPU monitor *)

Definition CPU_THRESHOLD : Q := 90.
Definition CHECK_INTERVAL : Z := 60.

Definition stop_all_command : string := "incus stop --all --force".
Definition top_command : string := "top -bn1".

(** [if vps.get('status') == 'running': vps['status'] = 'stopped']. *)
Definition stop_if_running (vps : VPS) : VPS :=
  if bool_decide (status vps = Some "running") then set_status "stopped" vps else vps.

(** The [for] loops over [vps_data.items()] and each [vps_list]. *)
Definition mark_all_stopped (d : Inventory) : Inventory :=
  fmap (M := gmap string) (fun vps_list : list VPS => stop_if_running <$> vps_list) d.

(** One pass through the body of the [while] loop of [cpu_monitor].
    [cpu_usage] is what [get_cpu_usage] returns this time (a rational
    stands for the float; the call shows as the [top] it runs) and
    [stop_all] is what [subprocess.run(..., check=True)] does if it is
    reached: a return code, or the exception raised before the process
    ran.  The log lines are kept without the numbers they print. *)
Definition cpu_monitor_body (cpu_usage : Q) (stop_all : res Z) : M State unit :=
  try_except
    (modify (add_call top_command) ;;;
     logger INFO "Current CPU usage" ;;;
     (if negb (Qle_bool cpu_usage CPU_THRESHOLD) then
        logger WARNING "CPU usage exceeded threshold. Stopping all VPS." ;;;
        try_except
          (modify (add_call stop_all_command) ;;;
           match stop_all with
           | Ret returncode =>
               if (returncode =? 0)%Z then
                 logger INFO "All VPS stopped due to high CPU usage" ;;;
                 modify (set_vps_data mark_all_stopped) ;;;
                 save_data
               else
                 raise (mk_exn CalledProcessError
                          ("Command returned non-zero exit status "
                             +:+ Py.str_of_Z returncode +:+ "."))
           | Raise e => raise e
           end)
          (fun e => logger ERROR ("Error stopping all VPS: " +:+ exn_msg e))
      else ret tt) ;;;
     sleep CHECK_INTERVAL)
    (fun e =>
       logger ERROR ("Error in CPU monitor: " +:+ exn_msg e) ;;;
       sleep CHECK_INTERVAL).

(** The monitor thread is scheduled: it is at the head of [while
    cpu_monitor_active].  When the flag is down the function returns and the
    thread is over; nothing in the program starts another one. *)
Definition cpu_monitor (cpu_usage : Q) (stop_all : res Z) : M State unit :=
  w <- get ;;
  if negb (monitor_alive w) then ret tt
  else if negb (cpu_monitor_active w) then modify (set_monitor_alive false)
  else cpu_monitor_body cpu_usage stop_all.

Definition slash_cpu_monitor (i : Interaction) (action : string) : M State unit :=
  let a := Py.lower action in
  if String.eqb a "status" then
    w <- get ;;
    discord (SendMessage (mk_embed Plain "CPU Monitor Status"
               ("CPU monitoring is currently **"
                  +:+ (if cpu_monitor_active w then "Active" else "Inactive") +:+ "**")))
  else if String.eqb a "enable" then
    modify (set_cpu_monitor_active true) ;;;
    discord (SendMessage (create_success_embed "CPU Monitor Enabled"
                            "CPU monitoring has been enabled."))
  else if String.eqb a "disable" then
    modify (set_cpu_monitor_active false) ;;;
    discord (SendMessage (create_warning_embed "CPU Monitor Disabled"
                            "CPU monitoring has been disabled."))
  else
    discord (SendMessage (create_error_embed "Invalid Action"
                            "Use: `/cpu-monitor <status|enable|disable>`")).

(** What happens to the process, one thing at a time: the monitor thread
    gets its turn (once per [CHECK_INTERVAL], after its [time.sleep]), or an
    operator issues [/cpu_monitor]. *)
Inductive event : Type :=
| MonitorTurn (cpu_usage : Q) (stop_all : res Z)
| OperatorCommand (i : Interaction) (action : string).

Definition step (e : event) (w : State) : State :=
  match e with
  | MonitorTurn cpu_usage stop_all => exec (cpu_monitor cpu_usage stop_all) w
  | OperatorCommand i action => exec (slash_cpu_monitor i action) w
  end.

Definition run (es : list event) (w : State) : State := fold_left (fun w e => step e w) es w.

(** How often a command line was sent. *)
Definition count_calls (c : string) (w : State) : nat :=
  length (filter (fun x => x = c) (calls w)).

Definition MAIN_ADMIN_ID : Z := 1405866008127864852.

(** The state right after the module is loaded with nothing on disk: no
    records and no credits, the main admin as the one admin that
    [load_admin_data] falls back to, the monitor flag up and its thread
    started. *)
Definition initial_state : State :=
  mkWorld ∅ ∅ [Py.str_of_Z MAIN_ADMIN_ID] true true (mkDisk ∅ ∅ []) [] [] [].

(** ** Loading the inventory: legacy shapes *)

Module Loader.

(** A parsed JSON document.  An object keeps its members in file order,
    as the dict [json.load] builds does. *)
Inductive json : Type :=
| JNull
| JBool (b : bool)
| JNumber (n : Z)
| JString (s : string)
| JArray (items : list json)
| JObject (members : list (string * json)).

(** What opening and parsing [vps_data.json] gives. *)
Inductive file : Type :=
| NotFound
| Corrupted
| Parsed (loaded : json).

(** [key in v] for a dict [v]. *)
Definition has_key (key : string) (members : list (string * json)) : bool :=
  existsb (fun m => String.eqb key (fst m)) members.

(** [list(v.values())]. *)
Definition values (members : list (string * json)) : list json := snd <$> members.

Definition unknown_format (uid : string) : log_level * string :=
  (WARNING, "Unknown VPS data format for user " +:+ uid +:+ ", skipping").

(** The [for uid, v in loaded.items()] loop, carrying [vps_data] and the
    log. *)
Fixpoint load_items (items : list (string * json))
    (vps_data : gmap string (list json)) (log : list (log_level * string))
  : gmap string (list json) * list (log_level * string) :=
  match items with
  | [] => (vps_data, log)
  | (uid, v) :: rest =>
      match v with
      | JObject members =>
          if has_key "container_name" members
          then load_items rest (<[uid := [v]]> vps_data) log
          else load_items rest (<[uid := values members]> vps_data) log
      | JArray l => load_items rest (<[uid := l]> vps_data) log
      | _ => load_items rest vps_data (log ++ [unknown_format uid])%list
      end
  end.

Definition load_vps_data (f : file)
  : res (gmap string (list json)) * list (log_level * string) :=
  match f with
  | Parsed (JObject items) =>
      let r := load_items items ∅ [] in (Ret (fst r), snd r)
  | Parsed _ =>
      (Raise (mk_exn AttributeError "object has no attribute 'items'"), [])
  | NotFound | Corrupted =>
      (Ret ∅, [(WARNING, "vps_data.json not found or corrupted, initializing empty data")])
  end.

(** A record object is a dict with a ["container_name"] member: that is
    how the loader itself tells a record from a mapping. *)
Definition is_record (v : json) : Prop :=
  match v with
  | JObject members => has_key "container_name" members = true
  | _ => False
  end.

(** The shapes the loader does not know. *)
Definition unrecognized (v : json) : Prop :=
  match v with
  | JObject _ | JArray _ => False
  | _ => True
  end.

End Loader.

(** ** ManageView: the buttons *)

Module Manage.

(** The view keeps the list it was opened on, and the confirmation dialog
    keeps the record: both are references to objects that [vps_data]
    reaches too.  Here the inventory is a heap of list and record objects
    and [vps_data] maps each key to a list object. *)
Definition ref : Set := nat.

Record Heap : Type := mkHeap {
  records : gmap ref VPS;
  lists : gmap ref (list ref);
  roots : gmap string ref
}.

Definition set_record (r : ref) (f : VPS -> VPS) (h : Heap) : Heap :=
  mkHeap (alter f r (records h)) (lists h) (roots h).

(** What [json.dump(vps_data, ...)] writes: every reference followed. *)
#[export] Instance heap_store : Store Heap := fun h =>
  omap (fun lr : ref => l ← lists h !! lr; mapM (fun r : ref => records h !! r) l)
       (roots h).

(** The names bound at module level in the program, in source order:
    imports, assignments, [def]s and the one [class]. *)
Definition module_globals : list string :=
  [ "discord"; "commands"; "asyncio"; "subprocess"; "json"; "datetime"; "shlex";
    "logging"; "shutil"; "os"; "Optional"; "List"; "Dict"; "Any"; "threading";
    "time"; "re"; "app_commands";
    "logger"; "intents"; "bot"; "to"; "MAIN_ADMIN_ID"; "VPS_USER_ROLE_ID";
    "CPU_THRESHOLD"; "CHECK_INTERVAL"; "cpu_monitor_active"; "HOST_IPV4";
    "HOST_IPV6_LINKLOCAL";
    "load_data"; "load_vps_data"; "load_admin_data";
    "user_data"; "vps_data"; "admin_data";
    "save_data"; "is_admin"; "is_main_admin";
    "create_embed"; "create_success_embed"; "create_error_embed";
    "create_info_embed"; "create_warning_embed";
    "execute_incus"; "get_container_ips"; "set_static_ip";
    "get_or_create_vps_role"; "get_cpu_usage"; "cpu_monitor"; "cpu_thread";
    "on_ready"; "on_app_command_error"; "on_command_error";
    "slash_create"; "ManageView"; "manage_vps"; "slash_list_all";
    "slash_manage_shared"; "slash_share_user"; "slash_revoke_share";
    "slash_buywc"; "slash_buyc"; "slash_delete_vps"; "slash_plans";
    "slash_admin_credits"; "slash_admin_remove_credits"; "slash_admin_add";
    "slash_admin_remove"; "slash_admin_list"; "slash_credits"; "slash_user_info";
    "slash_server_stats"; "slash_vps_info"; "slash_restart_vps";
    "slash_backup_vps"; "slash_restore_vps"; "slash_list_snapshots";
    "slash_execute"; "slash_stop_all_vps"; "slash_cpu_monitor"; "slash_set_ip";
    "slash_help"; "legacy_create" ].

Record ManageView : Set := mkView {
  user_id : string;
  vps_list : ref;
  selected_index : option nat;
  is_shared : bool;
  owner_id : string;
  is_admin : bool
}.

Record ConfirmView : Set := mkConfirm {
  parent_view : ManageView;
  cv_container_name : string;
  cv_vps : ref;
  cv_owner_id : string;
  cv_selected_index : option nat
}.

(** The buttons whose callbacks are modelled; the SSH button is not. *)
Inductive action : Set := reinstall | start | stop.

Section Callbacks.
Variable rt : Runtime.

Abbreviation Cmd := (M (World Heap)).

(** [await name(command, timeout=...)] for a name looked up in the
    module's globals when the call is reached. *)
Definition call_global (name command : string) (timeout : Z) : Cmd output :=
  if bool_decide (name ∈ module_globals) then
    if String.eqb name "execute_incus" then execute_incus rt command timeout
    else raise (mk_exn TypeError ("'" +:+ name +:+ "' does not take a command line"))
  else raise (mk_exn NameError ("name '" +:+ name +:+ "' is not defined")).

(** [lst[index]] on a list object. *)
Definition list_item (lr : ref) (index : option nat) : Cmd ref :=
  w <- get ;;
  match index with
  | None =>
      raise (mk_exn TypeError "list indices must be integers or slices, not NoneType")
  | Some n =>
      match lists (vps_data w) !! lr ≫= (fun l => l !! n) with
      | Some r => ret r
      | None => raise (mk_exn IndexError "list index out of range")
      end
  end.

(** [vps_data[owner_id]]. *)
Definition owner_list (owner_id : string) : Cmd ref :=
  w <- get ;;
  match roots (vps_data w) !! owner_id with
  | Some lr => ret lr
  | None => raise (mk_exn KeyError ("'" +:+ owner_id +:+ "'"))
  end.

(** [vps[key]] for the keys every record has. *)
Definition field (f : VPS -> string) (key : string) (r : ref) : Cmd string :=
  w <- get ;;
  match records (vps_data w) !! r with
  | Some vps => ret (f vps)
  | None => raise (mk_exn KeyError ("'" +:+ key +:+ "'"))
  end.

(** [ConfirmView.confirm]. *)
Definition confirm (self : ConfirmView) (i : Interaction) : Cmd unit :=
  discord Defer ;;;
  try_except
    (discord (FollowupSend (create_info_embed "Deleting Container"
                ("Forcefully removing container `" +:+ cv_container_name self +:+ "`..."))) ;;;
     call_global "execute_lxc" ("incus delete " +:+ cv_container_name self +:+ " --force") 300 ;;;
     discord (FollowupSend (create_info_embed "Recreating Container"
                ("Creating new container `" +:+ cv_container_name self +:+ "`..."))) ;;;
     original_ram <- field ram "ram" (cv_vps self) ;;
     original_cpu <- field cpu "cpu" (cv_vps self) ;;
     match Py.int (Py.replace "GB" "" original_ram) with
     | None => raise (mk_exn ValueError "invalid literal for int() with base 10")
     | Some gb =>
         let ram_mb := (gb * 1024)%Z in
         call_global "execute_lxc"
           ("incus launch images:ubuntu/22.04 " +:+ cv_container_name self
              +:+ " --config limits.memory=" +:+ Py.str_of_Z ram_mb
              +:+ "MB --config limits.cpu=" +:+ original_cpu +:+ " -s btrpool") 300 ;;;
         modify (set_vps_data (set_record (cv_vps self) (set_status "running"))) ;;;
         modify (set_vps_data (set_record (cv_vps self) (set_created_at (now i)))) ;;;
         save_data ;;;
         discord (FollowupSend (create_success_embed "Reinstall Complete"
                    ("VPS `" +:+ cv_container_name self
                       +:+ "` has been successfully reinstalled!"))) ;;;
         (if negb (is_shared (parent_view self)) then discord EditMessage else ret tt)
     end)
    (fun e =>
       discord (FollowupSend (create_error_embed "Reinstall Failed"
                                ("Error: " +:+ exn_msg e)))).

(** The record the buttons act on: [vps_data[self.owner_id][self.selected_index]]
    for a shared view, [self.vps_list[self.selected_index]] otherwise. *)
Definition selected_vps (self : ManageView) : Cmd ref :=
  if is_shared self then
    lr <- owner_list (owner_id self) ;;
    list_item lr (selected_index self)
  else list_item (vps_list self) (selected_index self).

(** The first check of the callback. *)
Definition denied (self : ManageView) (i : Interaction) : bool :=
  negb (String.eqb (user i) (user_id self)) && negb (is_admin self).

(** [ManageView.action_callback]; for [reinstall] the result is the
    confirmation dialog attached to the reply. *)
Definition action_callback (self : ManageView) (i : Interaction) (a : action)
  : Cmd (option ConfirmView) :=
  if denied self i then
    discord (SendMessage (create_error_embed "Access Denied" "This is not your VPS!")) ;;;
    ret None
  else
    vps <- selected_vps self ;;
    container_name <- field container_name "container_name" vps ;;
    match a with
    | reinstall =>
        if is_shared self || is_admin self then
          discord (SendMessage (create_error_embed "Access Denied"
                                  "Only the VPS owner can reinstall!")) ;;;
          ret None
        else
          discord (SendMessage (create_warning_embed "Reinstall Warning"
                     ("**WARNING:** This will erase all data on VPS `" +:+ container_name
                   +:+ "` and reinstall Ubuntu 22.04." +:+ Py.nl +:+ Py.nl
                   +:+ "This action cannot be undone. Continue?"))) ;;;
          ret (Some (mkConfirm self container_name vps (owner_id self)
                               (selected_index self)))
    | start =>
        discord Defer ;;;
        try_except
          (call_global "execute_lxc" ("incus start " +:+ container_name) 300 ;;;
           modify (set_vps_data (set_record vps (set_status "running"))) ;;;
           save_data ;;;
           discord (FollowupSend (create_success_embed "VPS Started"
                      ("VPS `" +:+ container_name +:+ "` is now running!"))) ;;;
           discord EditMessage)
          (fun e => discord (FollowupSend (create_error_embed "Start Failed" (exn_msg e)))) ;;;
        ret None
    | stop =>
        discord Defer ;;;
        try_except
          (call_global "execute_lxc" ("incus stop " +:+ container_name) 120 ;;;
           modify (set_vps_data (set_record vps (set_status "stopped"))) ;;;
           save_data ;;;
           discord (FollowupSend (create_success_embed "VPS Stopped"
                      ("VPS `" +:+ container_name +:+ "` has been stopped!"))) ;;;
           discord EditMessage)
          (fun e => discord (FollowupSend (create_error_embed "Stop Failed" (exn_msg e)))) ;;;
        ret None
    end.

End Callbacks.

End Manage.

(** ** Sampling the CPU *)

Module Text.

(** [s.split(sep)] for a one-character separator. *)
Fixpoint split_aux (sep : ascii) (cur : string) (s : string) : list string :=
  match s with
  | EmptyString => [cur]
  | String c s' =>
      if Ascii.eqb c sep
      then cur :: split_aux sep EmptyString s'
      else split_aux sep (cur +:+ String c EmptyString) s'
  end.

Definition split (sep : ascii) (s : string) : list string :=
  split_aux sep EmptyString s.

(** [s.split()]: the maximal runs without whitespace, in order. *)
Fixpoint words_aux (cur : string) (s : string) : list string :=
  match s with
  | EmptyString => if Py.truthy cur then [cur] else []
  | String c s' =>
      if Py.isspace c
      then (if Py.truthy cur then cur :: words_aux EmptyString s'
            else words_aux EmptyString s')
      else words_aux (cur +:+ String c EmptyString) s'
  end.

Definition words (s : string) : list string := words_aux EmptyString s.

(** [s[:n]]. *)
Fixpoint take (n : nat) (s : string) : string :=
  match n, s with
  | S n', String c s' => String c (take n' s')
  | _, _ => EmptyString
  end.

(** The character [c] occurs in [s]. *)
Fixpoint has_char (c : ascii) (s : string) : bool :=
  match s with
  | EmptyString => false
  | String c' s' => Ascii.eqb c c' || has_char c s'
  end.

End Text.

Section CpuUsage.

(** [float(s)] stays a parameter: [None] is [ValueError]. *)
Variable float : string -> option Q.

(** [float(part.split('%')[0].split()[-1])]. *)
Definition idle_of (part : string) : res Q :=
  match last (Text.words (hd EmptyString (Text.split "%"%char part))) with
  | None => Raise (mk_exn IndexError "list index out of range")
  | Some token =>
      match float token with
      | Some idle => Ret idle
      | None => Raise (mk_exn ValueError "could not convert string to float")
      end
  end.

(** The inner [for part in parts] loop: [Some] when it returns or raises. *)
Fixpoint scan_parts (parts : list string) : option (res Q) :=
  match parts with
  | [] => None
  | part :: rest =>
      if Py.contains "id," part then
        Some (match idle_of part with
              | Ret idle => Ret (100 - idle)%Q
              | Raise e => Raise e
              end)
      else scan_parts rest
  end.

(** The outer [for line in output.split('\n')] loop. *)
Fixpoint scan_top (lines : list string) : option (res Q) :=
  match lines with
  | [] => None
  | line :: rest =>
      if Py.contains "%Cpu(s):" line then
        match scan_parts (Text.split ","%char line) with
        | Some r => Some r
        | None => scan_top rest
        end
      else scan_top rest
  end.

(** [get_cpu_usage], given what [subprocess.run(['top', '-bn1'], ...)]
    did: its stdout, or the exception it raised.  The result is the usage
    and the error line logged, if any. *)
Definition get_cpu_usage (top : res string) : Q * option (log_level * string) :=
  match top with
  | Raise e => (0%Q, Some (ERROR, "Error getting CPU usage: " +:+ exn_msg e))
  | Ret output =>
      match scan_top (Py.split_lines output) with
      | Some (Ret usage) => (usage, None)
      | Some (Raise e) => (0%Q, Some (ERROR, "Error getting CPU usage: " +:+ exn_msg e))
      | None => (0%Q, None)
      end
  end.

(** The monitor's turns when the samples come from [get_cpu_usage]: each
    turn is given what [top] printed and what the forced stop would do. *)
Definition sampled_turns (tops : list (res string * res Z)) : list event :=
  (fun t => MonitorTurn (fst (get_cpu_usage (fst t))) (snd t)) <$> tops.

End CpuUsage.

(** ** More slash commands *)

(** Names for what a parameter of the same name would hide. *)
Definition invoker (i : Interaction) : string := user i.
Definition ipv4_of (vps : VPS) : string := ipv4 vps.
Definition ipv6_of (vps : VPS) : string := ipv6 vps.

Definition set_ipv4 (v : string) (r : VPS) : VPS :=
  mkVPS (container_name r) (ram r) (cpu r) (storage r) (status r) (created_at r)
        v (ipv6 r) (shared_with r) (plan r) (processor r).

Definition set_ipv6 (v : string) (r : VPS) : VPS :=
  mkVPS (container_name r) (ram r) (cpu r) (storage r) (status r) (created_at r)
        (ipv4 r) v (shared_with r) (plan r) (processor r).

(** The predicate of [is_admin()]: the main admin, or a member of
    [admin_data["admins"]].  [admin_data] is kept as that list; an absent
    key reads as the empty list, as [admin_data.get("admins", [])] does. *)
Definition is_admin {St} (user_id : string) (w : World St) : bool :=
  String.eqb user_id (Py.str_of_Z MAIN_ADMIN_ID) || bool_decide (user_id ∈ admin_data w).

(** The predicate of [is_main_admin()]. *)
Definition is_main_admin (user_id : string) : bool :=
  String.eqb user_id (Py.str_of_Z MAIN_ADMIN_ID).

Definition set_admin_data {St} (f : list string -> list string) (w : World St) : World St :=
  mkWorld (vps_data w) (user_data w) (f (admin_data w)) (cpu_monitor_active w)
          (monitor_alive w) (disk w) (calls w) (outbox w) (logs w).

(** A [for] loop whose body may raise. *)
Fixpoint for_each {S A} (l : list A) (body : A -> M S unit) : M S unit :=
  match l with
  | [] => ret tt
  | a :: rest => body a ;;; for_each rest body
  end.

(** The inner loop of [slash_restart_vps] on one user's list: the first
    record with that name is marked running; [None] when there is none. *)
Fixpoint mark_first_running (name : string) (l : list VPS) : option (list VPS) :=
  match l with
  | [] => None
  | vps :: rest =>
      if String.eqb (container_name vps) name then Some (set_status "running" vps :: rest)
      else (fun rest' => vps :: rest') <$> mark_first_running name rest
  end.

(** The position of the first record named [name] in a list. *)
Fixpoint find_name (name : string) (l : list VPS) : option nat :=
  match l with
  | [] => None
  | vps :: rest =>
      if String.eqb (container_name vps) name then Some 0%nat
      else S <$> find_name name rest
  end.

(** The first user, in the order [vps_data.items()] yields them, who has a
    record named [name], with the position of the record. *)
Fixpoint find_owner (name : string) (order : list string) (d : Inventory)
  : option (string * nat) :=
  match order with
  | [] => None
  | uid :: rest =>
      match d !! uid ≫= find_name name with
      | Some idx => Some (uid, idx)
      | None => find_owner name rest d
      end
  end.

(** [new or old] for an optional argument [new]. *)
Definition or_else (new : option string) (old : string) : string :=
  match new with
  | Some s => if Py.truthy s then s else old
  | None => old
  end.

(** How many records of a list, and of the inventory, are running. *)
Definition running_in (l : list VPS) : nat :=
  length (filter (fun vps => status vps = Some "running") l).

Definition running_count (d : Inventory) : nat :=
  sum_list ((fun entry => running_in (snd entry)) <$> map_to_list d).

Section MoreCommands.
Variable rt : Runtime.

Definition slash_admin_add (i : Interaction) (user : string) : M State unit :=
  let user_id := user in
  w <- get ;;
  if String.eqb user_id (Py.str_of_Z MAIN_ADMIN_ID) then
    discord (SendMessage (create_error_embed "Already Admin"
                            "This user is already the main admin!"))
  else if bool_decide (user_id ∈ admin_data w) then
    discord (SendMessage (create_error_embed "Already Admin"
                            (mention user +:+ " is already an admin!")))
  else
    modify (set_admin_data (fun admins => admins ++ [user_id])) ;;;
    save_data ;;;
    discord (SendMessage (create_success_embed "Admin Added"
                            (mention user +:+ " is now an admin!"))) ;;;
    discord (DirectMessage user
               (mk_embed Success "Admin Role Granted"
                  ("You are now an admin by " +:+ mention (invoker i)))).

Definition slash_admin_remove (i : Interaction) (user : string) : M State unit :=
  let user_id := user in
  w <- get ;;
  if String.eqb user_id (Py.str_of_Z MAIN_ADMIN_ID) then
    discord (SendMessage (create_error_embed "Cannot Remove"
                            "You cannot remove the main admin!"))
  else if negb (bool_decide (user_id ∈ admin_data w)) then
    discord (SendMessage (create_error_embed "Not Admin"
                            (mention user +:+ " is not an admin!")))
  else
    modify (set_admin_data (list_remove user_id)) ;;;
    save_data ;;;
    discord (SendMessage (create_success_embed "Admin Removed"
                            (mention user +:+ " is no longer an admin!"))) ;;;
    discord (DirectMessage user
               (mk_embed Error "Admin Role Revoked"
                  ("Your admin role was removed by " +:+ mention (invoker i)))).

(** The body of the outer loop of [slash_restart_vps] for one user. *)
Definition mark_restarted (container_name : string) (user_id : string) : M State unit :=
  w <- get ;;
  match vps_data w !! user_id ≫= mark_first_running container_name with
  | Some vps_list => modify (set_vps_data (<[user_id := vps_list]>)) ;;; save_data
  | None => ret tt
  end.

(** [slash_restart_vps]; [order] is the order in which [vps_data.items()]
    yields the users. *)
Definition slash_restart_vps (order : list string) (i : Interaction)
    (container_name : string) : M State unit :=
  discord (SendMessage (create_info_embed "Restarting VPS"
             ("Restarting VPS `" +:+ container_name +:+ "`..."))) ;;;
  try_except
    (execute_incus rt ("incus restart " +:+ container_name) 300 ;;;
     for_each order (mark_restarted container_name) ;;;
     discord (EditOriginalResponse
                (create_success_embed "VPS Restarted"
                   ("VPS `" +:+ container_name +:+ "` has been restarted successfully!"))))
    (fun e =>
       discord (EditOriginalResponse
                  (create_error_embed "Restart Failed" ("Error: " +:+ exn_msg e)))).



(** [slash_set_ip]; [order] is the order in which [vps_data.items()] yields
    the users. *)
Definition slash_set_ip (order : list string) (i : Interaction) (container_name : string)
    (ipv4 ipv6 : option string) : M State unit :=
  w <- get ;;
  match find_owner container_name order (vps_data w) with
  | None =>
      discord (SendMessage (create_error_embed "VPS Not Found"
                 ("No VPS with container `" +:+ container_name +:+ "`.")))
  | Some (user_id, idx) =>
      success <- set_static_ip rt container_name ipv4 ipv6 ;;
      if success : bool then
        modify (set_vps_data (fun d =>
                  match d !! user_id with
                  | Some vps_list =>
                      <[user_id := alter (fun vps =>
                                            set_ipv6 (or_else ipv6 (ipv6_of vps))
                                              (set_ipv4 (or_else ipv4 (ipv4_of vps)) vps))
                                         idx vps_list]> d
                  | None => d
                  end)) ;;;
        save_data ;;;
        w' <- get ;;
        let vps := vps_data w' !! user_id ≫= (fun vps_list => vps_list !! idx) in
        discord (SendMessage (create_success_embed "Static IP Set"
                   ("Updated IPs for `" +:+ container_name +:+ "`: IPv4="
                      +:+ default "" (ipv4_of <$> vps) +:+ ", IPv6="
                      +:+ default "" (ipv6_of <$> vps))))
      else
        discord (SendMessage (create_error_embed "IP Set Failed"
                   ("Failed to set IPs for `" +:+ container_name
                      +:+ "`. Check Incus config.")))
  end.

End MoreCommands.

(** ** Stopping everything, on request *)

Module StopAll.

(** [ConfirmView.confirm] of [slash_stop_all_vps].  [result] is what running
    [incus stop --all --force] did: the exception raised, or the return
    code with the decoded stdout and stderr. *)
Definition confirm (i : Interaction) (result : res (Z * string * string)) : M State unit :=
  discord Defer ;;;
  try_except
    (modify (add_call stop_all_command) ;;;
     match result with
     | Raise e => raise e
     | Ret (returncode, stdout, stderr) =>
         if (returncode =? 0)%Z then
           w <- get ;;
           let stopped_count := running_count (vps_data w) in
           modify (set_vps_data mark_all_stopped) ;;;
           save_data ;;;
           discord (FollowupSend
                      (create_success_embed "All VPS Stopped"
                         ("Successfully stopped " +:+ Py.str_of_Z (Z.of_nat stopped_count)
                            +:+ " VPS using `incus stop --all --force`")))
         else
           discord (FollowupSend
                      (create_error_embed "Stop Failed"
                         ("Failed to stop VPS: " +:+ Py.str_or stderr "Unknown error")))
     end)
    (fun e =>
       discord (FollowupSend (create_error_embed "Error"
                                ("Error stopping VPS: " +:+ exn_msg e)))).

End StopAll.

(** ** Server statistics *)

(** The totals [slash_server_stats] works out: users, VPS, credits, RAM in
    GB, CPU cores, and running VPS. *)
Record totals : Set := mkTotals {
  total_users : nat;
  total_vps : nat;
  total_credits : Z;
  total_ram : Z;
  total_cpu : Z;
  running_vps : nat
}.

(** The inner loop, over one user's list: [int] raises [ValueError] on a
    figure it cannot read. *)
Fixpoint tally (vps_list : list VPS) (acc : Z * Z * nat) : res (Z * Z * nat) :=
  match vps_list with
  | [] => Ret acc
  | vps :: rest =>
      match Py.int (Py.replace "GB" "" (ram vps)) with
      | None => Raise (mk_exn ValueError "invalid literal for int() with base 10")
      | Some ram_gb =>
          match Py.int (cpu vps) with
          | None => Raise (mk_exn ValueError "invalid literal for int() with base 10")
          | Some cores =>
              tally rest
                (fst (fst acc) + ram_gb, snd (fst acc) + cores,
                 if bool_decide (status vps = Some "running") then S (snd acc) else snd acc)
          end
      end
  end.

(** The outer loop, over [vps_data.values()]. *)
Fixpoint tally_all (lists : list (list VPS)) (acc : Z * Z * nat) : res (Z * Z * nat) :=
  match lists with
  | [] => Ret acc
  | vps_list :: rest =>
      match tally vps_list acc with
      | Ret acc' => tally_all rest acc'
      | Raise e => Raise e
      end
  end.

(** The figures of [slash_server_stats]; [order] is the order in which
    [vps_data.values()] yields the lists, by user. *)
Definition server_totals (order : list string) (w : State) : res totals :=
  let lists := omap (fun user_id => vps_data w !! user_id) order in
  match tally_all lists (0, 0, 0%nat) with
  | Raise e => Raise e
  | Ret (ram_sum, cpu_sum, running) =>
      Ret (mkTotals (size (user_data w)) (sum_list (length <$> lists))
             (map_fold (fun _ balance acc => acc + balance) 0 (user_data w))
             ram_sum cpu_sum running)
  end.

Definition slash_server_stats (order : list string) (i : Interaction) : M State unit :=
  w <- get ;;
  match server_totals order w with
  | Raise e => raise e
  | Ret _ =>
      discord (SendMessage (mk_embed Plain "Server Statistics" "Current server overview"))
  end.

(** ** Listing snapshots *)



(** ** Running a command in a VPS: what is shown *)

Module Execute.






End Execute.

(** ** Opening views *)

Module Views.

(** A [discord.Member]: its id as a string, and its name. *)
Record Member : Set := mkMember { member_id : string; member_name : string }.

Section Opening.
Variable rt : Runtime.

(** [bot.get_user(id).mention] for a user the bot has cached. *)
Variable get_user : Z -> option string.

Abbreviation Cmd := (M (World Manage.Heap)).

(** A new list object. *)
Definition new_list (l : list Manage.ref) : Cmd Manage.ref :=
  w <- get ;;
  let lr := fresh (dom (Manage.lists (vps_data w))) in
  modify (set_vps_data (fun h =>
            Manage.mkHeap (Manage.records h) (<[lr := l]> (Manage.lists h)) (Manage.roots h))) ;;;
  ret lr.

(** [len(lst)] of a list object. *)
Definition list_len (lr : Manage.ref) : Cmd nat :=
  w <- get ;;
  ret (length (default [] (Manage.lists (vps_data w) !! lr))).

(** [ManageView.create_vps_embed]. *)
Definition create_vps_embed (self : Manage.ManageView) (index : nat) : Cmd embed :=
  vps <- Manage.list_item (Manage.vps_list self) (Some index) ;;
  w <- get ;;
  let running :=
    bool_decide (Manage.records (vps_data w) !! vps ≫= status = Some "running") in
  let owner_text :=
    if Manage.is_admin self && negb (String.eqb (Manage.owner_id self) (Manage.user_id self))
    then match Py.int (Manage.owner_id self) ≫= get_user with
         | Some owner_mention => Py.nl +:+ "**Owner:** " +:+ owner_mention
         | None => Py.nl +:+ "**Owner ID:** " +:+ Manage.owner_id self
         end
    else "" in
  name <- Manage.field container_name "container_name" vps ;;
  ret (mk_embed (if running then Success else Error)
         ("VPS Management - VPS " +:+ Py.str_of_Z (Z.of_nat index + 1))
         ("Managing container: `" +:+ name +:+ "`" +:+ owner_text)).

(** [ManageView.__init__]: the view and its [initial_embed].  With more
    than one VPS nothing is selected yet; otherwise the first is, and its
    embed is built, which reads it. *)
Definition new_view (user_id : string) (vps_list : Manage.ref) (is_shared : bool)
    (owner_id : option string) (is_admin : bool) : Cmd (Manage.ManageView * embed) :=
  let owner := or_else owner_id user_id in
  n <- list_len vps_list ;;
  if (1 <? n)%nat then
    for_each (seq 0 n)
      (fun index => vps <- Manage.list_item vps_list (Some index) ;;
                    Manage.field container_name "container_name" vps ;;; ret tt) ;;;
    ret (Manage.mkView user_id vps_list None is_shared owner is_admin,
         mk_embed Plain "VPS Management" "Select a VPS from the dropdown menu below.")
  else
    let self := Manage.mkView user_id vps_list (Some 0%nat) is_shared owner is_admin in
    initial_embed <- create_vps_embed self 0 ;;
    ret (self, initial_embed).

(** [slash_manage_shared]: the view it attaches to its reply, if any. *)
Definition slash_manage_shared (i : Interaction) (owner : string) (vps_number : Z)
  : Cmd (option Manage.ManageView) :=
  let owner_id := owner in
  let user_id := invoker i in
  w <- get ;;
  match Manage.roots (vps_data w) !! owner_id with
  | None =>
      discord (SendMessage (create_error_embed "Invalid VPS"
                 "Invalid VPS number or owner doesn't have a VPS.")) ;;;
      ret None
  | Some lr =>
      n <- list_len lr ;;
      if ((vps_number <? 1) || (Z.of_nat n <? vps_number))%Z then
        discord (SendMessage (create_error_embed "Invalid VPS"
                   "Invalid VPS number or owner doesn't have a VPS.")) ;;;
        ret None
      else
        vps <- Manage.list_item lr (Some (Z.to_nat (vps_number - 1))) ;;
        w <- get ;;
        match Manage.records (vps_data w) !! vps with
        | None => raise (mk_exn KeyError "'shared_with'")
        | Some record =>
            if negb (bool_decide (user_id ∈ default [] (shared_with record))) then
              discord (SendMessage (create_error_embed "Access Denied"
                         "You do not have access to this VPS.")) ;;;
              ret None
            else
              wrapper <- new_list [vps] ;;
              view <- new_view user_id wrapper true (Some owner_id) false ;;
              discord (SendMessage (snd view)) ;;;
              ret (Some (fst view))
        end
  end.

(** [manage_vps], the [.manage] command: [author] is [str(ctx.author.id)]
    and [user] the member named, if one was. *)
Definition manage_vps (author : string) (user : option Member)
  : Cmd (option Manage.ManageView) :=
  match user with
  | Some member =>
      w <- get ;;
      if negb (is_admin author w) then
        discord (SendMessage (create_error_embed "Access Denied"
                   "Only admins can manage other users' VPS.")) ;;;
        ret None
      else
        let user_id := member_id member in
        match Manage.roots (vps_data w) !! user_id with
        | None =>
            discord (SendMessage (create_error_embed "No VPS Found"
                       (mention (member_id member) +:+ " doesn't have any VPS."))) ;;;
            ret None
        | Some lr =>
            n <- list_len lr ;;
            if (n =? 0)%nat then
              discord (SendMessage (create_error_embed "No VPS Found"
                         (mention (member_id member) +:+ " doesn't have any VPS."))) ;;;
              ret None
            else
              view <- new_view author lr false (Some user_id) true ;;
              discord (SendMessage (create_info_embed
                         ("Managing " +:+ member_name member +:+ "'s VPS")
                         ("Managing VPS for " +:+ mention (member_id member)))) ;;;
              ret (Some (fst view))
        end
  | None =>
      let user_id := author in
      w <- get ;;
      match Manage.roots (vps_data w) !! user_id with
      | None =>
          discord (SendMessage (mk_embed Error "No VPS Found"
                     "You don't have any VPS. Use `.buywc` to purchase one.")) ;;;
          ret None
      | Some lr =>
          n <- list_len lr ;;
          if (n =? 0)%nat then
            discord (SendMessage (mk_embed Error "No VPS Found"
                       "You don't have any VPS. Use `.buywc` to purchase one.")) ;;;
            ret None
          else
            view <- new_view user_id lr false None false ;;
            discord (SendMessage (snd view)) ;;;
            ret (Some (fst view))
      end
  end.

(** The SSH button: [action_callback] with [action == 'tmate'].  [check]
    is what [incus exec <name> -- which tmate] did (the exception raised,
    or its return code), [ssh] what the [display -p] call printed on stdout
    and stderr, and [stamp] is [datetime.now().strftime('%Y%m%d%H%M%S')]. *)
Definition tmate (self : Manage.ManageView) (i : Interaction) (check : res Z)
    (ssh : res (string * string)) (stamp : string) : Cmd unit :=
  if Manage.denied self i then
    discord (SendMessage (create_error_embed "Access Denied" "This is not your VPS!"))
  else
    vps <- Manage.selected_vps self ;;
    container_name <- Manage.field container_name "container_name" vps ;;
    discord (SendMessage (create_info_embed "SSH Access" "Generating SSH connection...")) ;;;
    try_except
      (modify (add_call ("incus exec " +:+ container_name +:+ " -- which tmate")) ;;;
       returncode <- match check with Ret rc => ret rc | Raise e => raise e end ;;
       (if negb (returncode =? 0)%Z then
          discord (FollowupSend (create_info_embed "Installing SSH" "Installing tmate...")) ;;;
          Manage.call_global rt "execute_lxc"
            ("incus exec " +:+ container_name +:+ " -- sudo apt-get clean") 300 ;;;
          Manage.call_global rt "execute_lxc"
            ("incus exec " +:+ container_name +:+ " -- sudo rm -f /var/lib/apt/lists/*") 300 ;;;
          Manage.call_global rt "execute_lxc"
            ("incus exec " +:+ container_name
               +:+ " -- sudo apt-get update --allow-releaseinfo-change -y || sudo apt-get update -y")
            300 ;;;
          Manage.call_global rt "execute_lxc"
            ("incus exec " +:+ container_name
               +:+ " -- sudo apt-get install tmate -y --no-install-recommends") 300 ;;;
          discord (FollowupSend (create_success_embed "Installed" "SSH service installed!"))
        else ret tt) ;;;
       let session_name := "session-" +:+ stamp in
       Manage.call_global rt "execute_lxc"
         ("incus exec " +:+ container_name +:+ " -- tmate -S /tmp/" +:+ session_name
            +:+ ".sock new-session -d") 300 ;;;
       sleep 3 ;;;
       modify (add_call ("incus exec " +:+ container_name +:+ " -- tmate -S /tmp/"
                           +:+ session_name +:+ ".sock display -p #{tmate_ssh}")) ;;;
       streams <- match ssh with Ret r => ret r | Raise e => raise e end ;;
       let ssh_url := Py.strip (fst streams) in
       if Py.truthy ssh_url then
         discord (DirectMessage (invoker i)
                    (mk_embed Success "SSH Access"
                       ("SSH connection for VPS `" +:+ container_name +:+ "`:"))) ;;;
         discord (FollowupSend (create_success_embed "SSH Sent"
                    ("Check your DMs for SSH link! Session: " +:+ session_name)))
       else
         discord (FollowupSend (create_error_embed "SSH Failed"
                    (if Py.truthy (snd streams) then Py.strip (snd streams)
                     else "Unknown error"))))
      (fun e => discord (FollowupSend (create_error_embed "SSH Error" (exn_msg e)))).

End Opening.

End Views.

(** ** Vocabulary of the properties *)

(** The process exited with code 0 and what it printed decodes: the only
    outcome on which [execute_incus] returns. *)
Definition succeeded (o : proc_outcome) : bool :=
  match o with
  | Exited returncode stdout stderr =>
      (returncode =? 0)%Z && Py.decodes stdout && Py.decodes stderr
  | _ => false
  end.

(** [talk c o l w]: [w] after command lines [c] were sent to the runtime,
    [o] to Discord and [l] to the log, and nothing else changed. *)
Definition talk {St} (c : list string) (o : list discord_call)
    (l : list (log_level * string)) (w : World St) : World St :=
  mkWorld (vps_data w) (user_data w) (admin_data w) (cpu_monitor_active w)
          (monitor_alive w) (disk w) (calls w ++ c)%list (outbox w ++ o)%list
          (logs w ++ l)%list.

(** A command that only talks. *)
Definition quiet {St A} (m : M (World St) A) : Prop :=
  forall w, exists c o l, snd (m w) = talk c o l w.

(** A command that always returns. *)
Definition total {St A} (m : M (World St) A) : Prop :=
  forall w, exists a, fst (m w) = Ret a.

(** A command that leaves the ledger alone. *)
Definition keeps_ledger {A} (m : M State A) : Prop :=
  forall w, user_data (snd (m w)) = user_data w.

(** A user's list of records; a user without an entry has none. *)
Definition records_of (user_id : string) (d : Inventory) : list VPS :=
  default [] (d !! user_id).

(** The container name [slash_create] derives and the command line it
    launches it with, in a given state. *)
Definition derived_name (user : string) (w : State) : string :=
  container_name_for user (Z.of_nat (length (records_of user (vps_data w))) + 1).

Definition create_launch (user : string) (ram cpu : Z) (w : State) : string :=
  launch_command (derived_name user w) (ram * 1024) (Py.str_of_Z cpu).

(** Every record of the inventory, whoever owns it. *)
Definition all_records (d : Inventory) : list VPS :=
  concat (snd <$> map_to_list d).

(** No two records carry the same [container_name]. *)
Definition unique_container_names (d : Inventory) : Prop :=
  NoDup (container_name <$> all_records d).

(** No record is shared with the key it is stored under, its owner. *)
Definition owner_not_shared (d : Inventory) : Prop :=
  forall uid l vps,
    d !! uid = Some l -> vps ∈ l -> uid ∉ default [] (shared_with vps).

(** No balance is negative. *)
Definition credits_nonnegative (u : gmap string Z) : Prop :=
  forall uid c, u !! uid = Some c -> (0 <= c)%Z.

(** The commands that touch the ledger. *)
Inductive credit_op : Set :=
| Buywc (i : Interaction) (plan processor : string) (ipv4 ipv6 : option string)
| Adminc (i : Interaction) (user : string) (amount : Z)
| Adminrc (i : Interaction) (user : string) (amount_or_all : string)
| Credits (i : Interaction).

Definition credit_step (rt : Runtime) (w : State) (op : credit_op) : State :=
  match op with
  | Buywc i plan processor ipv4 ipv6 => exec (slash_buywc rt i plan processor ipv4 ipv6) w
  | Adminc i user amount => exec (slash_admin_credits i user amount) w
  | Adminrc i user amount_or_all => exec (slash_admin_remove_credits i user amount_or_all) w
  | Credits i => exec (slash_credits i) w
  end.

(** The monitor's turns for a list of samples, with what the forced stop
    does on each. *)
Definition turns (samples : list (Q * res Z)) : list event :=
  (fun s => MonitorTurn (fst s) (snd s)) <$> samples.

(** [cpu_usage > CPU_THRESHOLD]. *)
Definition above_threshold (cpu_usage : Q) : bool := negb (Qle_bool cpu_usage CPU_THRESHOLD).

(** How many of the samples are above the threshold. *)
Fixpoint count_above (samples : list (Q * res Z)) : nat :=
  match samples with
  | [] => 0
  | s :: rest => (if above_threshold (fst s) then 1 else 0) + count_above rest
  end.

(** The utilization sequence 50, 95, 95, 40, the forced stop succeeding
    whenever it is tried. *)
Definition simulated_samples : list (Q * res Z) :=
  [(50%Q, Ret 0%Z); (95%Q, Ret 0%Z); (95%Q, Ret 0%Z); (40%Q, Ret 0%Z)].

(** A runtime on which every command exits with code 0 and prints nothing. *)
Definition obliging : Runtime := fun _ _ => Exited 0 "" "".

(** A runtime that refuses every command. *)
Definition refusing : Runtime := fun _ _ => Exited 1 "" "".

(** A runtime on which every command exits with code 1 after writing the
    single byte 0xFF, which is not UTF-8, to its stdout. *)
Definition garbling : Runtime := fun _ _ => Exited 1 (Py.of_bytes [255%nat]) "".

(** ** Scenarios *)

Definition alice : Interaction := mkInteraction "1" true "2025-01-01T00:00:00".

(** User 7 themselves, at the keyboard. *)
Definition seven : Interaction := mkInteraction "7" true "2025-01-02T00:00:00".

(** User 7 gets a VPS from an obliging runtime. *)
Definition one_created : State :=
  exec (slash_create obliging alice "7" 1 1 None None) initial_state.

(** User 7's stopped VPS as the objects in memory: the record, the list
    that holds it and the entry of [vps_data] that holds the list; and the
    view [/manage] opens on it for its owner. *)
Definition managed_record : VPS :=
  mkVPS "vps-7-1" "4GB" "1" "10GB" (Some "stopped") "2025-01-01T00:00:00"
        "Not assigned" "Not assigned" (Some []) None None.

Definition managed : World Manage.Heap :=
  mkWorld (Manage.mkHeap {[0%nat := managed_record]} {[1%nat := [0%nat]]} {["7" := 1%nat]})
          ∅ [] true true (mkDisk ∅ {["7" := [managed_record]]} []) [] [] [].

Definition own_view : Manage.ManageView :=
  Manage.mkView "7" 1%nat (Some 0%nat) false "7" false.

(** User 7's record as an old inventory file has it. *)
Definition legacy_record : Loader.json :=
  Loader.JObject [("container_name", Loader.JString "vps-7-1");
                  ("status", Loader.JString "running")].

(** User 7 was given 100 credits and bought a Starter VPS on Intel for 42. *)
Definition ledger_of_58 : State :=
  exec (slash_buywc obliging seven "Starter" "Intel" None None)
    (exec (slash_admin_credits alice "7" 100) initial_state).

(** User 7 gets two VPS from an obliging runtime; then the first one is
    deleted. *)
Definition two_created : State :=
  exec (slash_create obliging alice "7" 1 1 None None)
    (exec (slash_create obliging alice "7" 1 1 None None) initial_state).

Definition one_of_two_deleted : State :=
  exec (slash_delete_vps obliging alice "7" 1 "No reason") two_created.

(** ** Vocabulary and scenarios of the further properties *)

(** The command line [get_container_ips] sends. *)
Definition ip_command (container_name : string) : string :=
  "incus exec " +:+ container_name +:+ " -- ip addr show eth0".


(** [s] is made of ASCII characters that [int] does not skip. *)
Fixpoint unpadded (s : string) : bool :=
  match s with
  | EmptyString => true
  | String c s' =>
      negb (Py.int_padding c) && (nat_of_ascii c <? 128)%nat && unpadded s'
  end.

(** The command line [slash_delete_vps] sends for a container. *)
Definition delete_command (container_name : string) : string :=
  "incus delete " +:+ container_name +:+ " --force".

(** A small inventory: user 7 has a stopped and a running VPS, user 8 a
    running one that is shared with user 7; user 7 has 100 credits and
    user 9 is an admin.  The files are in step with memory. *)
Definition running_record : VPS :=
  mkVPS "vps-7-2" "8GB" "1" "10GB" (Some "running") "2025-01-03T00:00:00"
        "10.0.0.7" "Not assigned" (Some []) (Some "Basic") (Some "Intel").

Definition shared_record : VPS :=
  mkVPS "vps-8-1" "4GB" "1" "10GB" (Some "running") "2025-01-04T00:00:00"
        "10.0.0.8" "Not assigned" (Some ["7"]) None None.

Definition stocked_inventory : Inventory :=
  {["7" := [managed_record; running_record]; "8" := [shared_record]]}.

Definition stocked : State :=
  mkWorld stocked_inventory {["7" := 100%Z]} ["9"] true true
          (mkDisk {["7" := 100%Z]} stocked_inventory ["9"]) [] [] [].

(** A runtime that refuses to launch a container and does everything
    else it is asked. *)
Definition launch_refusing : Runtime :=
  fun _ command =>
    if String.prefix "incus launch " command
    then Exited 1 "" "Error: Failed instance creation"
    else Exited 0 "" "".

(** The users with whom the record at position [n] of a user's list is
    shared. *)
Definition shares (user_id : string) (n : nat) (d : Inventory) : list string :=
  match d !! user_id with
  | Some l =>
      match l !! n with
      | Some vps => default [] (shared_with vps)
      | None => []
      end
  | None => []
  end.

(** [int(vps['ram'].replace('GB', ''))] and [int(vps['cpu'])], as the
    statistics commands and the reinstall read a record. *)
Definition ram_gb (vps : VPS) : option Z := Py.int (Py.replace "GB" "" (ram vps)).
Definition cpu_cores (vps : VPS) : option Z := Py.int (cpu vps).

(** A user's list is numbered: the record at position [k] (from 0) carries
    the name [vps-{user_id}-{k+1}]. *)
Definition numbered (user_id : string) (l : list VPS) : Prop :=
  forall k vps, l !! k = Some vps ->
                container_name vps = container_name_for user_id (Z.of_nat k + 1).

Definition all_numbered (d : Inventory) : Prop :=
  forall user_id l, d !! user_id = Some l -> numbered user_id l.

(** The commands that add records. *)
Inductive provision_op : Set :=
| Create (i : Interaction) (member : string) (ram_given cpu_given : Z)
         (ipv4 ipv6 : option string)
| Buy (i : Interaction) (tier chip : string) (ipv4 ipv6 : option string).

Definition provision_step (rt : Runtime) (w : State) (op : provision_op) : State :=
  match op with
  | Create i member ram_given cpu_given ipv4 ipv6 =>
      exec (slash_create rt i member ram_given cpu_given ipv4 ipv6) w
  | Buy i tier chip ipv4 ipv6 => exec (slash_buywc rt i tier chip ipv4 ipv6) w
  end.

(** The document [json.dump(vps_data, f)] writes: an object with one
    member for each user, in the order [items] of the dict, whose value is
    the array of that user's records; [encode] is how one record is
    written. *)
Definition inventory_document (encode : VPS -> Loader.json)
    (items : list (string * list VPS)) : Loader.json :=
  Loader.JObject ((fun entry => (fst entry, Loader.JArray (encode <$> snd entry))) <$> items).

(** The command line with which the SSH button looks for [tmate]. *)
Definition which_tmate (container_name : string) : string :=
  "incus exec " +:+ container_name +:+ " -- which tmate".

(** User 7's two VPS and user 8's one as objects in memory; user 8 has
    shared nothing, user 7 has shared the second VPS with user 8. *)
Definition second_record : VPS :=
  mkVPS "vps-7-2" "8GB" "1" "10GB" (Some "running") "2025-01-03T00:00:00"
        "10.0.0.7" "Not assigned" (Some ["8"]) (Some "Basic") (Some "Intel").

Definition two_managed : World Manage.Heap :=
  mkWorld (Manage.mkHeap {[0%nat := managed_record; 1%nat := second_record]}
                         {[2%nat := [0%nat; 1%nat]]} {["7" := 2%nat]})
          ∅ ["9"] true true
          (mkDisk ∅ {["7" := [managed_record; second_record]]} ["9"]) [] [] [].

(** User 8 at the keyboard. *)
Definition eight : Interaction := mkInteraction "8" true "2025-01-05T00:00:00".

(** A user's list after [slash_restart_vps] went over it: the first record
    named [name], if there is one, is marked running. *)
Definition restarted (name : string) (l : list VPS) : list VPS :=
  default l (mark_first_running name l).

(** The command line [slash_restart_vps] sends. *)
Definition restart_command (container_name : string) : string :=
  "incus restart " +:+ container_name.



Definition address_command (container_name family address : string) : string :=
  "incus config device set " +:+ container_name +:+ " eth0 " +:+ family
    +:+ ".address=" +:+ address.

(** Every record has a RAM and a CPU figure that [int] reads. *)
Definition all_readable (d : Inventory) : Prop :=
  forall user_id l vps, d !! user_id = Some l -> vps ∈ l ->
                        is_Some (ram_gb vps) /\ is_Some (cpu_cores vps).


(** * Theorems *)

(** ** Strings *)

Lemma append_nil_r (s : string) : s +:+ "" = s.
Proof.
  induction s as [|c s IH]; [reflexivity|].
  change (String c (s +:+ "") = String c s). now rewrite IH.
Qed.

Lemma append_assoc (a b c : string) : (a +:+ b) +:+ c = a +:+ (b +:+ c).
Proof.
  induction a as [|x a IH]; [reflexivity|].
  change (String x ((a +:+ b) +:+ c) = String x (a +:+ (b +:+ c))). now rewrite IH.
Qed.

Lemma embeds_here (x post : string) : Py.embeds x (x +:+ post).
Proof. exists "", post. reflexivity. Qed.

Lemma embeds_later (x pre s : string) : Py.embeds x s -> Py.embeds x (pre +:+ s).
Proof.
  intros (p & q & ->). exists (pre +:+ p), q. now rewrite append_assoc.
Qed.

Lemma embeds_end (x : string) : Py.embeds x x.
Proof. exists "", "". symmetry. apply append_nil_r. Qed.

Lemma prefix_here (x post : string) : String.prefix x (x +:+ post) = true.
Proof.
  induction x as [|c x IH]; [now destruct post|].
  change (String c x +:+ post) with (String c (x +:+ post)). cbn [String.prefix].
  now destruct (ascii_dec c c).
Qed.

Lemma embeds_contains (x s : string) : Py.embeds x s -> Py.contains x s = true.
Proof.
  intros (pre & post & ->). induction pre as [|c pre IH].
  - change ("" +:+ x +:+ post) with (x +:+ post).
    destruct (x +:+ post) eqn:E; cbn [Py.contains]; rewrite <- E, prefix_here; reflexivity.
  - change (String c pre +:+ x +:+ post) with (String c (pre +:+ x +:+ post)).
    cbn [Py.contains]. rewrite IH. apply orb_true_r.
Qed.

Lemma str_or_truthy (a b : string) : b <> "" -> Py.str_or a b <> "".
Proof. unfold Py.str_or. destruct a; simpl; [tauto | discriminate]. Qed.

(** The helpers on the inputs the program meets. *)

Example strip_trims_both_ends : Py.strip (" error: not found" +:+ Py.nl) = "error: not found".
Proof. reflexivity. Qed.

Example int_of_plan_ram : Py.int (Py.replace "GB" "" "16GB") = Some 16%Z.
Proof. reflexivity. Qed.

Example int_rejects_words : Py.int "ten" = None /\ Py.int "" = None /\ Py.int "1_" = None.
Proof. repeat split. Qed.

Example int_accepts_sign_and_spaces : Py.int " -1_000 " = Some (-1000)%Z.
Proof. reflexivity. Qed.

Example first_ipv4_of_a_line :
  re_search "inet " "    inet 10.0.0.5/24 brd 10.0.0.255 scope global eth0" = Some "10.0.0.5".
Proof. reflexivity. Qed.

Example first_address_wins :
  scan_addresses
    (Py.split_lines ("    inet6 fd42::1/64 scope global" +:+ Py.nl
                       +:+ "    inet6 fe80::1/64 scope link"))
    "Not assigned" "Not assigned"
  = ("Not assigned", "fd42::1").
Proof. reflexivity. Qed.

Example first_container_name : container_name_for "1405866008127864852" 1
                               = "vps-1405866008127864852-1".
Proof. reflexivity. Qed.

(** ** Process runner *)

Section Runner.
Context {St : Type} (rt : Runtime).
Implicit Type w : World St.

Lemma decode_text b text : Py.decode b = inl text -> text = b.
Proof. unfold Py.decode. destruct (Py.decode_error None 0 b); congruence. Qed.

Lemma decodes_text b : Py.decodes b = true -> Py.decode b = inl b.
Proof.
  unfold Py.decodes. destruct (Py.decode b) as [text|] eqn:E; [|discriminate].
  now rewrite (decode_text _ _ E).
Qed.

Lemma decodes_not b : Py.decodes b = false -> exists message, Py.decode b = inr message.
Proof. unfold Py.decodes. destruct (Py.decode b); [discriminate|]. now eexists. Qed.

(** The two conditional expressions that read a pipe. *)
Lemma read_pipe_text b w :
  Py.decodes b = true ->
  (if Py.truthy b then text <- decoded b ;; ret (Py.strip text) else ret "") w
  = (Ret (Py.strip b), w).
Proof.
  intros Hb. destruct b as [|c b]; [reflexivity|]. cbn [Py.truthy].
  unfold decoded, bind. now rewrite (decodes_text _ Hb).
Qed.

Lemma read_pipe_error b w :
  Py.decodes b = false ->
  exists message,
    Py.decode b = inr message
    /\ (if Py.truthy b then text <- decoded b ;; ret (Py.strip text) else ret "") w
       = (Raise (mk_exn UnicodeDecodeError message), w).
Proof.
  intros Hb. destruct (decodes_not _ Hb) as (message & Hm). exists message. split; [exact Hm|].
  destruct b as [|c b]; [discriminate|]. cbn [Py.truthy].
  unfold decoded, bind. now rewrite Hm.
Qed.

(** What [execute_incus] does once the process has ended. *)
Lemma execute_incus_exited w command timeout returncode stdout stderr :
  rt (calls w) command = Exited returncode stdout stderr ->
  execute_incus rt command timeout w
  = try_except
      (stdout_str <- (if Py.truthy stdout
                      then text <- decoded stdout ;; ret (Py.strip text)
                      else ret "") ;;
       stderr_str <- (if Py.truthy stderr
                      then text <- decoded stderr ;; ret (Py.strip text)
                      else ret "") ;;
       if negb (returncode =? 0)%Z then
         logger ERROR ("Incus command failed: " +:+ command +:+ " - Return code: "
                         +:+ Py.str_of_Z returncode +:+ " - STDERR: " +:+ stderr_str
                         +:+ " - STDOUT: " +:+ stdout_str) ;;;
         raise (mk_exn Exception
                  (Py.str_or stderr_str "Unknown error (empty stderr)"
                     +:+ ". Command: " +:+ command +:+ ". STDOUT: " +:+ stdout_str))
       else
         logger INFO ("Incus command succeeded: " +:+ command +:+ " - STDOUT: "
                        +:+ stdout_str) ;;;
         ret (if Py.truthy stdout_str then Stdout stdout_str else PyTrue))
      (fun e =>
         logger ERROR ("Incus Error: " +:+ command +:+ " - " +:+ exn_msg e) ;;;
         raise e)
      (add_call command w).
Proof.
  intros Hrt. unfold execute_incus, run_process.
  unfold bind at 1, bind at 1, get, bind at 1, modify, ret at 1. now rewrite Hrt.
Qed.

Lemma execute_incus_returns w command timeout :
  succeeded (rt (calls w) command) = true ->
  exists v l, execute_incus rt command timeout w = (Ret v, talk [command] [] l w).
Proof.
  destruct (rt (calls w) command) as [rc out err| |e] eqn:Hrt; try discriminate.
  cbn [succeeded]. intros H. apply andb_true_iff in H as [H Herr].
  apply andb_true_iff in H as [Hrc Hout].
  rewrite (execute_incus_exited _ _ _ _ _ _ Hrt).
  unfold try_except, bind at 1. rewrite (read_pipe_text _ _ Hout).
  unfold bind at 1. rewrite (read_pipe_text _ _ Herr). rewrite Hrc. cbn [negb].
  unfold bind, logger, modify, ret. do 2 eexists. unfold talk, add_log, add_call. cbn.
  rewrite app_nil_r. reflexivity.
Qed.

Lemma execute_incus_raises w command timeout :
  succeeded (rt (calls w) command) = false ->
  exists e l, execute_incus rt command timeout w = (Raise e, talk [command] [] l w).
Proof.
  destruct (rt (calls w) command) as [rc out err| |e] eqn:Hrt.
  - cbn [succeeded]. intros H. rewrite (execute_incus_exited _ _ _ _ _ _ Hrt).
    unfold try_except, bind at 1.
    destruct (Py.decodes out) eqn:Hout.
    + rewrite (read_pipe_text _ _ Hout). unfold bind at 1.
      destruct (Py.decodes err) eqn:Herr.
      * rewrite (read_pipe_text _ _ Herr).
        rewrite !andb_true_r in H. rewrite H. cbn [negb].
        unfold bind, logger, modify, raise. do 2 eexists.
        unfold talk, add_log, add_call. cbn. rewrite app_nil_r, <- app_assoc. reflexivity.
      * destruct (read_pipe_error _ (add_call command w) Herr) as (m & _ & ->).
        unfold bind, logger, modify, raise. do 2 eexists.
        unfold talk, add_log, add_call. cbn. rewrite app_nil_r. reflexivity.
    + destruct (read_pipe_error _ (add_call command w) Hout) as (m & _ & ->).
      unfold bind, logger, modify, raise. do 2 eexists.
      unfold talk, add_log, add_call. cbn. rewrite app_nil_r. reflexivity.
  - intros _. unfold execute_incus, run_process, bind, get, modify, ret, raise, logger.
    cbn. rewrite Hrt. cbn. do 2 eexists. unfold talk, add_log, add_call. cbn.
    rewrite app_nil_r. reflexivity.
  - intros _. unfold execute_incus, run_process, bind, get, modify, ret, raise, logger.
    cbn. rewrite Hrt. cbn. do 2 eexists. unfold talk, add_log, add_call. cbn.
    rewrite app_nil_r. reflexivity.
Qed.

End Runner.

(** C8.  Process Runner failure classification holds short of decoding.
    A command that runs past its timeout makes [execute_incus] raise an
    error whose message carries the timeout bound.  A command that exits
    with a non-zero code after writing text makes it raise an error whose
    message embeds the command line, the trimmed stderr (or the marker
    ["Unknown error (empty stderr)"] when that is empty) and the trimmed
    stdout, so that message is never empty.  But both pipes are decoded
    before the return code is looked at: when the process has ended,
    whatever its code, and its stdout is not UTF-8, or its stdout is and
    its stderr is not, [execute_incus] raises the [UnicodeDecodeError] of
    [decode], whose message is about the pipe's bytes alone; the command
    line goes to the log and not into the error.  In no case is a value
    returned. *)
Theorem undecodable_output_escapes_failure_classification :
  forall (St : Type) (rt : Runtime) (w : World St) (command : string) (timeout : Z),
    (rt (calls w) command = TimedOut ->
     exists msg,
       outcome (execute_incus rt command timeout) w = Raise (mk_exn Exception msg)
       /\ Py.embeds (Py.str_of_Z timeout) msg) /\
    (forall returncode stdout stderr,
        rt (calls w) command = Exited returncode stdout stderr ->
        returncode <> 0%Z ->
        Py.decodes stdout = true ->
        Py.decodes stderr = true ->
        exists msg,
          outcome (execute_incus rt command timeout) w = Raise (mk_exn Exception msg)
          /\ Py.embeds command msg
          /\ Py.embeds (Py.strip stdout) msg
          /\ (Py.strip stderr <> "" -> Py.embeds (Py.strip stderr) msg)
          /\ (Py.strip stderr = "" -> Py.embeds "Unknown error (empty stderr)" msg)
          /\ msg <> "") /\
    (forall returncode stdout stderr message,
        rt (calls w) command = Exited returncode stdout stderr ->
        Py.decode stdout = inr message
        \/ (Py.decodes stdout = true /\ Py.decode stderr = inr message) ->
        outcome (execute_incus rt command timeout) w
        = Raise (mk_exn UnicodeDecodeError message)
        /\ last (logs (exec (execute_incus rt command timeout) w))
           = Some (ERROR, "Incus Error: " +:+ command +:+ " - " +:+ message)).
Proof.
  intros St rt w command timeout. split; [|split].
  - intros Hto. eexists. split.
    + unfold outcome, execute_incus, run_process, bind, get, modify, ret, raise, logger.
      simpl. rewrite Hto. simpl. reflexivity.
    + apply embeds_later, embeds_here.
  - intros rc out err Hex Hrc Hout Herr.
    eexists. split; [|split; [|split; [|split; [|split]]]].
    + unfold outcome. rewrite (execute_incus_exited rt _ _ _ _ _ _ Hex).
      unfold try_except, bind at 1. rewrite (read_pipe_text _ _ Hout).
      unfold bind at 1. rewrite (read_pipe_text _ _ Herr).
      destruct (Z.eqb_spec rc 0) as [->|_]; [contradiction|]. reflexivity.
    + apply embeds_later, embeds_later, embeds_here.
    + do 4 apply embeds_later. apply embeds_end.
    + intros Hne. unfold Py.str_or. destruct (Py.strip err); [contradiction|].
      apply embeds_here.
    + intros ->. apply embeds_here.
    + intros Heq. apply (f_equal String.length) in Heq.
      unfold Py.str_or in Heq. destruct (Py.strip err); simpl in Heq; discriminate.
  - intros rc out err message Hex Hbad. unfold outcome, exec.
    destruct (execute_incus rt command timeout w) as [r w'] eqn:Hrun.
    rewrite (execute_incus_exited rt _ _ _ _ _ _ Hex) in Hrun.
    unfold try_except, bind at 1 in Hrun.
    destruct Hbad as [Hout|[Hout Herr]].
    + assert (Hno : Py.decodes out = false) by (unfold Py.decodes; now rewrite Hout).
      destruct (read_pipe_error out (add_call command w) Hno) as (m & Hm & Hread).
      rewrite Hread in Hrun. assert (m = message) as -> by congruence.
      injection Hrun as <- <-. split; [reflexivity|]. apply last_snoc.
    + rewrite (read_pipe_text _ _ Hout) in Hrun. unfold bind at 1 in Hrun.
      assert (Hno : Py.decodes err = false) by (unfold Py.decodes; now rewrite Herr).
      destruct (read_pipe_error err (add_call command w) Hno) as (m & Hm & Hread).
      rewrite Hread in Hrun. assert (m = message) as -> by congruence.
      injection Hrun as <- <-. split; [reflexivity|]. apply last_snoc.
Qed.

(** A witness: [incus start vps-7-1] timing out after 120 seconds; the
    same command exiting with code 1 and nothing on either pipe; and the
    same command exiting with code 1 after the byte 0xFF on stdout, where
    the error raised has neither the command nor the marker in it. *)
Lemma undecodable_output_escapes_failure_classification_witness :
  (exists msg,
      outcome (execute_incus (fun _ _ => TimedOut) "incus start vps-7-1" 120) initial_state
      = Raise (mk_exn Exception msg)
      /\ Py.embeds "120" msg) /\
  (exists msg,
      outcome (execute_incus refusing "incus start vps-7-1" 120) initial_state
      = Raise (mk_exn Exception msg)
      /\ Py.embeds "incus start vps-7-1" msg
      /\ Py.embeds "Unknown error (empty stderr)" msg
      /\ msg <> "") /\
  (let msg := "'utf-8' codec can't decode byte 0xff in position 0: invalid start byte" in
   outcome (execute_incus garbling "incus start vps-7-1" 120) initial_state
   = Raise (mk_exn UnicodeDecodeError msg)
   /\ ~ Py.embeds "incus start vps-7-1" msg
   /\ ~ Py.embeds "Unknown error (empty stderr)" msg).
Proof.
  pose proof (undecodable_output_escapes_failure_classification Inventory
                (fun _ _ => TimedOut) initial_state "incus start vps-7-1" 120)
    as (Hto & _ & _).
  pose proof (undecodable_output_escapes_failure_classification Inventory refusing
                initial_state "incus start vps-7-1" 120) as (_ & Hex & _).
  pose proof (undecodable_output_escapes_failure_classification Inventory garbling
                initial_state "incus start vps-7-1" 120) as (_ & _ & Hbad).
  split; [|split].
  - apply Hto. reflexivity.
  - destruct (Hex 1%Z "" "" eq_refl ltac:(discriminate) eq_refl eq_refl)
      as (msg & H1 & H2 & _ & _ & H3 & H4).
    exists msg. repeat split; try assumption. apply H3. reflexivity.
  - cbv zeta. split; [|split].
    + apply (Hbad 1%Z (Py.of_bytes [255%nat]) "" _ eq_refl). left. reflexivity.
    + intros H. apply embeds_contains in H. discriminate H.
    + intros H. apply embeds_contains in H. discriminate H.
Defined.

(** ** Running commands step by step *)

Section Stepping.
Context {S : Type}.

Lemma bind_ret_eq {A B} (m : M S A) (k : A -> M S B) s a s' :
  m s = (Ret a, s') -> bind m k s = k a s'.
Proof. intros H. unfold bind. now rewrite H. Qed.

Lemma bind_raise_eq {A B} (m : M S A) (k : A -> M S B) s e s' :
  m s = (Raise e, s') -> bind m k s = (Raise e, s').
Proof. intros H. unfold bind. now rewrite H. Qed.

Lemma try_ret_eq {A} (m : M S A) (h : exn -> M S A) s a s' :
  m s = (Ret a, s') -> try_except m h s = (Ret a, s').
Proof. intros H. unfold try_except. now rewrite H. Qed.

Lemma try_raise_eq {A} (m : M S A) (h : exn -> M S A) s e s' :
  m s = (Raise e, s') -> try_except m h s = h e s'.
Proof. intros H. unfold try_except. now rewrite H. Qed.

End Stepping.

(** ** Commands that only talk *)

Section Talking.
Context {St : Type}.
Implicit Type w : World St.

Lemma talk_nil w : talk [] [] [] w = w.
Proof. destruct w. unfold talk. simpl. now rewrite !app_nil_r. Qed.

Lemma talk_talk c1 o1 l1 c2 o2 l2 w :
  talk c2 o2 l2 (talk c1 o1 l1 w) = talk (c1 ++ c2) (o1 ++ o2) (l1 ++ l2) w.
Proof. unfold talk. simpl. now rewrite !app_assoc. Qed.

Lemma quiet_ret {A} (a : A) : quiet (St := St) (ret a).
Proof. intros w. exists [], [], []. simpl. now rewrite talk_nil. Qed.

Lemma quiet_raise {A} e : quiet (St := St) (A := A) (raise e).
Proof. intros w. exists [], [], []. simpl. now rewrite talk_nil. Qed.

Lemma quiet_bind {A B} (m : M (World St) A) (k : A -> M (World St) B) :
  quiet m -> (forall a, quiet (k a)) -> quiet (bind m k).
Proof.
  intros Hm Hk w. unfold bind. destruct (Hm w) as (c & o & l & Hw).
  destruct (m w) as [[a|e] w1]; simpl in Hw; subst w1.
  - destruct (Hk a (talk c o l w)) as (c' & o' & l' & Hw').
    exists (c ++ c'), (o ++ o'), (l ++ l'). now rewrite Hw', talk_talk.
  - now exists c, o, l.
Qed.

Lemma quiet_try_except {A} (m : M (World St) A) (h : exn -> M (World St) A) :
  quiet m -> (forall e, quiet (h e)) -> quiet (try_except m h).
Proof.
  intros Hm Hh w. unfold try_except. destruct (Hm w) as (c & o & l & Hw).
  destruct (m w) as [[a|e] w1]; simpl in Hw; subst w1.
  - now exists c, o, l.
  - destruct (Hh e (talk c o l w)) as (c' & o' & l' & Hw').
    exists (c ++ c'), (o ++ o'), (l ++ l'). now rewrite Hw', talk_talk.
Qed.

Lemma quiet_discord d : quiet (St := St) (discord d).
Proof.
  intros w. exists [], [d], []. unfold discord, modify, talk, add_outbox. simpl.
  now rewrite !app_nil_r.
Qed.

Lemma quiet_logger lv t : quiet (St := St) (logger lv t).
Proof.
  intros w. exists [], [], [(lv, t)]. unfold logger, modify, talk, add_log. simpl.
  now rewrite !app_nil_r.
Qed.

Lemma quiet_sleep n : quiet (St := St) (sleep n).
Proof. apply quiet_ret. Qed.

Lemma quiet_execute_incus rt command timeout :
  quiet (St := St) (execute_incus rt command timeout).
Proof.
  intros w. destruct (succeeded (rt (calls w) command)) eqn:E.
  - destruct (execute_incus_returns rt w command timeout E) as (v & l & ->). now eexists _, _, _.
  - destruct (execute_incus_raises rt w command timeout E) as (v & l & ->). now eexists _, _, _.
Qed.

Lemma total_ret {A} (a : A) : total (St := St) (ret a).
Proof. intros w. now exists a. Qed.

Lemma total_bind {A B} (m : M (World St) A) (k : A -> M (World St) B) :
  total m -> (forall a, total (k a)) -> total (bind m k).
Proof.
  intros Hm Hk w. unfold bind. destruct (Hm w) as (a & Ha).
  destruct (m w) as [r w1]; simpl in Ha; subst r. apply Hk.
Qed.

Lemma total_try_except {A} (m : M (World St) A) (h : exn -> M (World St) A) :
  (forall e, total (h e)) -> total (try_except m h).
Proof.
  intros Hh w. unfold try_except. destruct (m w) as [[a|e] w1].
  - now exists a.
  - apply Hh.
Qed.

Lemma total_discord d : total (St := St) (discord d).
Proof. intros w. now exists tt. Qed.

Lemma total_logger lv t : total (St := St) (logger lv t).
Proof. intros w. now exists tt. Qed.

Lemma total_sleep n : total (St := St) (sleep n).
Proof. intros w. now exists tt. Qed.

Lemma quiet_get_container_ips rt name : quiet (St := St) (get_container_ips rt name).
Proof.
  unfold get_container_ips. apply quiet_try_except.
  - apply quiet_bind; [apply quiet_execute_incus|].
    intros [s|]; [apply quiet_ret | apply quiet_raise].
  - intros e. apply quiet_bind; [apply quiet_logger | intros; apply quiet_ret].
Qed.

Lemma total_get_container_ips rt name : total (St := St) (get_container_ips rt name).
Proof.
  unfold get_container_ips. apply total_try_except.
  intros e. apply total_bind; [apply total_logger | intros; apply total_ret].
Qed.

Lemma quiet_set_static_ip rt name ipv4 ipv6 :
  quiet (St := St) (set_static_ip rt name ipv4 ipv6).
Proof.
  unfold set_static_ip. apply quiet_try_except.
  - apply quiet_bind; [|intros _; apply quiet_bind; [|intros _]].
    + destruct (Py.truthy_opt ipv4); [|apply quiet_ret].
      apply quiet_bind; [apply quiet_execute_incus | intros; apply quiet_ret].
    + destruct (Py.truthy_opt ipv6); [|apply quiet_ret].
      apply quiet_bind; [apply quiet_execute_incus | intros; apply quiet_ret].
    + apply quiet_bind; [apply quiet_execute_incus | intros; apply quiet_ret].
  - intros e. apply quiet_bind; [apply quiet_logger | intros; apply quiet_ret].
Qed.

Lemma total_set_static_ip rt name ipv4 ipv6 :
  total (St := St) (set_static_ip rt name ipv4 ipv6).
Proof.
  unfold set_static_ip. apply total_try_except.
  intros e. apply total_bind; [apply total_logger | intros; apply total_ret].
Qed.

(** A command that always returns and only talks does exactly that. *)
Lemma quiet_total_run {A} (m : M (World St) A) w :
  quiet m -> total m -> exists a c o l, m w = (Ret a, talk c o l w).
Proof.
  intros Hq Ht. destruct (Hq w) as (c & o & l & H2), (Ht w) as (a & H1).
  exists a, c, o, l. destruct (m w); simpl in *; congruence.
Qed.

End Talking.

Lemma quiet_assign_addresses rt name ipv4 ipv6 :
  quiet (assign_addresses rt name ipv4 ipv6).
Proof.
  unfold assign_addresses.
  apply quiet_bind; [apply quiet_sleep | intros _].
  apply quiet_bind; [apply quiet_get_container_ips | intros dyn].
  destruct (_ || _); [|apply quiet_ret].
  apply quiet_bind; [apply quiet_set_static_ip | intros [|]].
  - apply quiet_bind; [apply quiet_sleep | intros; apply quiet_get_container_ips].
  - apply quiet_bind; [apply quiet_discord | intros; apply quiet_ret].
Qed.

Lemma total_assign_addresses rt name ipv4 ipv6 :
  total (assign_addresses rt name ipv4 ipv6).
Proof.
  unfold assign_addresses.
  apply total_bind; [apply total_sleep | intros _].
  apply total_bind; [apply total_get_container_ips | intros dyn].
  destruct (_ || _); [|apply total_ret].
  apply total_bind; [apply total_set_static_ip | intros [|]].
  - apply total_bind; [apply total_sleep | intros; apply total_get_container_ips].
  - apply total_bind; [apply total_discord | intros; apply total_ret].
Qed.

(** ** Creating a VPS *)

(** C9.  Validation before the runtime.  When [ram <= 0] or [cpu <= 0] the
    create command answers with the error "Invalid Specs", sends no command
    line to the runtime, and leaves the inventory, the ledger and the files
    on disk as they were. *)
Theorem create_rejects_nonpositive_specs :
  forall rt i user ram cpu ipv4 ipv6 (w : State),
    (ram <= 0 \/ cpu <= 0)%Z ->
    let w' := exec (slash_create rt i user ram cpu ipv4 ipv6) w in
    outcome (slash_create rt i user ram cpu ipv4 ipv6) w = Ret tt
    /\ outbox w' = outbox w ++ [SendMessage (create_error_embed "Invalid Specs"
                                  "RAM and CPU must be positive integers.")]
    /\ calls w' = calls w
    /\ vps_data w' = vps_data w
    /\ user_data w' = user_data w
    /\ disk w' = disk w.
Proof.
  intros rt i user ram cpu ipv4 ipv6 w H. unfold exec, outcome, slash_create.
  assert ((ram <=? 0)%Z || (cpu <=? 0)%Z = true) as ->.
  { apply orb_true_iff. destruct H; [left|right]; now apply Z.leb_le. }
  repeat split.
Qed.

(** A witness: zero gigabytes of RAM, asked of a runtime that would accept
    anything. *)
Lemma create_rejects_nonpositive_specs_witness :
  let m := slash_create obliging alice "7" 0 2 None None in
  outcome m initial_state = Ret tt
  /\ outbox (exec m initial_state)
     = [SendMessage (create_error_embed "Invalid Specs"
                       "RAM and CPU must be positive integers.")]
  /\ calls (exec m initial_state) = []
  /\ vps_data (exec m initial_state) = ∅
  /\ user_data (exec m initial_state) = ∅
  /\ disk (exec m initial_state) = disk initial_state.
Proof.
  apply (create_rejects_nonpositive_specs obliging alice "7" 0 2 None None initial_state).
  left. lia.
Defined.

Lemma records_of_ensure_list user_id uid (d : Inventory) :
  records_of uid (match d !! user_id with Some _ => d | None => <[user_id := []]> d end)
  = records_of uid d.
Proof.
  unfold records_of. destruct (d !! user_id) eqn:E; [reflexivity|].
  destruct (decide (user_id = uid)) as [->|Hne].
  - now rewrite lookup_insert_eq, E.
  - now rewrite lookup_insert_ne.
Qed.

Lemma lookup_ensure_list user_id (d : Inventory) :
  (match d !! user_id with Some _ => d | None => <[user_id := []]> d end) !! user_id
  = Some (records_of user_id d).
Proof.
  unfold records_of. destruct (d !! user_id) eqn:E; simpl.
  - exact E.
  - now rewrite lookup_insert_eq.
Qed.

Lemma insert_ensure_list user_id l (d : Inventory) :
  <[user_id := l]> (match d !! user_id with Some _ => d | None => <[user_id := []]> d end)
  = <[user_id := l]> d.
Proof. destruct (d !! user_id); [reflexivity | apply insert_insert_eq]. Qed.

(** Past the validation: the owner has a list, the reply is out, and the
    rest happens inside the [try]. *)
Lemma slash_create_enters rt i user ram cpu ipv4 ipv6 (w : State) :
  (0 < ram)%Z -> (0 < cpu)%Z ->
  slash_create rt i user ram cpu ipv4 ipv6 w =
  let w1 := add_outbox (SendMessage (create_info_embed "Creating VPS"
                          ("Deploying VPS for " +:+ mention user +:+ "...")))
              (set_vps_data (fun d => match d !! user with
                                      | Some _ => d
                                      | None => <[user := []]> d
                                      end) w) in
  try_except
    (execute_incus rt (create_launch user ram cpu w) 300 ;;;
     ips <- assign_addresses rt (derived_name user w) ipv4 ipv6 ;;
     append_vps user
       (mkVPS (derived_name user w) (Py.str_of_Z ram +:+ "GB") (Py.str_of_Z cpu) "10GB"
              (Some "running") (now i) (fst ips) (snd ips) (Some []) None None) ;;;
     save_data ;;;
     (if guild i then discord (AddRole user) else ret tt) ;;;
     discord (EditOriginalResponse (create_success_embed "VPS Created Successfully" "")) ;;;
     discord (DirectMessage user
                (create_success_embed "VPS Created!"
                   "Your VPS has been successfully deployed!")))
    (fun e =>
       discord (EditOriginalResponse
                  (create_error_embed "Creation Failed" ("Error: " +:+ exn_msg e))))
    w1.
Proof.
  intros Hram Hcpu. unfold slash_create.
  assert ((ram <=? 0)%Z || (cpu <=? 0)%Z = false) as ->.
  { apply orb_false_iff. split; apply Z.leb_gt; assumption. }
  unfold ensure_list.
  unfold bind at 1, modify at 1.
  unfold bind at 1, gets at 1.
  unfold bind at 1, discord at 1, modify at 1.
  cbv zeta.
  unfold create_launch, derived_name.
  replace (default [] (vps_data (set_vps_data _ w) !! user)) with (records_of user (vps_data w)).
  2:{ simpl. now rewrite lookup_ensure_list. }
  reflexivity.
Qed.

Lemma append_vps_present user vps (w : State) l :
  vps_data w !! user = Some l ->
  append_vps user vps w = (Ret tt, set_vps_data (<[user := l ++ [vps]]>) w).
Proof. unfold append_vps, bind, get, modify. now intros ->. Qed.

(** C3 (as amended).  For [ram > 0] and [cpu > 0], whether the create
    command adds a record is decided by the launch alone.  If the launch
    raises, every user's list of records is what it was (no record is
    added), nothing is written to disk, and the launch is the only command
    line sent.  If the launch returns, exactly one record, carrying the
    derived container name, is appended to the owner's list and the
    inventory on disk is the inventory in memory. *)
Theorem create_appends_iff_launch_succeeds :
  forall rt i user ram cpu ipv4 ipv6 (w : State),
    (0 < ram)%Z -> (0 < cpu)%Z ->
    let w' := exec (slash_create rt i user ram cpu ipv4 ipv6) w in
    let launch := rt (calls w) (create_launch user ram cpu w) in
    (succeeded launch = false ->
       (forall uid, records_of uid (vps_data w') = records_of uid (vps_data w))
       /\ disk w' = disk w
       /\ calls w' = calls w ++ [create_launch user ram cpu w])
    /\
    (succeeded launch = true ->
       exists vps,
         container_name vps = derived_name user w
         /\ vps_data w' = <[user := records_of user (vps_data w) ++ [vps]]> (vps_data w)
         /\ vps_data_json (disk w') = vps_data w').
Proof.
  intros rt i user ram cpu ipv4 ipv6 w Hram Hcpu w' launch.
  subst w' launch. unfold exec. rewrite slash_create_enters by assumption.
  cbv zeta. set (w1 := add_outbox _ _).
  assert (Hc : calls w1 = calls w) by reflexivity.
  split; intros Hs; rewrite <- Hc in Hs.
  - destruct (execute_incus_raises rt w1 _ 300 Hs) as (e & lg & He).
    rewrite (try_raise_eq _ _ _ _ _ (bind_raise_eq _ _ _ _ _ He)).
    simpl. split; [|split; reflexivity].
    intros uid. apply records_of_ensure_list.
  - destruct (execute_incus_returns rt w1 _ 300 Hs) as (v & lg & He).
    set (w2 := talk _ _ _ w1) in He.
    destruct (quiet_total_run (assign_addresses rt (derived_name user w) ipv4 ipv6) w2
                (quiet_assign_addresses _ _ _ _) (total_assign_addresses _ _ _ _))
      as (ips & c & o & lg' & Hips).
    set (w3 := talk c o lg' w2) in Hips.
    assert (Hw3 : vps_data w3 !! user = Some (records_of user (vps_data w))).
    { simpl. apply lookup_ensure_list. }
    exists (mkVPS (derived_name user w) (Py.str_of_Z ram +:+ "GB") (Py.str_of_Z cpu) "10GB"
                  (Some "running") (now i) (fst ips) (snd ips) (Some []) None None).
    split; [reflexivity|].
    destruct (guild i).
    + erewrite try_ret_eq;
        [|erewrite bind_ret_eq by exact He; erewrite bind_ret_eq by exact Hips;
          erewrite bind_ret_eq by (apply append_vps_present, Hw3); reflexivity].
      simpl; split; [apply insert_ensure_list | reflexivity].
    + erewrite try_ret_eq;
        [|erewrite bind_ret_eq by exact He; erewrite bind_ret_eq by exact Hips;
          erewrite bind_ret_eq by (apply append_vps_present, Hw3); reflexivity].
      simpl; split; [apply insert_ensure_list | reflexivity].
Qed.

(** A witness: the first VPS of user 7, on a runtime that refuses the launch
    and on one that accepts it. *)
Lemma create_appends_iff_launch_succeeds_witness :
  (records_of "7" (vps_data (exec (slash_create refusing alice "7" 1 1 None None)
                               initial_state)) = []
   /\ disk (exec (slash_create refusing alice "7" 1 1 None None) initial_state)
      = disk initial_state)
  /\ (exists vps,
         container_name vps = "vps-7-1"
         /\ vps_data (exec (slash_create obliging alice "7" 1 1 None None) initial_state)
            = <["7" := [vps]]> ∅).
Proof.
  destruct (create_appends_iff_launch_succeeds refusing alice "7" 1 1 None None
              initial_state ltac:(lia) ltac:(lia)) as [Hfail _].
  destruct (create_appends_iff_launch_succeeds obliging alice "7" 1 1 None None
              initial_state ltac:(lia) ltac:(lia)) as [_ Hok].
  split.
  - destruct (Hfail eq_refl) as (H1 & H2 & _). split; [apply (H1 "7") | exact H2].
  - destruct (Hok eq_refl) as (vps & H1 & H2 & _). exists vps. split; [exact H1 | exact H2].
Defined.

(** C3, as it was stated, fails.  User 7 had two VPS and the first was
    deleted; the next create derives [vps-7-2], the name of the record that
    is left.  When the launch is refused, a record with the derived name is
    in the inventory afterwards: the old one. *)
Lemma create_failure_leaves_derived_name_present :
  let w := one_of_two_deleted in
  let w' := exec (slash_create refusing alice "7" 1 1 None None) w in
  succeeded (refusing (calls w) (create_launch "7" 1 1 w)) = false
  /\ derived_name "7" w = "vps-7-2"
  /\ ~ (forall vps, vps ∈ records_of "7" (vps_data w') ->
                    container_name vps <> derived_name "7" w).
Proof.
  split; [reflexivity|]. split; [vm_compute; reflexivity|].
  intros H.
  assert (Hin : exists vps,
             records_of "7"
               (vps_data (exec (slash_create refusing alice "7" 1 1 None None)
                            one_of_two_deleted)) = [vps]
             /\ container_name vps = "vps-7-2").
  { vm_compute. eexists. split; reflexivity. }
  destruct Hin as (vps & Hl & Hn).
  apply (H vps).
  - rewrite Hl. apply list_elem_of_here.
  - rewrite Hn. vm_compute. reflexivity.
Qed.

(** ** Container names *)

(** C4.  The inventory does not keep container names unique.  After two
    creates for user 7 the names are distinct; after deleting the first of
    the two, the name derived for the next create, [vps-7-<len+1>], is
    [vps-7-2] again, the name of the record that is left; when the runtime
    accepts that launch the inventory holds two records named [vps-7-2],
    and when it refuses it the create fails and no VPS is added. *)
Theorem create_after_delete_reuses_container_name :
  let w := one_of_two_deleted in
  let w' := exec (slash_create obliging alice "7" 1 1 None None) w in
  unique_container_names (vps_data two_created)
  /\ container_name <$> records_of "7" (vps_data w) = ["vps-7-2"]
  /\ derived_name "7" w = "vps-7-2"
  /\ container_name <$> records_of "7" (vps_data w') = ["vps-7-2"; "vps-7-2"]
  /\ ~ unique_container_names (vps_data w')
  /\ container_name <$> records_of "7"
        (vps_data (exec (slash_create refusing alice "7" 1 1 None None) w))
     = ["vps-7-2"].
Proof.
  cbv zeta. unfold unique_container_names.
  assert (H2 : container_name <$> all_records (vps_data two_created)
               = ["vps-7-1"; "vps-7-2"]) by (vm_compute; reflexivity).
  assert (H3 : container_name <$> all_records
                 (vps_data (exec (slash_create obliging alice "7" 1 1 None None)
                              one_of_two_deleted))
               = ["vps-7-2"; "vps-7-2"]) by (vm_compute; reflexivity).
  rewrite H2, H3. repeat split; try (vm_compute; reflexivity).
  - apply NoDup_cons. split; [|apply NoDup_singleton].
    intros Hin. apply list_elem_of_singleton in Hin. discriminate.
  - intros Hnd. apply NoDup_cons in Hnd as [Hnot _]. apply Hnot, list_elem_of_here.
Qed.

(** ** Sharing *)

Lemma elem_of_list_insert_inv {A} (l : list A) i x y :
  y ∈ <[i := x]> l -> y = x \/ y ∈ l.
Proof.
  intros Hin. apply list_elem_of_lookup in Hin as [j Hj].
  destruct (decide (i = j)) as [->|Hne].
  - destruct (decide (j < length l)%nat) as [Hlt|Hge].
    + rewrite list_lookup_insert_eq in Hj by assumption. left. congruence.
    + rewrite list_insert_ge in Hj by lia. right. eapply list_elem_of_lookup_2, Hj.
  - rewrite list_lookup_insert_ne in Hj by assumption.
    right. eapply list_elem_of_lookup_2, Hj.
Qed.

(** C5 (as amended).  Sharing with anyone but oneself keeps the owner out
    of [shared_with]: if no record of the inventory is shared with its own
    owner, and a user shares one of their VPS with a different user, then
    no record is shared with its own owner afterwards. *)
Theorem share_with_another_keeps_owner_out :
  forall i shared_user vps_number (w : State),
    shared_user <> user i ->
    owner_not_shared (vps_data w) ->
    owner_not_shared (vps_data (exec (slash_share_user i shared_user vps_number) w)).
Proof.
  intros i t n w Hne Hinv. unfold exec, slash_share_user.
  unfold bind at 1, get at 1.
  destruct (vps_data w !! user i) as [l|] eqn:Hl; [|exact Hinv].
  destruct (_ || _); [exact Hinv|].
  destruct (l !! Z.to_nat (n - 1)) as [vps|] eqn:Hv; [|exact Hinv].
  assert (Hvps : user i ∉ default [] (shared_with vps)).
  { eapply Hinv; [exact Hl | eapply list_elem_of_lookup_2, Hv]. }
  assert (Hstep : forall sw, user i ∉ sw ->
            owner_not_shared (<[user i := <[Z.to_nat (n - 1) := set_shared_with sw vps]> l]>
                                (vps_data w))).
  { intros sw Hsw uid l' vps' Hlook Hin.
    destruct (decide (user i = uid)) as [<-|Hu].
    - rewrite lookup_insert_eq in Hlook. injection Hlook as <-.
      apply elem_of_list_insert_inv in Hin as [->|Hin].
      + exact Hsw.
      + eapply Hinv; eassumption.
    - rewrite lookup_insert_ne in Hlook by assumption. eapply Hinv; eassumption. }
  case_bool_decide as Hmem; simpl.
  - apply Hstep, Hvps.
  - apply Hstep. intros Hin. apply elem_of_app in Hin as [Hin|Hin].
    + contradiction.
    + apply list_elem_of_singleton in Hin. congruence.
Qed.

Lemma owner_not_shared_singleton uid (l : list VPS) :
  (forall vps, vps ∈ l -> uid ∉ default [] (shared_with vps)) ->
  owner_not_shared {[uid := l]}.
Proof.
  intros H uid' l' vps Hl Hin.
  apply lookup_singleton_Some in Hl as [<- <-]. now apply H.
Qed.

Lemma one_created_inventory :
  exists vps, vps_data one_created = {["7" := [vps]]} /\ shared_with vps = Some [].
Proof. eexists. split; vm_compute; reflexivity. Qed.

Lemma one_created_owner_not_shared : owner_not_shared (vps_data one_created).
Proof.
  destruct one_created_inventory as (vps & -> & Hs).
  apply owner_not_shared_singleton. intros v Hin.
  apply list_elem_of_singleton in Hin as ->. rewrite Hs. simpl. apply not_elem_of_nil.
Qed.

(** A witness: user 7 shares their only VPS with user 8. *)
Lemma share_with_another_keeps_owner_out_witness :
  owner_not_shared (vps_data (exec (slash_share_user seven "8" 1) one_created)).
Proof.
  apply (share_with_another_keeps_owner_out seven "8" 1 one_created).
  - discriminate.
  - exact one_created_owner_not_shared.
Defined.

(** C5, as it was stated, fails.  User 7 shares their only VPS with
    themselves: the command has no check for it, and their own id ends up
    in [shared_with]. *)
Lemma owner_shares_with_themselves :
  let w' := exec (slash_share_user seven "7" 1) one_created in
  owner_not_shared (vps_data one_created) /\ ~ owner_not_shared (vps_data w').
Proof.
  split; [exact one_created_owner_not_shared|].
  intros H.
  assert (Hw : exists vps,
             vps_data (exec (slash_share_user seven "7" 1) one_created) !! "7" = Some [vps]
             /\ shared_with vps = Some ["7"]).
  { eexists. split; vm_compute; reflexivity. }
  destruct Hw as (vps & Hl & Hs).
  apply (H "7" [vps] vps Hl (list_elem_of_here _ _)).
  rewrite Hs. apply list_elem_of_here.
Qed.

(** ** The CPU monitor *)

Lemma count_calls_add_call c c' (w : State) :
  count_calls c (add_call c' w)
  = (count_calls c w + (if decide (c' = c) then 1 else 0))%nat.
Proof.
  unfold count_calls. simpl. rewrite filter_app, length_app. f_equal.
  rewrite filter_cons, filter_nil. destruct (decide (c' = c)); reflexivity.
Qed.

Lemma run_app es1 es2 (w : State) : run (es1 ++ es2) w = run es2 (run es1 w).
Proof. unfold run. apply fold_left_app. Qed.

Lemma cpu_monitor_running cpu_usage stop_all (w : State) :
  monitor_alive w = true -> cpu_monitor_active w = true ->
  cpu_monitor cpu_usage stop_all w = cpu_monitor_body cpu_usage stop_all w.
Proof. intros Ha Hf. unfold cpu_monitor, bind, get. now rewrite Ha, Hf. Qed.

(** One turn of a running, enabled monitor: it samples, and it sends the
    forced stop exactly when the sample is above the threshold. *)
Lemma monitor_turn cpu_usage stop_all (w : State) :
  monitor_alive w = true -> cpu_monitor_active w = true ->
  let w' := step (MonitorTurn cpu_usage stop_all) w in
  monitor_alive w' = true /\ cpu_monitor_active w' = true
  /\ count_calls top_command w' = S (count_calls top_command w)
  /\ count_calls stop_all_command w'
     = (count_calls stop_all_command w + (if above_threshold cpu_usage then 1 else 0))%nat.
Proof.
  intros Ha Hf. unfold step, exec. rewrite cpu_monitor_running by assumption.
  unfold cpu_monitor_body, above_threshold.
  destruct (Qle_bool cpu_usage CPU_THRESHOLD); simpl negb.
  all: try (destruct stop_all as [rc|e]; [destruct (rc =? 0)%Z eqn:Hrc|]).
  all: cbn; rewrite ?Hrc; cbn; unfold count_calls; simpl;
    rewrite !filter_app, !length_app; cbn;
    repeat case_decide; try discriminate; try congruence;
    simpl; repeat split; try assumption; lia.
Qed.

Lemma monitor_dead_turn cpu_usage stop_all (w : State) :
  monitor_alive w = false -> step (MonitorTurn cpu_usage stop_all) w = w.
Proof. intros Ha. unfold step, exec, cpu_monitor, bind, get. now rewrite Ha. Qed.

Lemma monitor_dead_run samples (w : State) :
  monitor_alive w = false -> run (turns samples) w = w.
Proof.
  intros Ha. induction samples as [|s samples IH]; [reflexivity|].
  change (run (turns (s :: samples)) w)
    with (run (turns samples) (step (MonitorTurn (fst s) (snd s)) w)).
  rewrite monitor_dead_turn by assumption. exact IH.
Qed.

Lemma monitor_counts samples (w : State) :
  monitor_alive w = true -> cpu_monitor_active w = true ->
  count_calls stop_all_command (run (turns samples) w)
  = (count_calls stop_all_command w + count_above samples)%nat
  /\ count_calls top_command (run (turns samples) w)
     = (count_calls top_command w + length samples)%nat.
Proof.
  revert w. induction samples as [|[u r] samples IH]; intros w Ha Hf.
  - cbn. split; lia.
  - destruct (monitor_turn u r w Ha Hf) as (Ha' & Hf' & Htop & Hstop).
    destruct (IH _ Ha' Hf') as [IH1 IH2].
    change (run (turns ((u, r) :: samples)) w)
      with (run (turns samples) (step (MonitorTurn u r) w)).
    rewrite IH1, IH2, Htop, Hstop. cbn [count_above fst length]. split; lia.
Qed.

(** C1 (as amended).  The monitor is level-triggered.  While it runs and is
    enabled, each turn sends the forced stop exactly when the sample is
    above [CPU_THRESHOLD], whatever the samples before it were: over any
    list of samples the number of forced stops is the number of samples
    above the threshold, one sample being taken per turn.  A turn whose
    sample is at or below the threshold leaves the inventory and the disk
    alone; a turn whose sample is above it and whose forced stop succeeds
    marks every running record stopped and saves that. *)
Theorem monitor_stops_on_every_sample_above_threshold :
  forall w : State,
    monitor_alive w = true -> cpu_monitor_active w = true ->
    (forall samples : list (Q * res Z),
        let w' := run (turns samples) w in
        count_calls stop_all_command w'
        = (count_calls stop_all_command w + count_above samples)%nat
        /\ count_calls top_command w'
           = (count_calls top_command w + length samples)%nat)
    /\ (forall cpu_usage stop_all,
           above_threshold cpu_usage = false ->
           let w' := step (MonitorTurn cpu_usage stop_all) w in
           vps_data w' = vps_data w /\ disk w' = disk w)
    /\ (forall cpu_usage,
           above_threshold cpu_usage = true ->
           let w' := step (MonitorTurn cpu_usage (Ret 0%Z)) w in
           vps_data w' = mark_all_stopped (vps_data w)
           /\ vps_data_json (disk w') = mark_all_stopped (vps_data w)).
Proof.
  intros w Ha Hf. split; [|split].
  - intros samples. apply monitor_counts; assumption.
  - intros u r Hu. cbv zeta. unfold step, exec.
    rewrite cpu_monitor_running by assumption.
    unfold cpu_monitor_body. fold (above_threshold u). rewrite Hu. split; reflexivity.
  - intros u Hu. cbv zeta. unfold step, exec.
    rewrite cpu_monitor_running by assumption.
    unfold cpu_monitor_body. fold (above_threshold u). rewrite Hu. split; reflexivity.
Qed.

(** A witness, and the trace of the simulated sequence 50, 95, 95, 40 from
    the initial state: no forced stop after the first sample, one after the
    second, two after the third, two after the fourth.  A sample of exactly
    90 sends none. *)
Lemma monitor_stops_on_every_sample_above_threshold_witness :
  count_calls stop_all_command (run (turns (take 1 simulated_samples)) initial_state) = 0%nat
  /\ count_calls stop_all_command (run (turns (take 2 simulated_samples)) initial_state) = 1%nat
  /\ count_calls stop_all_command (run (turns (take 3 simulated_samples)) initial_state) = 2%nat
  /\ count_calls stop_all_command (run (turns simulated_samples) initial_state) = 2%nat
  /\ count_calls stop_all_command (run (turns [(90%Q, Ret 0%Z)]) initial_state) = 0%nat.
Proof.
  destruct (monitor_stops_on_every_sample_above_threshold initial_state eq_refl eq_refl)
    as (Hcount & _ & _).
  split; [|split; [|split; [|split]]].
  - apply (Hcount (take 1 simulated_samples)).
  - apply (Hcount (take 2 simulated_samples)).
  - apply (Hcount (take 3 simulated_samples)).
  - apply (Hcount simulated_samples).
  - apply (Hcount [(90%Q, Ret 0%Z)]).
Defined.

(** C1, as it was stated, fails: on 50, 95, 95, 40 the forced stop is not
    sent exactly once, and the third sample, which does not follow a sample
    below the threshold, sends it again. *)
Lemma simulated_sequence_stops_twice :
  count_calls stop_all_command (run (turns simulated_samples) initial_state) <> 1%nat
  /\ count_calls stop_all_command (run (turns (take 3 simulated_samples)) initial_state)
     = S (count_calls stop_all_command (run (turns (take 2 simulated_samples)) initial_state)).
Proof. split; [vm_compute; discriminate | vm_compute; reflexivity]. Qed.

Lemma step_disable i (w : State) :
  step (OperatorCommand i "disable") w
  = add_outbox (SendMessage (create_warning_embed "CPU Monitor Disabled"
                               "CPU monitoring has been disabled."))
      (set_cpu_monitor_active false w).
Proof. reflexivity. Qed.

Lemma step_enable i (w : State) :
  step (OperatorCommand i "enable") w
  = add_outbox (SendMessage (create_success_embed "CPU Monitor Enabled"
                               "CPU monitoring has been enabled."))
      (set_cpu_monitor_active true w).
Proof. reflexivity. Qed.

Lemma monitor_turn_disabled cpu_usage stop_all (w : State) :
  cpu_monitor_active w = false ->
  step (MonitorTurn cpu_usage stop_all) w
  = if monitor_alive w then set_monitor_alive false w else w.
Proof.
  intros Hf. unfold step, exec, cpu_monitor, bind, get. rewrite Hf.
  now destruct (monitor_alive w).
Qed.

(** C6.  Disabling the monitor ends it.  Once the monitor thread has had
    one turn with the flag down, enabling the flag again brings nothing
    back: the operator is told "CPU monitoring has been enabled." and the
    flag reads enabled, but the thread is over, and no later turn takes a
    sample or sends a forced stop. *)
Theorem monitor_does_not_resume_after_disable :
  forall i1 i2 cpu_usage stop_all (samples : list (Q * res Z)) (w : State),
    let w' := run ([OperatorCommand i1 "disable"; MonitorTurn cpu_usage stop_all;
                    OperatorCommand i2 "enable"] ++ turns samples) w in
    cpu_monitor_active w' = true
    /\ SendMessage (create_success_embed "CPU Monitor Enabled"
                      "CPU monitoring has been enabled.") ∈ outbox w'
    /\ monitor_alive w' = false
    /\ count_calls top_command w' = count_calls top_command w
    /\ count_calls stop_all_command w' = count_calls stop_all_command w.
Proof.
  intros i1 i2 u r samples w. cbv zeta. rewrite run_app.
  change (run [OperatorCommand i1 "disable"; MonitorTurn u r; OperatorCommand i2 "enable"] w)
    with (step (OperatorCommand i2 "enable")
            (step (MonitorTurn u r) (step (OperatorCommand i1 "disable") w))).
  rewrite step_disable, monitor_turn_disabled by reflexivity.
  rewrite step_enable.
  set (w3 := add_outbox _ (set_cpu_monitor_active true _)).
  assert (H3 : cpu_monitor_active w3 = true /\ monitor_alive w3 = false
               /\ calls w3 = calls w
               /\ SendMessage (create_success_embed "CPU Monitor Enabled"
                                 "CPU monitoring has been enabled.") ∈ outbox w3).
  { subst w3. simpl. destruct (monitor_alive w) eqn:Ha; simpl.
    all: split; [reflexivity | split; [try reflexivity; exact Ha | split; [reflexivity|]]].
    all: apply elem_of_app; right; apply list_elem_of_here. }
  destruct H3 as (Hf & Ha & Hc & Hm).
  rewrite monitor_dead_run by assumption.
  unfold count_calls. rewrite Hc. repeat split; assumption.
Qed.

(** ** The ledger *)

(** A command that leaves the ledger alone. *)
Lemma quiet_keeps_ledger {A} (m : M State A) w :
  quiet m -> user_data (snd (m w)) = user_data w.
Proof. intros Hq. destruct (Hq w) as (c & o & l & ->). reflexivity. Qed.

Section Ledger.
Implicit Type w : State.

Lemma keeps_quiet {A} (m : M State A) : quiet m -> keeps_ledger m.
Proof. intros Hq w. now apply quiet_keeps_ledger. Qed.

Lemma keeps_ret {A} (a : A) : keeps_ledger (ret a).
Proof. intros w. reflexivity. Qed.

Lemma keeps_raise {A} e : keeps_ledger (A := A) (raise e).
Proof. intros w. reflexivity. Qed.

Lemma keeps_gets {A} (f : State -> A) : keeps_ledger (gets f).
Proof. intros w. reflexivity. Qed.

Lemma keeps_bind {A B} (m : M State A) (k : A -> M State B) :
  keeps_ledger m -> (forall a, keeps_ledger (k a)) -> keeps_ledger (bind m k).
Proof.
  intros Hm Hk w. unfold bind. specialize (Hm w).
  destruct (m w) as [[a|e] w1]; simpl in Hm.
  - now rewrite Hk.
  - exact Hm.
Qed.

Lemma keeps_try_except {A} (m : M State A) (h : exn -> M State A) :
  keeps_ledger m -> (forall e, keeps_ledger (h e)) -> keeps_ledger (try_except m h).
Proof.
  intros Hm Hh w. unfold try_except. specialize (Hm w).
  destruct (m w) as [[a|e] w1]; simpl in Hm.
  - exact Hm.
  - now rewrite Hh.
Qed.

Lemma keeps_set_vps_data f : keeps_ledger (modify (set_vps_data f)).
Proof. intros w. reflexivity. Qed.

Lemma keeps_save_data : keeps_ledger save_data.
Proof. intros w. reflexivity. Qed.

Lemma keeps_discord d : keeps_ledger (discord d).
Proof. intros w. reflexivity. Qed.

Lemma keeps_append_vps user vps : keeps_ledger (append_vps user vps).
Proof.
  intros w. unfold append_vps, bind, get. now destruct (vps_data w !! user).
Qed.

End Ledger.

Lemma nonnegative_insert (u : gmap string Z) k c :
  credits_nonnegative u -> (0 <= c)%Z -> credits_nonnegative (<[k := c]> u).
Proof.
  intros Hu Hc uid c' Hl. destruct (decide (k = uid)) as [->|Hne].
  - rewrite lookup_insert_eq in Hl. congruence.
  - rewrite lookup_insert_ne in Hl by assumption. eapply Hu, Hl.
Qed.

Lemma nonnegative_ensure (u : gmap string Z) k :
  credits_nonnegative u ->
  credits_nonnegative (match u !! k with Some _ => u | None => <[k := 0%Z]> u end).
Proof.
  intros Hu. destruct (u !! k); [assumption|]. apply nonnegative_insert; [assumption | lia].
Qed.

Lemma nonnegative_default (u : gmap string Z) k :
  credits_nonnegative u -> (0 <= default 0 (u !! k))%Z.
Proof. intros Hu. destruct (u !! k) eqn:E; simpl; [eapply Hu, E | lia]. Qed.

Lemma credits_ensured user (w : State) :
  credits user (set_user_data
                  (fun d => match d !! user with Some _ => d | None => <[user := 0%Z]> d end) w)
  = default 0 (user_data w !! user).
Proof.
  unfold credits. simpl. destruct (user_data w !! user) eqn:E; simpl.
  - now rewrite E.
  - now rewrite lookup_insert_eq.
Qed.

Lemma insert_ensured user c (u : gmap string Z) :
  <[user := c]> (match u !! user with Some _ => u | None => <[user := 0%Z]> u end)
  = <[user := c]> u.
Proof. destruct (u !! user); [reflexivity | apply insert_insert_eq]. Qed.

Lemma admin_credits_ledger i user amount (w : State) :
  user_data (exec (slash_admin_credits i user amount) w)
  = if (amount <=? 0)%Z then user_data w
    else <[user := (default 0 (user_data w !! user) + amount)%Z]> (user_data w).
Proof.
  unfold exec, slash_admin_credits. destruct (amount <=? 0)%Z; [reflexivity|].
  unfold bind at 1, ensure_account at 1, modify at 1.
  unfold bind at 1, gets at 1. rewrite credits_ensured.
  cbn. apply insert_ensured.
Qed.

Lemma admin_remove_credits_ledger i user amount_or_all (w : State) :
  let current := default 0 (user_data w !! user) in
  let ensured := match user_data w !! user with
                 | Some _ => user_data w
                 | None => <[user := 0%Z]> (user_data w)
                 end in
  user_data (exec (slash_admin_remove_credits i user amount_or_all) w)
  = if String.eqb (Py.lower amount_or_all) "all" then <[user := 0%Z]> (user_data w)
    else match Py.int amount_or_all with
         | None => ensured
         | Some amount =>
             if (amount <=? 0)%Z then ensured
             else <[user := (current - (if (amount >? current)%Z then current else amount))%Z]>
                    (user_data w)
         end.
Proof.
  cbv zeta. unfold exec, slash_admin_remove_credits.
  unfold bind at 1, ensure_account at 1, modify at 1.
  unfold bind at 1, gets at 1. rewrite credits_ensured.
  destruct (String.eqb (Py.lower amount_or_all) "all").
  - cbn. apply insert_ensured.
  - destruct (Py.int amount_or_all) as [amount|]; [|reflexivity].
    destruct (amount <=? 0)%Z; [reflexivity|].
    unfold bind at 1, gets at 1. rewrite credits_ensured. cbn. apply insert_ensured.
Qed.

Lemma credits_ledger i (w : State) :
  user_data (exec (slash_credits i) w)
  = match user_data w !! user i with
    | Some _ => user_data w
    | None => <[user i := 0%Z]> (user_data w)
    end.
Proof.
  unfold exec, slash_credits, bind, get. now destruct (user_data w !! user i).
Qed.

Lemma keeps_execute_incus rt command timeout :
  keeps_ledger (execute_incus rt command timeout).
Proof. apply keeps_quiet, quiet_execute_incus. Qed.

Lemma keeps_assign_addresses rt name ipv4 ipv6 :
  keeps_ledger (assign_addresses rt name ipv4 ipv6).
Proof. apply keeps_quiet, quiet_assign_addresses. Qed.

Lemma buywc_ledger rt i plan processor ipv4 ipv6 (w : State) :
  user_data (exec (slash_buywc rt i plan processor ipv4 ipv6) w)
  = match assoc plan prices with
    | None => user_data w
    | Some by_processor =>
        if negb (bool_decide (processor ∈ ["Intel"; "AMD"])) then user_data w
        else match assoc processor by_processor with
             | None => user_data w
             | Some cost =>
                 let balance := default 0 (user_data w !! user i) in
                 if (balance <? cost)%Z
                 then match user_data w !! user i with
                      | Some _ => user_data w
                      | None => <[user i := 0%Z]> (user_data w)
                      end
                 else <[user i := (balance - cost)%Z]> (user_data w)
             end
    end.
Proof.
  unfold exec, slash_buywc.
  destruct (assoc plan prices) as [by_processor|]; [|reflexivity].
  destruct (negb _); [reflexivity|].
  destruct (assoc processor by_processor) as [cost|]; [|reflexivity].
  unfold bind at 1, ensure_account at 1, modify at 1.
  unfold bind at 1, gets at 1. rewrite credits_ensured. cbv zeta.
  destruct (_ <? cost)%Z; [reflexivity|].
  unfold bind at 1, modify at 1.
  match goal with
  | |- user_data (snd (?m ?w1)) = _ => assert (Hk : keeps_ledger m)
  end.
  { apply keeps_bind; [apply keeps_set_vps_data | intros _].
    apply keeps_bind; [apply keeps_gets | intros l].
    destruct (assoc plan plans) as [spec|]; [|apply keeps_raise].
    destruct (Py.int _) as [gb|]; [|apply keeps_raise].
    apply keeps_bind; [apply keeps_discord | intros _].
    apply keeps_try_except; [|intros e; apply keeps_discord].
    apply keeps_bind; [apply keeps_execute_incus | intros _].
    apply keeps_bind; [apply keeps_assign_addresses | intros ips].
    apply keeps_bind; [apply keeps_append_vps | intros _].
    apply keeps_bind; [apply keeps_save_data | intros _].
    apply keeps_bind; [destruct (guild i); [apply keeps_discord | apply keeps_ret] | intros _].
    apply keeps_bind; [apply keeps_discord | intros _; apply keeps_discord]. }
  rewrite Hk. simpl. apply insert_ensured.
Qed.

Lemma credit_step_nonnegative rt (w : State) op :
  credits_nonnegative (user_data w) ->
  credits_nonnegative (user_data (credit_step rt w op)).
Proof.
  intros Hw.
  destruct op as [i plan processor ipv4 ipv6 | i user amount | i user s | i]; simpl.
  - rewrite buywc_ledger.
    destruct (assoc plan prices) as [by_processor|]; [|assumption].
    destruct (negb _); [assumption|].
    destruct (assoc processor by_processor) as [cost|]; [|assumption].
    cbv zeta. destruct (Z.ltb_spec (default 0 (user_data w !! user i)) cost).
    + now apply nonnegative_ensure.
    + apply nonnegative_insert; [assumption | lia].
  - rewrite admin_credits_ledger. destruct (Z.leb_spec amount 0); [assumption|].
    apply nonnegative_insert; [assumption|].
    pose proof (nonnegative_default _ user Hw). lia.
  - rewrite admin_remove_credits_ledger. cbv zeta.
    destruct (String.eqb _ _).
    + apply nonnegative_insert; [assumption | lia].
    + destruct (Py.int s) as [amount|]; [|now apply nonnegative_ensure].
      destruct (Z.leb_spec amount 0); [now apply nonnegative_ensure|].
      apply nonnegative_insert; [assumption|].
      destruct (Z.gtb_spec amount (default 0 (user_data w !! user))); lia.
  - rewrite credits_ledger. now apply nonnegative_ensure.
Qed.

Lemma buywc_insufficient rt i plan processor ipv4 ipv6 (w : State) by_processor cost :
  assoc plan prices = Some by_processor ->
  processor ∈ ["Intel"; "AMD"] ->
  assoc processor by_processor = Some cost ->
  (credits (user i) w < cost)%Z ->
  slash_buywc rt i plan processor ipv4 ipv6 w
  = (Ret tt,
     add_outbox
       (SendMessage (create_error_embed "Insufficient Credits"
                       ("You need " +:+ Py.str_of_Z cost +:+ " credits but have "
                          +:+ Py.str_of_Z (credits (user i) w))))
       (set_user_data (fun d => match d !! user i with
                                | Some _ => d
                                | None => <[user i := 0%Z]> d
                                end) w)).
Proof.
  intros Hplan Hproc Hcost Hlt. unfold slash_buywc. cbv zeta. rewrite Hplan.
  rewrite bool_decide_eq_true_2 by assumption. change (negb true) with false.
  cbv iota. rewrite Hcost.
  unfold bind at 1, ensure_account at 1, modify at 1.
  unfold bind at 1, gets at 1. rewrite credits_ensured.
  unfold credits in *.
  destruct (Z.ltb_spec (default 0 (user_data w !! user i)) cost); [reflexivity | lia].
Qed.

(** C10.  Credit balances never go negative.  If no balance is negative,
    none is after any sequence of the commands that touch the ledger
    ([/buywc], [/adminc], [/adminrc], [/credits]).  The guards behind it:
    [/adminc] with a non-positive amount changes no balance; [/buywc] with
    a balance below the cost sends nothing to the runtime and deducts
    nothing; [/adminrc all] leaves exactly zero; [/adminrc n] removes [n]
    clamped to the current balance. *)
Theorem credits_never_negative :
  forall rt : Runtime,
    (forall (ops : list credit_op) (w : State),
        credits_nonnegative (user_data w) ->
        credits_nonnegative (user_data (fold_left (credit_step rt) ops w)))
    /\ (forall i user amount (w : State),
          (amount <= 0)%Z ->
          user_data (exec (slash_admin_credits i user amount) w) = user_data w)
    /\ (forall i plan processor ipv4 ipv6 (w : State) by_processor cost,
          assoc plan prices = Some by_processor ->
          processor ∈ ["Intel"; "AMD"] ->
          assoc processor by_processor = Some cost ->
          (credits (user i) w < cost)%Z ->
          let w' := exec (slash_buywc rt i plan processor ipv4 ipv6) w in
          credits (user i) w' = credits (user i) w /\ calls w' = calls w)
    /\ (forall i user amount_or_all (w : State),
          Py.lower amount_or_all = "all" ->
          user_data (exec (slash_admin_remove_credits i user amount_or_all) w) !! user
          = Some 0%Z)
    /\ (forall i user amount_or_all amount (w : State),
          Py.lower amount_or_all <> "all" ->
          Py.int amount_or_all = Some amount ->
          (0 < amount)%Z ->
          credits user (exec (slash_admin_remove_credits i user amount_or_all) w)
          = (credits user w - Z.min amount (credits user w))%Z).
Proof.
  intros rt. split; [|split; [|split; [|split]]].
  - intros ops. induction ops as [|op ops IH]; intros w Hw; [exact Hw|].
    simpl. apply IH, credit_step_nonnegative, Hw.
  - intros i user amount w Ha. rewrite admin_credits_ledger.
    destruct (Z.leb_spec amount 0); [reflexivity | lia].
  - intros i plan processor ipv4 ipv6 w by_processor cost Hplan Hproc Hcost Hlt.
    cbv zeta. unfold exec.
    rewrite (buywc_insufficient rt i plan processor ipv4 ipv6 w by_processor cost)
      by assumption.
    split; [|reflexivity]. apply credits_ensured.
  - intros i user s w Hall. rewrite admin_remove_credits_ledger. cbv zeta.
    rewrite Hall. simpl. apply lookup_insert_eq.
  - intros i user s amount w Hall Hint Hpos. unfold credits.
    rewrite admin_remove_credits_ledger. cbv zeta.
    destruct (String.eqb_spec (Py.lower s) "all"); [contradiction|].
    rewrite Hint. destruct (Z.leb_spec amount 0); [lia|].
    rewrite lookup_insert_eq. simpl.
    destruct (Z.gtb_spec amount (default 0 (user_data w !! user))); lia.
Qed.

(** A witness: from the empty ledger, user 7 is given 100 credits, buys a
    Starter VPS, and then has 500 and finally all credits removed. *)
Lemma credits_never_negative_witness :
  credits_nonnegative
    (user_data (fold_left (credit_step obliging)
                  [Adminc alice "7" 100; Buywc seven "Starter" "Intel" None None;
                   Adminrc alice "7" "500"; Adminrc alice "7" "all"]
                  initial_state))
  /\ user_data (exec (slash_admin_credits alice "7" (-5)) initial_state) = ∅
  /\ credits "7" (exec (slash_admin_remove_credits alice "7" "500") ledger_of_58) = 0%Z.
Proof.
  destruct (credits_never_negative obliging) as (Hinv & Hadd & _ & _ & Hrem).
  split; [|split].
  - apply Hinv. intros uid c Hl. change ((∅ : gmap string Z) !! uid = Some c) in Hl.
    rewrite lookup_empty in Hl. discriminate.
  - apply Hadd. lia.
  - rewrite (Hrem alice "7" "500" 500%Z ledger_of_58); [reflexivity | discriminate | reflexivity | lia].
Defined.

(** ** The loader *)

Section LoaderFacts.
Import Loader.

Lemma load_items_app l1 l2 d lg :
  load_items (l1 ++ l2) d lg
  = load_items l2 (fst (load_items l1 d lg)) (snd (load_items l1 d lg)).
Proof.
  revert d lg. induction l1 as [|[uid v] l1 IH]; intros d lg; [reflexivity|].
  simpl. destruct v as [| | | |items|members]; try apply IH.
  destruct (has_key "container_name" members); apply IH.
Qed.

(** The log is only ever appended to, and it does not steer the loop. *)
Lemma load_items_log l d lg :
  load_items l d lg
  = (fst (load_items l d []), lg ++ snd (load_items l d [])).
Proof.
  revert d lg. induction l as [|[uid v] l IH]; intros d lg.
  - simpl. now rewrite app_nil_r.
  - simpl. destruct v as [| | | |items|members].
    1-4: rewrite IH, (IH d [unknown_format uid]); simpl; now rewrite <- app_assoc.
    + apply IH.
    + destruct (has_key "container_name" members); apply IH.
Qed.

Lemma load_items_data l d lg lg' :
  fst (load_items l d lg) = fst (load_items l d lg').
Proof. now rewrite (load_items_log l d lg), (load_items_log l d lg'). Qed.

(** One member in a known shape sets the key; in an unknown shape it only
    logs. *)
Lemma load_items_one_record uid members d lg :
  has_key "container_name" members = true ->
  load_items [(uid, JObject members)] d lg = (<[uid := [JObject members]]> d, lg).
Proof. intros H. simpl. now rewrite H. Qed.

Lemma load_items_one_mapping uid members d lg :
  has_key "container_name" members = false ->
  load_items [(uid, JObject members)] d lg = (<[uid := values members]> d, lg).
Proof. intros H. simpl. now rewrite H. Qed.

Lemma load_items_one_unknown uid v d lg :
  unrecognized v ->
  load_items [(uid, v)] d lg = (d, lg ++ [unknown_format uid]).
Proof. intros H. destruct v; simpl in *; tauto. Qed.

End LoaderFacts.

(** C7 (as amended).  Legacy shapes.  Wherever it stands in the document, a
    user's value written as a single record, as a mapping to that record
    under a key other than ["container_name"], or as the one-element list
    of that record loads to the same inventory and the same log, with the
    user's entry being the list of that record; more generally a mapping
    none of whose keys is ["container_name"] loads as the list of its
    values.  A value that is neither an object nor an array is left out,
    a warning naming the user is logged, and the rest of the document loads
    as if the member were not there. *)
Theorem legacy_shapes_load_alike :
  (forall before after uid record key,
      Loader.is_record record ->
      key <> "container_name" ->
      let doc v := Loader.Parsed (Loader.JObject (before ++ (uid, v) :: after)) in
      Loader.load_vps_data (doc record)
      = Loader.load_vps_data (doc (Loader.JArray [record]))
      /\ Loader.load_vps_data (doc (Loader.JObject [(key, record)]))
         = Loader.load_vps_data (doc (Loader.JArray [record]))
      /\ Loader.load_vps_data (Loader.Parsed (Loader.JObject [(uid, record)]))
         = (Ret {[uid := [record]]}, []))
  /\ (forall before after uid members,
         Loader.has_key "container_name" members = false ->
         let doc v := Loader.Parsed (Loader.JObject (before ++ (uid, v) :: after)) in
         Loader.load_vps_data (doc (Loader.JObject members))
         = Loader.load_vps_data (doc (Loader.JArray (Loader.values members))))
  /\ (forall before after uid v,
         Loader.unrecognized v ->
         exists vps_data log,
           Loader.load_vps_data
             (Loader.Parsed (Loader.JObject (before ++ (uid, v) :: after)))
           = (Ret vps_data, log)
           /\ fst (Loader.load_vps_data (Loader.Parsed (Loader.JObject (before ++ after))))
              = Ret vps_data
           /\ Loader.unknown_format uid ∈ log).
Proof.
  split; [|split].
  - intros before after uid record key Hrec Hkey doc. subst doc.
    destruct record as [| | | |items|members]; try contradiction. simpl in Hrec.
    assert (Hk : Loader.has_key "container_name"
                   [(key, Loader.JObject members)] = false).
    { unfold Loader.has_key. cbn [existsb fst].
      destruct (String.eqb_spec "container_name" key); [congruence | reflexivity]. }
    unfold Loader.load_vps_data.
    change (before ++ ?x :: after) with (before ++ [x] ++ after).
    rewrite !load_items_app.
    rewrite (load_items_one_record _ _ _ _ Hrec), (load_items_one_mapping _ _ _ _ Hk).
    repeat split. simpl. now rewrite Hrec.
  - intros before after uid members Hk doc. subst doc.
    unfold Loader.load_vps_data.
    change (before ++ ?x :: after) with (before ++ [x] ++ after).
    rewrite !load_items_app. now rewrite (load_items_one_mapping _ _ _ _ Hk).
  - intros before after uid v Hv. unfold Loader.load_vps_data.
    change (before ++ (uid, v) :: after) with (before ++ [(uid, v)] ++ after).
    rewrite !load_items_app. rewrite (load_items_one_unknown _ _ _ _ Hv).
    do 2 eexists. split; [reflexivity|]. simpl. split.
    + f_equal. apply load_items_data.
    + rewrite (load_items_log after). simpl. apply elem_of_app. left.
      apply elem_of_app. right. apply list_elem_of_here.
Qed.

(** A witness: user 7's record of [vps-7-1], alone in the document, in the
    three shapes; and a document where user 8's value is a number. *)
Lemma legacy_shapes_load_alike_witness :
  (Loader.load_vps_data (Loader.Parsed (Loader.JObject [("7", legacy_record)]))
   = (Ret {["7" := [legacy_record]]}, [])
   /\ Loader.load_vps_data
        (Loader.Parsed (Loader.JObject [("7", Loader.JObject [("0", legacy_record)])]))
      = Loader.load_vps_data (Loader.Parsed (Loader.JObject [("7", Loader.JArray [legacy_record])])))
  /\ (exists vps_data log,
         Loader.load_vps_data
           (Loader.Parsed (Loader.JObject [("8", Loader.JNumber 3); ("7", legacy_record)]))
         = (Ret vps_data, log)
         /\ fst (Loader.load_vps_data (Loader.Parsed (Loader.JObject [("7", legacy_record)])))
            = Ret vps_data
         /\ Loader.unknown_format "8" ∈ log).
Proof.
  destruct legacy_shapes_load_alike as (Hshapes & _ & Hdrop).
  split.
  - destruct (Hshapes [] [] "7" legacy_record "0" eq_refl ltac:(discriminate))
      as (_ & Hb & Ha).
    split; [exact Ha | exact Hb].
  - exact (Hdrop [] [("7", legacy_record)] "8" (Loader.JNumber 3) I).
Defined.

(** C7, as it was stated, fails for a mapping whose key is
    ["container_name"]: the loader takes the mapping itself for a record. *)
Lemma mapping_keyed_container_name_is_taken_for_a_record :
  Loader.is_record legacy_record
  /\ Loader.load_vps_data
       (Loader.Parsed (Loader.JObject
          [("7", Loader.JObject [("container_name", legacy_record)])]))
     <> Loader.load_vps_data
          (Loader.Parsed (Loader.JObject [("7", Loader.JArray [legacy_record])])).
Proof.
  split; [reflexivity|]. intros H.
  apply (f_equal (fun p : res (gmap string (list Loader.json)) * _ =>
                    match fst p with Ret d => d !! "7" | Raise _ => None end)) in H.
  vm_compute in H. discriminate H.
Qed.

(** ** The buttons of ManageView *)

(** Closes a goal that compares two states differing only in how what was
    said to Discord is bracketed. *)
Ltac said :=
  unfold discord, modify, talk, add_outbox, ret; simpl;
  now rewrite ?app_nil_r, <- ?app_assoc.

Section Buttons.
Import Manage.
Variable rt : Runtime.
Implicit Type w : World Heap.

Lemma execute_lxc_undefined : "execute_lxc" ∉ module_globals.
Proof.
  apply (bool_decide_eq_false_1 ("execute_lxc" ∈ module_globals)).
  vm_compute. reflexivity.
Qed.

Lemma execute_incus_defined : "execute_incus" ∈ module_globals.
Proof.
  apply (bool_decide_eq_true_1 ("execute_incus" ∈ module_globals)).
  vm_compute. reflexivity.
Qed.

Lemma call_execute_lxc command timeout w :
  call_global rt "execute_lxc" command timeout w
  = (Raise (mk_exn NameError "name 'execute_lxc' is not defined"), w).
Proof.
  unfold call_global. now rewrite (bool_decide_eq_false_2 _ execute_lxc_undefined).
Qed.

(** Looking a record up changes nothing. *)
Lemma list_item_silent lr index w : snd (list_item lr index w) = w.
Proof.
  unfold list_item, bind, get. destruct index as [n|]; [|reflexivity].
  now destruct (lists (vps_data w) !! lr ≫= _).
Qed.

Lemma owner_list_silent owner w : snd (owner_list owner w) = w.
Proof. unfold owner_list, bind, get. now destruct (roots (vps_data w) !! owner). Qed.

Lemma selected_vps_silent self w : snd (selected_vps self w) = w.
Proof.
  unfold selected_vps. destruct (is_shared self); [|apply list_item_silent].
  unfold bind. pose proof (owner_list_silent (owner_id self) w) as H.
  destruct (owner_list (owner_id self) w) as [[lr|e] w1]; simpl in H; subst w1.
  - apply list_item_silent.
  - reflexivity.
Qed.

Lemma field_silent f key r w : snd (field f key r w) = w.
Proof. unfold field, bind, get. now destruct (records (vps_data w) !! r). Qed.

Lemma field_present f key r w vps :
  records (vps_data w) !! r = Some vps -> field f key r w = (Ret (f vps), w).
Proof. intros H. unfold field, bind, get. now rewrite H. Qed.

Lemma confirm_fails self i w :
  confirm rt self i w
  = (Ret tt,
     talk [] [Defer;
              FollowupSend (create_info_embed "Deleting Container"
                 ("Forcefully removing container `" +:+ cv_container_name self +:+ "`..."));
              FollowupSend (create_error_embed "Reinstall Failed"
                 "Error: name 'execute_lxc' is not defined")] [] w).
Proof.
  unfold confirm. unfold bind at 1, discord at 1, modify at 1.
  erewrite try_raise_eq.
  2:{ unfold bind at 1, discord at 1, modify at 1.
      eapply bind_raise_eq, call_execute_lxc. }
  said.
Qed.

Lemma start_fails self i w vps name :
  denied self i = false ->
  selected_vps self w = (Ret vps, w) ->
  container_name <$> records (vps_data w) !! vps = Some name ->
  action_callback rt self i start w
  = (Ret None,
     talk [] [Defer; FollowupSend (create_error_embed "Start Failed"
                                     "name 'execute_lxc' is not defined")] [] w).
Proof.
  intros Hd Hsel Hname. unfold action_callback. rewrite Hd.
  erewrite bind_ret_eq by exact Hsel.
  destruct (records (vps_data w) !! vps) as [r|] eqn:Hr; [|discriminate].
  injection Hname as <-.
  erewrite bind_ret_eq by (apply field_present, Hr).
  unfold bind at 1. unfold bind at 1, discord at 1, modify at 1.
  erewrite try_raise_eq by (eapply bind_raise_eq, call_execute_lxc).
  said.
Qed.

Lemma stop_fails self i w vps name :
  denied self i = false ->
  selected_vps self w = (Ret vps, w) ->
  container_name <$> records (vps_data w) !! vps = Some name ->
  action_callback rt self i stop w
  = (Ret None,
     talk [] [Defer; FollowupSend (create_error_embed "Stop Failed"
                                     "name 'execute_lxc' is not defined")] [] w).
Proof.
  intros Hd Hsel Hname. unfold action_callback. rewrite Hd.
  erewrite bind_ret_eq by exact Hsel.
  destruct (records (vps_data w) !! vps) as [r|] eqn:Hr; [|discriminate].
  injection Hname as <-.
  erewrite bind_ret_eq by (apply field_present, Hr).
  unfold bind at 1. unfold bind at 1, discord at 1, modify at 1.
  erewrite try_raise_eq by (eapply bind_raise_eq, call_execute_lxc).
  said.
Qed.

(** Whatever the view, the caller and the button: the callback only
    talks to Discord. *)
Lemma action_callback_only_talks self i a w :
  exists said, snd (action_callback rt self i a w) = talk [] said [] w.
Proof.
  unfold action_callback. destruct (denied self i).
  { eexists [_]. unfold bind, discord, modify, ret, talk, add_outbox. simpl.
    now rewrite !app_nil_r. }
  unfold bind at 1. pose proof (selected_vps_silent self w) as Hs.
  destruct (selected_vps self w) as [[vps|e] w1]; simpl in Hs; subst w1.
  2:{ exists []. simpl. now rewrite talk_nil. }
  unfold bind at 1. pose proof (field_silent container_name "container_name" vps w) as Hf.
  destruct (field container_name "container_name" vps w) as [[name|e] w1];
    simpl in Hf; subst w1.
  2:{ exists []. simpl. now rewrite talk_nil. }
  destruct a.
  - destruct (is_shared self || is_admin self).
    all: eexists [_]; unfold bind, discord, modify, ret, talk, add_outbox; simpl;
      now rewrite !app_nil_r.
  - eexists [_; _]. unfold bind at 1. unfold bind at 1, discord at 1, modify at 1.
    erewrite try_raise_eq by (eapply bind_raise_eq, call_execute_lxc).
    said.
  - eexists [_; _]. unfold bind at 1. unfold bind at 1, discord at 1, modify at 1.
    erewrite try_raise_eq by (eapply bind_raise_eq, call_execute_lxc).
    said.
Qed.

End Buttons.

(** C2.  The start, stop and reinstall buttons always fail.  The helper
    they call, [execute_lxc], is not bound anywhere in the module (only
    [execute_incus] is), so the call raises [NameError] inside the [try].
    For every view, caller, button and state, [action_callback] leaves the
    inventory (every record, so every status and [created_at]), the files
    on disk and the runtime untouched.  Once the callback is past its
    access check and has found its record, Start and Stop answer with their
    failure message carrying the [NameError]; and the Confirm button of a
    reinstall always answers "Reinstall Failed", with the same state left
    untouched. *)
Theorem manage_actions_take_exception_branch :
  (("execute_lxc" ∉ Manage.module_globals) /\ ("execute_incus" ∈ Manage.module_globals))
  /\ (forall rt self i a (w : World Manage.Heap),
         let w' := exec (Manage.action_callback rt self i a) w in
         vps_data w' = vps_data w /\ disk w' = disk w /\ calls w' = calls w)
  /\ (forall rt self i (w : World Manage.Heap) vps name,
         Manage.denied self i = false ->
         Manage.selected_vps self w = (Ret vps, w) ->
         container_name <$> Manage.records (vps_data w) !! vps = Some name ->
         outbox (exec (Manage.action_callback rt self i Manage.start) w)
         = outbox w ++ [Defer; FollowupSend (create_error_embed "Start Failed"
                                               "name 'execute_lxc' is not defined")]
         /\ outbox (exec (Manage.action_callback rt self i Manage.stop) w)
            = outbox w ++ [Defer; FollowupSend (create_error_embed "Stop Failed"
                                                  "name 'execute_lxc' is not defined")])
  /\ (forall rt self i (w : World Manage.Heap),
         let w' := exec (Manage.confirm rt self i) w in
         vps_data w' = vps_data w /\ disk w' = disk w /\ calls w' = calls w
         /\ outbox w'
            = outbox w ++
              [Defer;
               FollowupSend (create_info_embed "Deleting Container"
                  ("Forcefully removing container `" +:+ Manage.cv_container_name self
                     +:+ "`..."));
               FollowupSend (create_error_embed "Reinstall Failed"
                  "Error: name 'execute_lxc' is not defined")]).
Proof.
  split; [|split; [|split]].
  - split; [exact execute_lxc_undefined | exact execute_incus_defined].
  - intros rt self i a w. cbv zeta. unfold exec.
    destruct (action_callback_only_talks rt self i a w) as (said & ->).
    simpl. now rewrite app_nil_r.
  - intros rt self i w vps name Hd Hsel Hname. unfold exec.
    rewrite (start_fails rt self i w vps name Hd Hsel Hname).
    rewrite (stop_fails rt self i w vps name Hd Hsel Hname).
    split; reflexivity.
  - intros rt self i w. cbv zeta. unfold exec. rewrite confirm_fails.
    simpl. now rewrite app_nil_r.
Qed.

(** A witness: user 7 presses Start and then Stop on their own stopped
    VPS; the runtime would have obliged. *)
Lemma manage_actions_take_exception_branch_witness :
  outbox (exec (Manage.action_callback obliging own_view seven Manage.start) managed)
  = [Defer; FollowupSend (create_error_embed "Start Failed"
                            "name 'execute_lxc' is not defined")]
  /\ outbox (exec (Manage.action_callback obliging own_view seven Manage.stop) managed)
     = [Defer; FollowupSend (create_error_embed "Stop Failed"
                               "name 'execute_lxc' is not defined")].
Proof.
  destruct manage_actions_take_exception_branch as (_ & _ & Hfail & _).
  exact (Hfail obliging own_view seven managed 0%nat "vps-7-1" eq_refl eq_refl eq_refl).
Defined.

(** * Further properties of the program *)

(** ** Sampling the CPU *)

Lemma has_char_app c a b :
  Text.has_char c (a +:+ b) = Text.has_char c a || Text.has_char c b.
Proof.
  induction a as [|x a IH]; [reflexivity|].
  change (String x a +:+ b) with (String x (a +:+ b)).
  cbn [Text.has_char]. rewrite IH. now rewrite orb_assoc.
Qed.

Lemma split_aux_no_sep sep s : forall cur p,
  Text.has_char sep cur = false ->
  p ∈ Text.split_aux sep cur s -> Text.has_char sep p = false.
Proof.
  induction s as [|c s IH]; intros cur p Hcur Hp; cbn [Text.split_aux] in Hp.
  - apply list_elem_of_singleton in Hp. now subst.
  - destruct (Ascii.eqb c sep) eqn:Hc.
    + apply elem_of_cons in Hp as [->|Hp]; [assumption|].
      now apply (IH EmptyString).
    + apply (IH (cur +:+ String c EmptyString)); [|assumption].
      rewrite has_char_app, Hcur. cbn. rewrite orb_false_r.
      rewrite Ascii.eqb_sym. exact Hc.
Qed.

Lemma prefix_has_char p : forall s c,
  String.prefix p s = true -> Text.has_char c p = true -> Text.has_char c s = true.
Proof.
  induction p as [|x p IH]; intros s c Hp Hc; [discriminate|].
  destruct s as [|y s]; [discriminate|]. cbn in Hp.
  destruct (ascii_dec x y) as [->|]; [|discriminate].
  cbn in Hc |- *. apply orb_true_iff in Hc as [Hc|Hc].
  - now rewrite Hc.
  - rewrite (IH s c Hp Hc). apply orb_true_r.
Qed.

Lemma contains_has_char p s c :
  Py.contains p s = true -> Text.has_char c p = true -> Text.has_char c s = true.
Proof.
  intros Hs Hc. induction s as [|y s IH].
  - cbn in Hs. rewrite orb_false_r in Hs. now apply (prefix_has_char p).
  - cbn [Py.contains] in Hs. apply orb_true_iff in Hs as [Hs|Hs].
    + now apply (prefix_has_char p).
    + cbn. rewrite (IH Hs). apply orb_true_r.
Qed.

(** No piece of a line cut at the commas holds the comma of ["id,"]. *)
Lemma scan_parts_none float (parts : list string) :
  (forall p, p ∈ parts -> Text.has_char ","%char p = false) ->
  scan_parts float parts = None.
Proof.
  induction parts as [|part rest IH]; intros Hparts; [reflexivity|].
  cbn [scan_parts]. destruct (Py.contains "id," part) eqn:Hin.
  - assert (Text.has_char ","%char part = true) as Hc
      by (apply (contains_has_char "id,"); [assumption|reflexivity]).
    rewrite Hparts in Hc by apply list_elem_of_here. discriminate.
  - apply IH. intros p Hp. apply Hparts. now apply list_elem_of_further.
Qed.

Lemma scan_top_none float (lines : list string) : scan_top float lines = None.
Proof.
  induction lines as [|line rest IH]; [reflexivity|].
  cbn [scan_top]. destruct (Py.contains "%Cpu(s):" line); [|exact IH].
  rewrite scan_parts_none; [exact IH|].
  intros p Hp. now apply (split_aux_no_sep ","%char line EmptyString).
Qed.

Lemma get_cpu_usage_zero float top : fst (get_cpu_usage float top) = 0%Q.
Proof.
  unfold get_cpu_usage. destruct top as [output|e]; [|reflexivity].
  now rewrite scan_top_none.
Qed.

(** X1.  [get_cpu_usage] returns 0.0 whatever [top] prints and however
    [float] reads a number: the idle figure is looked for in a piece that
    contains ["id,"], among the pieces of the line cut at its commas, and
    none of those contains a comma.  When [top] ran, no error is logged
    either. *)
Theorem get_cpu_usage_is_always_zero (float : string -> option Q) (top : res string) :
  fst (get_cpu_usage float top) = 0%Q
  /\ (forall output, top = Ret output -> snd (get_cpu_usage float top) = None).
Proof.
  unfold get_cpu_usage. destruct top as [output|e].
  - rewrite scan_top_none. split; [reflexivity|]. intros; reflexivity.
  - split; [reflexivity|]. intros; discriminate.
Qed.

Lemma idle_turn stop_all (w : State) :
  let w' := step (MonitorTurn 0%Q stop_all) w in
  vps_data w' = vps_data w /\ disk w' = disk w /\ user_data w' = user_data w
  /\ count_calls stop_all_command w' = count_calls stop_all_command w.
Proof.
  destruct (monitor_alive w) eqn:Ha.
  2: { rewrite monitor_dead_turn by assumption. repeat split. }
  destruct (cpu_monitor_active w) eqn:Hf.
  2: { unfold step, exec, cpu_monitor, bind, get. rewrite Ha, Hf. repeat split. }
  unfold step, exec. rewrite cpu_monitor_running by assumption.
  unfold cpu_monitor_body. change (Qle_bool 0 CPU_THRESHOLD) with true.
  cbn. unfold count_calls. simpl. rewrite !filter_app, !length_app. cbn.
  repeat case_decide; try discriminate. cbn. repeat split. lia.
Qed.

(** X2.  With its samples taken by [get_cpu_usage], the monitor never sends
    the forced stop: over any number of turns, whatever [top] prints on
    each and from any state, no [incus stop --all --force] is issued and
    the inventory, the ledger and the files stay as they were. *)
Theorem sampled_monitor_never_stops (float : string -> option Q)
    (tops : list (res string * res Z)) (w : State) :
  let w' := run (sampled_turns float tops) w in
  count_calls stop_all_command w' = count_calls stop_all_command w
  /\ vps_data w' = vps_data w /\ user_data w' = user_data w /\ disk w' = disk w.
Proof.
  revert w. induction tops as [|[top stop_all] tops IH]; intros w.
  - cbn. repeat split.
  - change (run (sampled_turns float ((top, stop_all) :: tops)) w)
      with (run (sampled_turns float tops)
              (step (MonitorTurn (fst (get_cpu_usage float top)) stop_all) w)).
    rewrite get_cpu_usage_zero.
    destruct (idle_turn stop_all w) as (Hv & Hd & Hu & Hc).
    specialize (IH (step (MonitorTurn 0%Q stop_all) w)). cbv zeta in IH.
    destruct IH as (IHc & IHv & IHu & IHd).
    cbv zeta. rewrite IHc, IHv, IHu, IHd. repeat split; assumption.
Qed.

(** ** The network inspector *)

Section Inspector.
Context {St : Type} (rt : Runtime).
Implicit Type w : World St.

(** What [execute_incus] returns when the process exits with code 0 after
    writing text. *)
Lemma execute_incus_value w command timeout stdout stderr :
  rt (calls w) command = Exited 0 stdout stderr ->
  Py.decodes stdout = true ->
  Py.decodes stderr = true ->
  exists l, execute_incus rt command timeout w
            = (Ret (if Py.truthy (Py.strip stdout) then Stdout (Py.strip stdout) else PyTrue),
               talk [command] [] l w).
Proof.
  intros Hrt Hout Herr. rewrite (execute_incus_exited rt _ _ _ _ _ _ Hrt).
  unfold try_except, bind at 1. rewrite (read_pipe_text _ _ Hout).
  unfold bind at 1. rewrite (read_pipe_text _ _ Herr).
  unfold bind, logger, modify, ret. cbn. eexists. unfold talk, add_log, add_call. cbn.
  rewrite app_nil_r. reflexivity.
Qed.

(** The two ways the address query ends without addresses. *)
Lemma get_container_ips_failed name w :
  succeeded (rt (calls w) (ip_command name)) = false ->
  exists l, get_container_ips rt name w
            = (Ret ("Error", "Error"), talk [ip_command name] [] l w).
Proof.
  intros Hfail. unfold get_container_ips.
  destruct (execute_incus_raises rt w (ip_command name) 60 Hfail) as (e & l & He).
  erewrite try_raise_eq by (eapply bind_raise_eq; exact He).
  eexists (l ++ [_]). unfold bind, logger, modify, ret. cbn. unfold talk, add_log. cbn.
  rewrite app_nil_r, app_assoc. reflexivity.
Qed.

Lemma get_container_ips_blank name w blank stderr :
  rt (calls w) (ip_command name) = Exited 0 blank stderr ->
  Py.strip blank = "" ->
  exists l, get_container_ips rt name w
            = (Ret ("Error", "Error"), talk [ip_command name] [] l w).
Proof.
  intros Hrt Hblank.
  destruct (succeeded (rt (calls w) (ip_command name))) eqn:Hs;
    [|now apply get_container_ips_failed].
  rewrite Hrt in Hs. cbn [succeeded] in Hs. apply andb_true_iff in Hs as [Hs Herr].
  apply andb_true_iff in Hs as [_ Hout]. unfold get_container_ips.
  destruct (execute_incus_value w (ip_command name) 60 _ _ Hrt Hout Herr) as (l & He).
  rewrite Hblank in He. cbn in He.
  erewrite try_raise_eq by (erewrite bind_ret_eq by exact He; reflexivity).
  eexists (l ++ [_]). unfold bind, logger, modify, ret. cbn. unfold talk, add_log. cbn.
  rewrite app_nil_r, app_assoc. reflexivity.
Qed.

(** X3.  [get_container_ips] answers [("Error", "Error")], and raises
    nothing, whenever the address query fails (non-zero exit, timeout, the
    process not starting, or output that does not decode) and also when it
    succeeds but prints nothing but whitespace: [execute_incus] then returns [True], which has no
    [split].  It sends that one command and changes nothing else. *)
Theorem get_container_ips_answers_error_without_output name w :
  succeeded (rt (calls w) (ip_command name)) = false
  \/ (exists blank stderr, rt (calls w) (ip_command name) = Exited 0 blank stderr
                           /\ Py.strip blank = "") ->
  exists l, get_container_ips rt name w
            = (Ret ("Error", "Error"), talk [ip_command name] [] l w).
Proof.
  intros [Hfail|(blank & stderr & Hrt & Hblank)].
  - now apply get_container_ips_failed.
  - now apply (get_container_ips_blank name w blank stderr).
Qed.

End Inspector.

Lemma get_container_ips_answers_error_without_output_witness :
  (succeeded (obliging (calls initial_state) (ip_command "vps-1-1")) = false
   \/ (exists blank stderr,
         obliging (calls initial_state) (ip_command "vps-1-1") = Exited 0 blank stderr
         /\ Py.strip blank = ""))
  /\ exists l, get_container_ips obliging "vps-1-1" initial_state
               = (Ret ("Error", "Error"), talk [ip_command "vps-1-1"] [] l initial_state).
Proof.
  assert (succeeded (obliging (calls initial_state) (ip_command "vps-1-1")) = false
          \/ (exists blank stderr,
                obliging (calls initial_state) (ip_command "vps-1-1") = Exited 0 blank stderr
                /\ Py.strip blank = "")) as H
    by (right; exists "", ""; split; reflexivity).
  split; [exact H|].
  exact (get_container_ips_answers_error_without_output obliging "vps-1-1" initial_state H).
Defined.

(** *** The address pattern *)













(** ** Deleting a VPS *)

(** The delete command up to the call of the runtime, for a valid number. *)
Lemma slash_delete_vps_enters rt i user vps_number reason (w : State) l vps :
  vps_data w !! user = Some l ->
  (1 <= vps_number)%Z ->
  l !! Z.to_nat (vps_number - 1) = Some vps ->
  slash_delete_vps rt i user vps_number reason w =
  let idx := Z.to_nat (vps_number - 1) in
  try_except
    (execute_incus rt (delete_command (container_name vps)) 300 ;;;
     modify (set_vps_data (<[user := delete idx l]>)) ;;;
     (if bool_decide (delete idx l = []) then
        modify (set_vps_data (delete user)) ;;;
        (if guild i then discord (RemoveRole user) else ret tt)
      else ret tt) ;;;
     save_data ;;;
     discord (EditOriginalResponse (create_success_embed "VPS Deleted Successfully" "")))
    (fun e =>
       discord (EditOriginalResponse
                  (create_error_embed "Deletion Failed" ("Error: " +:+ exn_msg e))))
    (add_outbox (SendMessage (create_info_embed "Deleting VPS"
                   ("Removing VPS #" +:+ Py.str_of_Z vps_number +:+ "..."))) w).
Proof.
  intros Hl Hlo Hidx. unfold slash_delete_vps.
  unfold bind at 1, get at 1. rewrite Hl.
  assert ((vps_number <? 1)%Z || (Z.of_nat (length l) <? vps_number)%Z = false) as ->.
  { apply orb_false_iff. split; [apply Z.ltb_ge; lia|]. apply Z.ltb_ge.
    apply lookup_lt_Some in Hidx. lia. }
  rewrite Hidx. unfold bind at 1, discord at 1, modify at 1. reflexivity.
Qed.

(** X5.  A confirmed deletion removes exactly the numbered record: the
    owner's list loses that position and keeps the order of the rest, the
    owner's key goes when the list becomes empty, nobody else's entry is
    touched, and the inventory file is rewritten to match memory. *)
Theorem delete_vps_removes_the_numbered_record rt i user vps_number reason (w : State) l vps :
  vps_data w !! user = Some l ->
  (1 <= vps_number)%Z ->
  l !! Z.to_nat (vps_number - 1) = Some vps ->
  succeeded (rt (calls w) (delete_command (container_name vps))) = true ->
  let w' := exec (slash_delete_vps rt i user vps_number reason) w in
  records_of user (vps_data w') = delete (Z.to_nat (vps_number - 1)) l
  /\ (delete (Z.to_nat (vps_number - 1)) l = [] -> vps_data w' !! user = None)
  /\ (forall uid, uid <> user -> vps_data w' !! uid = vps_data w !! uid)
  /\ vps_data_json (disk w') = vps_data w'
  /\ user_data w' = user_data w.
Proof.
  intros Hl Hlo Hidx Hs w'. subst w'. unfold exec.
  rewrite (slash_delete_vps_enters rt i user vps_number reason w l vps Hl Hlo Hidx).
  cbv zeta. set (w1 := add_outbox _ w). set (idx := Z.to_nat (vps_number - 1)).
  change (calls w) with (calls w1) in Hs.
  destruct (execute_incus_returns rt w1 _ 300 Hs) as (v & lg & He).
  destruct (bool_decide (delete idx l = [])) eqn:Hempty; destruct (guild i).
  all: erewrite try_ret_eq by (erewrite bind_ret_eq by exact He; reflexivity).
  all: cbn; unfold records_of.
  1,2: apply bool_decide_eq_true_1 in Hempty; rewrite Hempty.
  1,2: rewrite lookup_delete_eq; repeat split; try reflexivity;
       intros uid Huid; now rewrite lookup_delete_ne, lookup_insert_ne by congruence.
  all: apply bool_decide_eq_false_1 in Hempty.
  all: rewrite lookup_insert_eq; repeat split; try reflexivity; try tauto;
       intros uid Huid; now rewrite lookup_insert_ne by congruence.
Qed.

Lemma delete_vps_removes_the_numbered_record_witness :
  let w' := exec (slash_delete_vps obliging alice "7" 1 "No reason") stocked in
  records_of "7" (vps_data w') = [running_record]
  /\ vps_data w' !! "8" = Some [shared_record]
  /\ vps_data_json (disk w') = vps_data w'.
Proof.
  destruct (delete_vps_removes_the_numbered_record obliging alice "7" 1 "No reason" stocked
              [managed_record; running_record] managed_record
              eq_refl ltac:(lia) eq_refl eq_refl) as (H1 & _ & H3 & H4 & _).
  split; [exact H1|]. split; [|exact H4].
  rewrite (H3 "8") by discriminate. reflexivity.
Defined.

(** X6.  Unless the number names a record and the runtime confirms its
    deletion, [slash_delete_vps] changes nothing: for an unknown user, a
    number out of range, or a runtime that fails, the inventory, the ledger
    and the files are as before. *)
Theorem delete_vps_failure_changes_nothing rt i user vps_number reason (w : State) :
  (forall l vps, vps_data w !! user = Some l -> (1 <= vps_number)%Z ->
                 l !! Z.to_nat (vps_number - 1) = Some vps ->
                 succeeded (rt (calls w) (delete_command (container_name vps))) = false) ->
  let w' := exec (slash_delete_vps rt i user vps_number reason) w in
  vps_data w' = vps_data w /\ user_data w' = user_data w /\ disk w' = disk w.
Proof.
  intros Hfail w'. subst w'. unfold exec.
  destruct (vps_data w !! user) as [l|] eqn:Hl.
  2: { unfold slash_delete_vps, bind, get. rewrite Hl. cbn. repeat split. }
  destruct ((vps_number <? 1)%Z || (Z.of_nat (length l) <? vps_number)%Z) eqn:Hrange.
  { unfold slash_delete_vps, bind, get. rewrite Hl, Hrange. cbn. repeat split. }
  apply orb_false_iff in Hrange as [Hlo Hhi].
  apply Z.ltb_ge in Hlo. apply Z.ltb_ge in Hhi.
  destruct (l !! Z.to_nat (vps_number - 1)) as [vps|] eqn:Hidx.
  2: { apply lookup_ge_None in Hidx. lia. }
  rewrite (slash_delete_vps_enters rt i user vps_number reason w l vps Hl Hlo Hidx).
  cbv zeta. set (w1 := add_outbox _ w).
  pose proof (Hfail l vps eq_refl Hlo Hidx) as Hs.
  change (calls w) with (calls w1) in Hs.
  destruct (execute_incus_raises rt w1 _ 300 Hs) as (e & lg & He).
  rewrite (try_raise_eq _ _ _ _ _ (bind_raise_eq _ _ _ _ _ He)).
  cbn. repeat split.
Qed.

Lemma delete_vps_failure_changes_nothing_witness :
  vps_data (exec (slash_delete_vps refusing alice "7" 1 "No reason") stocked)
  = vps_data stocked
  /\ disk (exec (slash_delete_vps refusing alice "7" 1 "No reason") stocked) = disk stocked.
Proof.
  destruct (delete_vps_failure_changes_nothing refusing alice "7" 1 "No reason" stocked)
    as (H1 & _ & H3).
  - intros l vps _ _ _. reflexivity.
  - split; [exact H1 | exact H3].
Defined.

(** ** Sharing and revoking *)

Lemma list_remove_absent x l : x ∉ l -> list_remove x l = l.
Proof.
  induction l as [|y l IH]; intros Hx; [reflexivity|].
  cbn [list_remove]. apply not_elem_of_cons in Hx as [Hne Hx].
  destruct (String.eqb x y) eqn:He; [apply String.eqb_eq in He; congruence|].
  now rewrite IH.
Qed.

Lemma list_remove_snoc x l : x ∉ l -> list_remove x (l ++ [x]) = l.
Proof.
  induction l as [|y l IH]; intros Hx.
  - cbn. now rewrite String.eqb_refl.
  - apply not_elem_of_cons in Hx as [Hne Hx]. cbn.
    destruct (String.eqb x y) eqn:He; [apply String.eqb_eq in He; congruence|].
    now rewrite IH.
Qed.

Lemma elem_of_list_remove_ne x y l : y <> x -> y ∈ list_remove x l <-> y ∈ l.
Proof.
  intros Hne. induction l as [|z l IH]; [reflexivity|].
  cbn [list_remove]. destruct (String.eqb x z) eqn:He.
  - apply String.eqb_eq in He as <-. rewrite elem_of_cons. tauto.
  - rewrite !elem_of_cons, IH. reflexivity.
Qed.

Lemma elem_of_list_remove x y l : y ∈ list_remove x l -> y ∈ l.
Proof.
  induction l as [|z l IH]; [trivial|].
  cbn [list_remove]. destruct (String.eqb x z).
  - apply list_elem_of_further.
  - rewrite !elem_of_cons. tauto.
Qed.

Lemma NoDup_list_remove x l : NoDup l -> NoDup (list_remove x l) /\ x ∉ list_remove x l.
Proof.
  induction 1 as [|z l Hz Hnd [IH1 IH2]]; [split; [constructor|apply not_elem_of_nil]|].
  cbn [list_remove]. destruct (String.eqb x z) eqn:He.
  - apply String.eqb_eq in He as <-. split; assumption.
  - apply String.eqb_neq in He. split.
    + constructor; [|assumption]. intros Hin. now apply Hz, (elem_of_list_remove x).
    + apply not_elem_of_cons. split; assumption.
Qed.

Lemma share_steps i shared_user vps_number (w : State) l vps :
  vps_data w !! user i = Some l ->
  (1 <= vps_number)%Z ->
  l !! Z.to_nat (vps_number - 1) = Some vps ->
  let current := default [] (shared_with vps) in
  vps_data (exec (slash_share_user i shared_user vps_number) w)
  = <[user i := <[Z.to_nat (vps_number - 1) :=
        set_shared_with (if bool_decide (shared_user ∈ current) then current
                         else current ++ [shared_user]) vps]> l]> (vps_data w).
Proof.
  intros Hl Hlo Hidx current. unfold exec, slash_share_user.
  unfold bind at 1, get at 1. rewrite Hl.
  assert ((vps_number <? 1)%Z || (Z.of_nat (length l) <? vps_number)%Z = false) as ->.
  { apply orb_false_iff. split; [apply Z.ltb_ge; lia|]. apply Z.ltb_ge.
    apply lookup_lt_Some in Hidx. lia. }
  rewrite Hidx. subst current. case_bool_decide; reflexivity.
Qed.

Lemma revoke_steps i shared_user vps_number (w : State) l vps :
  vps_data w !! user i = Some l ->
  (1 <= vps_number)%Z ->
  l !! Z.to_nat (vps_number - 1) = Some vps ->
  vps_data (exec (slash_revoke_share i shared_user vps_number) w)
  = <[user i := <[Z.to_nat (vps_number - 1) :=
        set_shared_with (list_remove shared_user (default [] (shared_with vps))) vps]> l]>
      (vps_data w).
Proof.
  intros Hl Hlo Hidx. unfold exec, slash_revoke_share.
  unfold bind at 1, get at 1. rewrite Hl.
  assert ((vps_number <? 1)%Z || (Z.of_nat (length l) <? vps_number)%Z = false) as ->.
  { apply orb_false_iff. split; [apply Z.ltb_ge; lia|]. apply Z.ltb_ge.
    apply lookup_lt_Some in Hidx. lia. }
  rewrite Hidx. case_bool_decide as Hin; cbn.
  - reflexivity.
  - now rewrite list_remove_absent.
Qed.

Lemma shares_insert uid n sw vps l (d : Inventory) :
  (n < length l)%nat ->
  shares uid n (<[uid := <[n := set_shared_with sw vps]> l]> d) = sw.
Proof.
  intros Hn. unfold shares. rewrite lookup_insert_eq.
  rewrite list_lookup_insert_eq by assumption. reflexivity.
Qed.

(** X7.  Sharing a VPS adds the user to the record's [shared_with] and
    nothing else: afterwards the user is on the list, everybody who was on
    it still is and nobody else has joined, and a list without duplicates
    stays without duplicates. *)
Theorem share_grants_access_to_one_user i shared_user vps_number (w : State) l vps :
  vps_data w !! user i = Some l ->
  (1 <= vps_number)%Z ->
  l !! Z.to_nat (vps_number - 1) = Some vps ->
  let before := shares (user i) (Z.to_nat (vps_number - 1)) (vps_data w) in
  let after := shares (user i) (Z.to_nat (vps_number - 1))
                 (vps_data (exec (slash_share_user i shared_user vps_number) w)) in
  shared_user ∈ after
  /\ (forall x, x <> shared_user -> x ∈ after <-> x ∈ before)
  /\ (NoDup before -> NoDup after).
Proof.
  intros Hl Hlo Hidx before after. subst before after.
  rewrite (share_steps i shared_user vps_number w l vps Hl Hlo Hidx). cbv zeta.
  rewrite shares_insert by (eapply lookup_lt_Some, Hidx).
  unfold shares. rewrite Hl, Hidx.
  case_bool_decide as Hin.
  - split; [assumption|]. split; [reflexivity|trivial].
  - split; [apply elem_of_app; right; apply list_elem_of_here|]. split.
    + intros x Hx. rewrite elem_of_app, list_elem_of_singleton. tauto.
    + intros Hnd. apply NoDup_app. split; [assumption|]. split.
      * intros x Hx Hx'. apply list_elem_of_singleton in Hx'. congruence.
      * apply NoDup_singleton.
Qed.

Lemma share_grants_access_to_one_user_witness :
  "9" ∈ shares "7" 1 (vps_data (exec (slash_share_user seven "9" 2) stocked)).
Proof.
  exact (proj1 (share_grants_access_to_one_user seven "9" 2 stocked
                  [managed_record; running_record] running_record
                  eq_refl ltac:(lia) eq_refl)).
Defined.

(** X8.  Revoking takes the user off a duplicate-free [shared_with] and
    leaves everybody else on it: afterwards the user is not on the list,
    the others are exactly those who were, and the list is still without
    duplicates.  ([list.remove] takes out one occurrence only, so the
    absence of duplicates is needed.) *)
Theorem revoke_removes_access_of_one_user i shared_user vps_number (w : State) l vps :
  vps_data w !! user i = Some l ->
  (1 <= vps_number)%Z ->
  l !! Z.to_nat (vps_number - 1) = Some vps ->
  let before := shares (user i) (Z.to_nat (vps_number - 1)) (vps_data w) in
  let after := shares (user i) (Z.to_nat (vps_number - 1))
                 (vps_data (exec (slash_revoke_share i shared_user vps_number) w)) in
  NoDup before ->
  (shared_user ∉ after)
  /\ (forall x, x <> shared_user -> x ∈ after <-> x ∈ before)
  /\ NoDup after.
Proof.
  intros Hl Hlo Hidx before after. subst before after.
  rewrite (revoke_steps i shared_user vps_number w l vps Hl Hlo Hidx).
  rewrite shares_insert by (eapply lookup_lt_Some, Hidx).
  unfold shares. rewrite Hl, Hidx. intros Hnd.
  destruct (NoDup_list_remove shared_user _ Hnd) as [H1 H2].
  split; [assumption|]. split; [|assumption].
  intros x Hx. now apply elem_of_list_remove_ne.
Qed.

Lemma revoke_removes_access_of_one_user_witness :
  "7" ∉ shares "8" 0 (vps_data (exec (slash_revoke_share
                                         (mkInteraction "8" true "2025-01-05T00:00:00")
                                         "7" 1) stocked)).
Proof.
  refine (proj1 (revoke_removes_access_of_one_user
                   (mkInteraction "8" true "2025-01-05T00:00:00") "7" 1 stocked
                   [shared_record] shared_record eq_refl ltac:(lia) eq_refl _)).
  vm_compute. apply NoDup_singleton.
Defined.

(** X9.  Share, then revoke: sharing a VPS with a user who had no access
    and revoking it again gives back the inventory as it was, for a record
    that has its [shared_with] key. *)
Theorem share_then_revoke_restores_the_inventory i shared_user vps_number (w : State)
    l vps current :
  vps_data w !! user i = Some l ->
  (1 <= vps_number)%Z ->
  l !! Z.to_nat (vps_number - 1) = Some vps ->
  shared_with vps = Some current ->
  shared_user ∉ current ->
  vps_data (exec (slash_revoke_share i shared_user vps_number)
              (exec (slash_share_user i shared_user vps_number) w))
  = vps_data w.
Proof.
  intros Hl Hlo Hidx Hcur Hout.
  pose proof (share_steps i shared_user vps_number w l vps Hl Hlo Hidx) as Hshare.
  cbv zeta in Hshare. rewrite Hcur in Hshare. cbn [default] in Hshare.
  rewrite bool_decide_eq_false_2 in Hshare by assumption.
  assert (Hlt : (Z.to_nat (vps_number - 1) < length l)%nat)
    by (eapply lookup_lt_Some, Hidx).
  erewrite revoke_steps; [| rewrite Hshare; apply lookup_insert_eq | assumption
                          | now apply list_lookup_insert_eq ].
  rewrite Hshare. cbn. rewrite list_remove_snoc by assumption.
  rewrite insert_insert_eq, list_insert_insert_eq.
  replace (set_shared_with current (set_shared_with _ vps)) with vps
    by (destruct vps; unfold set_shared_with; cbn in *; congruence).
  rewrite list_insert_id by assumption. now apply insert_id.
Qed.

Lemma share_then_revoke_restores_the_inventory_witness :
  vps_data (exec (slash_revoke_share seven "9" 2)
              (exec (slash_share_user seven "9" 2) stocked))
  = vps_data stocked.
Proof.
  refine (share_then_revoke_restores_the_inventory seven "9" 2 stocked
            [managed_record; running_record] running_record [] eq_refl ltac:(lia)
            eq_refl eq_refl _).
  apply not_elem_of_nil.
Defined.

(** ** Stopping everything *)








(** X11.  A forced stop that fails costs the monitor nothing and changes
    nothing: when [incus stop --all --force] exits with a non-zero code or
    cannot be run, the turn leaves every record, the ledger and the files
    as they were, and the monitor is as alive and as enabled as before, so
    that it samples again on its next turn. *)
Theorem monitor_survives_a_failing_stop cpu_usage stop_all (w : State) :
  stop_all <> Ret 0%Z ->
  let w' := step (MonitorTurn cpu_usage stop_all) w in
  vps_data w' = vps_data w /\ user_data w' = user_data w /\ disk w' = disk w
  /\ (monitor_alive w = true -> cpu_monitor_active w = true ->
      monitor_alive w' = true /\ cpu_monitor_active w' = true).
Proof.
  intros Hfail. cbv zeta.
  destruct (monitor_alive w) eqn:Ha.
  2: { rewrite monitor_dead_turn by assumption. repeat split; congruence. }
  destruct (cpu_monitor_active w) eqn:Hf.
  2: { unfold step, exec, cpu_monitor, bind, get. rewrite Ha, Hf. cbn.
       repeat split; congruence. }
  unfold step, exec. rewrite cpu_monitor_running by assumption.
  unfold cpu_monitor_body. destruct (Qle_bool cpu_usage CPU_THRESHOLD).
  - cbn. repeat split; assumption.
  - destruct stop_all as [rc|e]; [destruct (rc =? 0)%Z eqn:Hrc|].
    + apply Z.eqb_eq in Hrc as ->. congruence.
    + cbn. repeat split; assumption.
    + cbn. repeat split; assumption.
Qed.

Lemma monitor_survives_a_failing_stop_witness :
  vps_data (step (MonitorTurn 95%Q (Ret 1%Z)) stocked) = vps_data stocked
  /\ monitor_alive (step (MonitorTurn 95%Q (Ret 1%Z)) stocked) = true.
Proof.
  destruct (monitor_survives_a_failing_stop 95%Q (Ret 1%Z) stocked ltac:(discriminate))
    as (H1 & _ & _ & H4).
  split; [exact H1|]. exact (proj1 (H4 eq_refl eq_refl)).
Defined.

(** ** Buying a VPS *)

(** Every priced plan has its specification, with a RAM figure [int]
    reads, and the priced processors are the two the command accepts. *)
Lemma priced_plan plan processor by_processor cost :
  assoc plan prices = Some by_processor ->
  assoc processor by_processor = Some cost ->
  processor ∈ ["Intel"; "AMD"]
  /\ exists spec ram_gb,
       assoc plan plans = Some spec
       /\ Py.int (Py.replace "GB" "" (p_ram spec)) = Some ram_gb.
Proof.
  unfold prices, plans. cbn [assoc]. intros Hplan Hcost.
  assert (Hproc : forall a b, by_processor = [("Intel", a); ("AMD", b)] ->
                              processor ∈ ["Intel"; "AMD"]).
  { intros a b ->. cbn [assoc] in Hcost.
    destruct (String.eqb processor "Intel") eqn:E1.
    - apply String.eqb_eq in E1 as ->. apply list_elem_of_here.
    - destruct (String.eqb processor "AMD") eqn:E2; [|discriminate].
      apply String.eqb_eq in E2 as ->. apply list_elem_of_further, list_elem_of_here. }
  destruct (String.eqb plan "Starter");
    [injection Hplan as <-; split; [eapply Hproc; reflexivity|do 2 eexists; split; reflexivity]|].
  destruct (String.eqb plan "Basic");
    [injection Hplan as <-; split; [eapply Hproc; reflexivity|do 2 eexists; split; reflexivity]|].
  destruct (String.eqb plan "Standard");
    [injection Hplan as <-; split; [eapply Hproc; reflexivity|do 2 eexists; split; reflexivity]|].
  destruct (String.eqb plan "Pro");
    [injection Hplan as <-; split; [eapply Hproc; reflexivity|do 2 eexists; split; reflexivity]|].
  discriminate.
Qed.

(** The purchase up to the launch, when the balance covers the cost. *)
Lemma slash_buywc_enters rt i plan processor ipv4 ipv6 (w : State)
    by_processor cost spec ram_gb :
  assoc plan prices = Some by_processor ->
  processor ∈ ["Intel"; "AMD"] ->
  assoc processor by_processor = Some cost ->
  assoc plan plans = Some spec ->
  Py.int (Py.replace "GB" "" (p_ram spec)) = Some ram_gb ->
  (cost <= credits (user i) w)%Z ->
  slash_buywc rt i plan processor ipv4 ipv6 w =
  let w1 :=
    add_outbox (SendMessage (create_info_embed "Processing Purchase"
                               ("Deploying " +:+ plan +:+ " VPS...")))
      (set_vps_data (fun d => match d !! user i with
                              | Some _ => d
                              | None => <[user i := []]> d
                              end)
         (set_user_data (<[user i := (credits (user i) w - cost)%Z]>)
            (set_user_data (fun d => match d !! user i with
                                     | Some _ => d
                                     | None => <[user i := 0%Z]> d
                                     end) w))) in
  let name := derived_name (user i) w in
  try_except
    (execute_incus rt (launch_command name (ram_gb * 1024) (p_cpu spec)) 300 ;;;
     ips <- assign_addresses rt name ipv4 ipv6 ;;
     append_vps (user i)
       (mkVPS name (p_ram spec) (p_cpu spec) (p_storage spec) (Some "running") (now i)
              (fst ips) (snd ips) (Some []) (Some plan) (Some processor)) ;;;
     save_data ;;;
     (if guild i then discord (AddRole (user i)) else ret tt) ;;;
     discord (EditOriginalResponse (create_success_embed "VPS Purchased Successfully" "")) ;;;
     discord (DirectMessage (user i)
                (create_success_embed "VPS Purchased!"
                   ("Your " +:+ plan +:+ " VPS has been successfully deployed!"))))
    (fun e =>
       discord (EditOriginalResponse
                  (create_error_embed "Purchase Failed" ("Error: " +:+ exn_msg e))))
    w1.
Proof.
  intros Hplan Hproc Hcost Hspec Hram Hle. unfold slash_buywc. cbv zeta. rewrite Hplan.
  rewrite bool_decide_eq_true_2 by assumption. change (negb true) with false.
  cbv iota. rewrite Hcost.
  unfold bind at 1, ensure_account at 1, modify at 1.
  unfold bind at 1, gets at 1. rewrite credits_ensured.
  unfold credits in *.
  destruct (Z.ltb_spec (default 0 (user_data w !! user i)) cost); [lia|].
  unfold bind at 1, modify at 1.
  unfold bind at 1, ensure_list at 1, modify at 1.
  unfold bind at 1, gets at 1.
  rewrite Hspec, Hram.
  unfold bind at 1, discord at 1, modify at 1.
  unfold derived_name.
  replace (default [] (vps_data (set_vps_data _ _) !! user i))
    with (records_of (user i) (vps_data w)).
  2:{ simpl. now rewrite lookup_ensure_list. }
  reflexivity.
Qed.

(** X12.  A purchase whose launch fails is paid for all the same: the
    cost has been taken off the buyer's balance in memory before the
    launch and is not given back; no record is added, and nothing is saved,
    so the files still show the old balance.  Nothing is asked of the
    runtime but that it fails the launch. *)
Theorem buywc_failure_keeps_the_payment rt i plan processor ipv4 ipv6 (w : State)
    by_processor cost :
  assoc plan prices = Some by_processor ->
  assoc processor by_processor = Some cost ->
  (cost <= credits (user i) w)%Z ->
  (forall spec ram_gb,
      assoc plan plans = Some spec ->
      Py.int (Py.replace "GB" "" (p_ram spec)) = Some ram_gb ->
      succeeded (rt (calls w)
                   (launch_command (derived_name (user i) w) (ram_gb * 1024) (p_cpu spec)))
      = false) ->
  let w' := exec (slash_buywc rt i plan processor ipv4 ipv6) w in
  credits (user i) w' = (credits (user i) w - cost)%Z
  /\ (forall uid, records_of uid (vps_data w') = records_of uid (vps_data w))
  /\ disk w' = disk w
  /\ exists e, last (outbox w')
               = Some (EditOriginalResponse
                         (create_error_embed "Purchase Failed" ("Error: " +:+ exn_msg e))).
Proof.
  intros Hplan Hcost Hle Hfail w'. subst w'.
  destruct (priced_plan plan processor by_processor cost Hplan Hcost)
    as (Hproc & spec & ram_gb & Hspec & Hram).
  unfold exec.
  rewrite (slash_buywc_enters rt i plan processor ipv4 ipv6 w by_processor cost spec ram_gb)
    by assumption.
  cbv zeta. set (w1 := add_outbox _ _).
  pose proof (Hfail spec ram_gb Hspec Hram) as Hs.
  change (calls w) with (calls w1) in Hs.
  destruct (execute_incus_raises rt w1 _ 300 Hs) as (e & lg & He).
  rewrite (try_raise_eq _ _ _ _ _ (bind_raise_eq _ _ _ _ _ He)).
  cbn. split; [|split; [|split]].
  - unfold credits. cbn. now rewrite lookup_insert_eq.
  - intros uid. apply records_of_ensure_list.
  - reflexivity.
  - exists e. now rewrite last_snoc.
Qed.

(** A witness: user 7 buys a Starter VPS on a runtime that refuses only the
    launch. *)
Lemma buywc_failure_keeps_the_payment_witness :
  let w' := exec (slash_buywc launch_refusing seven "Starter" "Intel" None None) stocked in
  succeeded (launch_refusing [] (ip_command "vps-7-3")) = true
  /\ credits "7" w' = 58%Z
  /\ records_of "7" (vps_data w') = [managed_record; running_record]
  /\ user_data_json (disk w') = {["7" := 100%Z]}.
Proof.
  destruct (buywc_failure_keeps_the_payment launch_refusing seven "Starter" "Intel" None None
              stocked [("Intel", 42%Z); ("AMD", 83%Z)] 42%Z eq_refl eq_refl)
    as (H1 & H2 & H3 & _).
  - vm_compute. discriminate.
  - intros spec ram_gb Hspec Hram. vm_compute in Hspec. injection Hspec as <-.
    vm_compute in Hram. injection Hram as <-. reflexivity.
  - cbv zeta. split; [reflexivity|]. split; [exact H1|]. split; [exact (H2 "7")|].
    now rewrite H3.
Defined.

(** X13.  A purchase whose launch succeeds appends one record to the
    buyer's list, named after the number of records the buyer had, carrying
    the plan and the processor and marked running; the balance is down by
    the cost, and all three files are written to match memory. *)
Theorem buywc_success_appends_the_record rt i tier chip ipv4 ipv6 (w : State)
    by_processor cost :
  assoc tier prices = Some by_processor ->
  assoc chip by_processor = Some cost ->
  (cost <= credits (user i) w)%Z ->
  (forall spec ram_gb,
      assoc tier plans = Some spec ->
      Py.int (Py.replace "GB" "" (p_ram spec)) = Some ram_gb ->
      succeeded (rt (calls w)
                   (launch_command (derived_name (user i) w) (ram_gb * 1024) (p_cpu spec)))
      = true) ->
  let w' := exec (slash_buywc rt i tier chip ipv4 ipv6) w in
  credits (user i) w' = (credits (user i) w - cost)%Z
  /\ (exists vps,
         vps_data w' = <[user i := records_of (user i) (vps_data w) ++ [vps]]> (vps_data w)
         /\ container_name vps = derived_name (user i) w
         /\ plan vps = Some tier /\ processor vps = Some chip
         /\ status vps = Some "running")
  /\ disk w' = mkDisk (user_data w') (vps_data w') (admin_data w).
Proof.
  intros Hplan Hcost Hle Hok w'. subst w'.
  destruct (priced_plan tier chip by_processor cost Hplan Hcost)
    as (Hproc & spec & ram_gb & Hspec & Hram).
  unfold exec.
  rewrite (slash_buywc_enters rt i tier chip ipv4 ipv6 w by_processor cost spec ram_gb)
    by assumption.
  cbv zeta. set (w1 := add_outbox _ _).
  pose proof (Hok spec ram_gb Hspec Hram) as Hs.
  change (calls w) with (calls w1) in Hs.
  destruct (execute_incus_returns rt w1 _ 300 Hs) as (v & lg & He).
  set (w2 := talk _ _ _ w1) in He.
  destruct (quiet_total_run (assign_addresses rt (derived_name (user i) w) ipv4 ipv6) w2
              (quiet_assign_addresses _ _ _ _) (total_assign_addresses _ _ _ _))
    as (ips & c & o & lg' & Hips).
  set (w3 := talk c o lg' w2) in Hips.
  assert (Hw3 : vps_data w3 !! user i = Some (records_of (user i) (vps_data w))).
  { simpl. apply lookup_ensure_list. }
  destruct (guild i).
  all: erewrite try_ret_eq;
    [|erewrite bind_ret_eq by exact He; erewrite bind_ret_eq by exact Hips;
      erewrite bind_ret_eq by (apply append_vps_present, Hw3); reflexivity].
  all: simpl; split; [unfold credits; simpl; now rewrite lookup_insert_eq|].
  all: split; [|reflexivity].
  all: eexists; split; [apply insert_ensure_list|]; repeat split.
Qed.

Lemma buywc_success_appends_the_record_witness :
  let w' := exec (slash_buywc obliging seven "Starter" "Intel" None None) stocked in
  credits "7" w' = 58%Z
  /\ (exists vps, records_of "7" (vps_data w') = [managed_record; running_record; vps]
                  /\ container_name vps = "vps-7-3")
  /\ user_data_json (disk w') = {["7" := 58%Z]}.
Proof.
  destruct (buywc_success_appends_the_record obliging seven "Starter" "Intel" None None stocked
              [("Intel", 42%Z); ("AMD", 83%Z)] 42%Z eq_refl eq_refl)
    as (H1 & (vps & H2 & H3 & _) & H4).
  - vm_compute. discriminate.
  - intros spec ram_gb _ _. reflexivity.
  - cbv zeta. split; [exact H1|]. split.
    + exists vps. split; [|exact H3]. unfold records_of. rewrite H2.
      now rewrite lookup_insert_eq.
    + rewrite H4. reflexivity.
Defined.

(** ** The admin roster *)

Lemma admin_add_steps i member (w : State) :
  let w' := exec (slash_admin_add i member) w in
  admin_data w'
  = (if is_admin member w then admin_data w else admin_data w ++ [member])
  /\ (is_admin member w = false -> admin_data_json (disk w') = admin_data w').
Proof.
  cbv zeta. unfold exec, is_admin.
  destruct (slash_admin_add i member w) as [r w'] eqn:Hrun.
  unfold slash_admin_add in Hrun. unfold bind at 1, get at 1 in Hrun.
  destruct (String.eqb member (Py.str_of_Z MAIN_ADMIN_ID)).
  { injection Hrun as <- <-. split; [reflexivity|discriminate]. }
  destruct (bool_decide (member ∈ admin_data w)).
  { injection Hrun as <- <-. split; [reflexivity|discriminate]. }
  injection Hrun as <- <-. split; reflexivity.
Qed.

Lemma admin_remove_steps i member (w : State) :
  admin_data (exec (slash_admin_remove i member) w)
  = (if is_main_admin member then admin_data w else list_remove member (admin_data w)).
Proof.
  unfold exec, slash_admin_remove, is_main_admin. unfold bind at 1, get at 1.
  destruct (String.eqb member (Py.str_of_Z MAIN_ADMIN_ID)); [reflexivity|].
  case_bool_decide as Hin; [reflexivity|].
  cbn. now rewrite list_remove_absent.
Qed.

(** X14.  [/admin_add] makes its target an admin and touches nobody else:
    afterwards the named user passes the admin check on every path of the
    command, every other user passes it exactly if they did before, and a
    roster without duplicates stays without duplicates.  When the target
    was no admin, the roster file is rewritten to match memory. *)
Theorem admin_add_promotes_one_user i member (w : State) :
  let w' := exec (slash_admin_add i member) w in
  is_admin member w' = true
  /\ (forall x, x <> member -> is_admin x w' = is_admin x w)
  /\ (NoDup (admin_data w) -> NoDup (admin_data w'))
  /\ (is_admin member w = false -> admin_data_json (disk w') = admin_data w').
Proof.
  cbv zeta. destruct (admin_add_steps i member w) as [Hroster Hdisk].
  cbv zeta in Hroster, Hdisk. split; [|split; [|split]]; [| | |exact Hdisk].
  - destruct (is_admin member w) eqn:Hwas.
    + unfold is_admin in *. now rewrite Hroster.
    + unfold is_admin in *. rewrite Hroster.
      apply orb_false_iff in Hwas as [-> _]. cbn.
      apply bool_decide_eq_true_2, elem_of_app. right. apply list_elem_of_here.
  - intros x Hx. unfold is_admin at 1 2. rewrite Hroster. f_equal.
    destruct (is_admin member w); [reflexivity|].
    apply bool_decide_ext. rewrite elem_of_app, list_elem_of_singleton. tauto.
  - intros Hnd. rewrite Hroster. destruct (is_admin member w) eqn:Hwas; [assumption|].
    apply NoDup_app. split; [assumption|]. split; [|apply NoDup_singleton].
    intros x Hx Hx'. apply list_elem_of_singleton in Hx' as ->.
    unfold is_admin in Hwas. apply orb_false_iff in Hwas as [_ Hwas].
    now apply bool_decide_eq_false_1 in Hwas.
Qed.

(** X15.  [/admin_remove] demotes its target and touches nobody else: on
    a roster without duplicates the named user passes the admin check
    afterwards only if they are the main admin, who cannot be removed;
    every other user's standing is as before, and the roster is still
    without duplicates. *)
Theorem admin_remove_demotes_one_user i member (w : State) :
  NoDup (admin_data w) ->
  let w' := exec (slash_admin_remove i member) w in
  is_admin member w' = is_main_admin member
  /\ (forall x, x <> member -> is_admin x w' = is_admin x w)
  /\ NoDup (admin_data w').
Proof.
  intros Hnd. cbv zeta. pose proof (admin_remove_steps i member w) as Hroster.
  destruct (NoDup_list_remove member _ Hnd) as [H1 H2].
  unfold is_admin. rewrite Hroster. unfold is_main_admin in *.
  destruct (String.eqb member (Py.str_of_Z MAIN_ADMIN_ID)) eqn:Hmain.
  - repeat split; assumption.
  - split; [|split; [|exact H1]].
    + now rewrite bool_decide_eq_false_2.
    + intros x Hx. f_equal. apply bool_decide_ext. now apply elem_of_list_remove_ne.
Qed.

Lemma admin_remove_demotes_one_user_witness :
  is_admin "9" stocked = true
  /\ is_admin "9" (exec (slash_admin_remove alice "9") stocked) = false.
Proof.
  split; [reflexivity|].
  refine (proj1 (admin_remove_demotes_one_user alice "9" stocked _)).
  vm_compute. apply NoDup_singleton.
Defined.

(** ** Numbers written and read back *)

Lemma digits_unpadded d : unpadded (NilEmpty.string_of_uint d) = true.
Proof. induction d; cbn; try assumption; reflexivity. Qed.

Lemma digits_no_G d : Text.has_char "G"%char (NilEmpty.string_of_uint d) = false.
Proof. induction d; cbn; try assumption; reflexivity. Qed.

(** No whitespace character of more than one byte starts with an ASCII
    byte. *)
Lemma wide_space_ascii c r :
  (nat_of_ascii c <? 128)%nat = true -> Py.wide_space (String c r) = false.
Proof.
  destruct c as [[] [] [] [] [] [] [] []]; intros H; try discriminate H.
  all: destruct r as [|c2 r]; reflexivity.
Qed.

Lemma lstrip_unpadded s : unpadded s = true -> Py.lstrip_of Py.int_padding s = s.
Proof.
  destruct s as [|c s]; [reflexivity|]. cbn [unpadded Py.lstrip_of].
  intros H. apply andb_true_iff in H as [H _]. apply andb_true_iff in H as [Hp Ha].
  apply negb_true_iff in Hp. rewrite Hp.
  destruct s as [|c2 [|c3 s]]; rewrite ?(wide_space_ascii c _ Ha); reflexivity.
Qed.

Lemma rstrip_unpadded s : unpadded s = true -> Py.rstrip_of Py.int_padding s = s.
Proof.
  induction s as [|c s IH]; [reflexivity|]. cbn [unpadded Py.rstrip_of].
  intros H. apply andb_true_iff in H as [H Hs]. apply andb_true_iff in H as [Hp Ha].
  apply negb_true_iff in Hp. rewrite (IH Hs). cbv zeta. unfold Py.space_char.
  destruct s; [now rewrite Hp|]. now rewrite (wide_space_ascii c _ Ha).
Qed.

Lemma strip_unpadded s :
  unpadded s = true -> Py.lstrip_of Py.int_padding (Py.rstrip_of Py.int_padding s) = s.
Proof. intros H. rewrite rstrip_unpadded by assumption. now apply lstrip_unpadded. Qed.

(** Reading the digits of a positive number, with what was read so far. *)
Lemma parse_digits_acc d : forall acc : positive,
  Py.parse_digits (NilEmpty.string_of_uint d) (Z.pos acc) true
  = Some (Z.pos (Pos.of_uint_acc d acc)).
Proof.
  induction d; intros acc; cbn [NilEmpty.string_of_uint Py.parse_digits Pos.of_uint_acc];
    [reflexivity|..].
  all: change (Ascii.eqb _ "_"%char) with false; cbv iota.
  all: match goal with
       | |- context [Py.digit_of ?c] =>
           let v := eval vm_compute in (Py.digit_of c) in
           change (Py.digit_of c) with v
       end; cbv iota.
  all: rewrite <- IHd; f_equal; lia.
Qed.

Lemma parse_digits_uint d : forall after_digit,
  d <> Decimal.Nil \/ after_digit = true ->
  Py.parse_digits (NilEmpty.string_of_uint d) 0 after_digit = Some (Z.of_uint d).
Proof.
  unfold Z.of_uint.
  induction d; intros b Hb; cbn [NilEmpty.string_of_uint Py.parse_digits Pos.of_uint].
  1: { destruct Hb as [Hb| ->]; [congruence|reflexivity]. }
  1: { change (Ascii.eqb _ "_"%char) with false. cbv iota.
       change (Py.digit_of "0") with (Some 0%Z). cbv iota.
       change (10 * 0 + 0)%Z with 0%Z. apply IHd. now right. }
  all: change (Ascii.eqb _ "_"%char) with false; cbv iota.
  all: match goal with
       | |- context [Py.digit_of ?c] =>
           let v := eval vm_compute in (Py.digit_of c) in
           change (Py.digit_of c) with v
       end; cbv iota.
  all: match goal with
       | |- Py.parse_digits _ ?z true = _ =>
           let v := eval vm_compute in z in change z with v
       end.
  all: apply parse_digits_acc.
Qed.

Lemma to_uint_not_nil p : Pos.to_uint p <> Decimal.Nil.
Proof.
  intros H. pose proof (DecimalPos.Unsigned.of_to p) as Hp.
  rewrite H in Hp. discriminate.
Qed.

Lemma int_of_digits d :
  d <> Decimal.Nil -> Py.int (NilEmpty.string_of_uint d) = Some (Z.of_uint d).
Proof.
  intros Hd. unfold Py.int. rewrite strip_unpadded by apply digits_unpadded.
  rewrite <- (parse_digits_uint d false) by now left.
  destruct d; try congruence; reflexivity.
Qed.

Lemma str_of_Z_nonneg z :
  (0 <= z)%Z -> exists d, d <> Decimal.Nil /\ Py.str_of_Z z = NilEmpty.string_of_uint d
                          /\ Z.of_uint d = z.
Proof.
  intros Hz. destruct z as [|p|p]; [| |lia].
  - exists (Decimal.D0 Decimal.Nil). repeat split. discriminate.
  - exists (Pos.to_uint p). split; [apply to_uint_not_nil|]. split.
    + unfold Py.str_of_Z. cbn [Z.to_int NilZero.string_of_int NilZero.string_of_uint].
      pose proof (to_uint_not_nil p). now destruct (Pos.to_uint p).
    + exact (DecimalZ.of_to (Z.pos p)).
Qed.

Lemma int_str_of_Z z : Py.int (Py.str_of_Z z) = Some z.
Proof.
  destruct (Z.le_gt_cases 0 z) as [Hz|Hz].
  - destruct (str_of_Z_nonneg z Hz) as (d & Hd & -> & <-). now apply int_of_digits.
  - destruct z as [|p|p]; try lia.
    unfold Py.str_of_Z. cbn [Z.to_int NilZero.string_of_int].
    pose proof (to_uint_not_nil p) as Hp.
    assert (NilZero.string_of_uint (Pos.to_uint p) = NilEmpty.string_of_uint (Pos.to_uint p))
      as -> by now destruct (Pos.to_uint p).
    unfold Py.int.
    rewrite strip_unpadded by (cbn [unpadded]; now rewrite digits_unpadded).
    rewrite parse_digits_uint by now left.
    cbn. f_equal. exact (DecimalZ.of_to (Z.neg p)).
Qed.

Lemma replace_fuel_suffix s : forall fuel,
  (String.length s < fuel)%nat ->
  Text.has_char "G"%char s = false ->
  Py.replace_fuel fuel "GB" "" (s +:+ "GB") = s.
Proof.
  induction s as [|c s IH]; intros fuel Hfuel HG.
  - destruct fuel as [|fuel]; [cbn in Hfuel; lia|].
    change ("" +:+ "GB") with "GB". cbn. now destruct fuel.
  - destruct fuel as [|fuel]; [cbn in Hfuel; lia|].
    change (String c s +:+ "GB") with (String c (s +:+ "GB")).
    cbn [Text.has_char] in HG. apply orb_false_iff in HG as [Hc HG].
    cbn [Py.replace_fuel String.prefix].
    destruct (ascii_dec "G" c) as [<-|_]; [discriminate|].
    f_equal. apply IH; [cbn in Hfuel; lia|assumption].
Qed.

Lemma length_append a b : String.length (a +:+ b) = (String.length a + String.length b)%nat.
Proof.
  induction a as [|c a IH]; [reflexivity|].
  change (String c a +:+ b) with (String c (a +:+ b)). cbn. now rewrite IH.
Qed.

Lemma replace_GB s :
  Text.has_char "G"%char s = false -> Py.replace "GB" "" (s +:+ "GB") = s.
Proof.
  intros HG. unfold Py.replace. apply replace_fuel_suffix; [|assumption].
  rewrite length_append. cbn. lia.
Qed.

Lemma int_of_written_ram z :
  (0 <= z)%Z -> Py.int (Py.replace "GB" "" (Py.str_of_Z z +:+ "GB")) = Some z.
Proof.
  intros Hz. destruct (str_of_Z_nonneg z Hz) as (d & Hd & Hstr & Hval).
  rewrite Hstr, replace_GB by apply digits_no_G.
  rewrite <- Hval. now apply int_of_digits.
Qed.

(** X16.  What [/create] writes, the statistics read back.  The record
    keeps the RAM as [f"{ram}GB"] and the CPU as [str(cpu)];
    [int(vps['ram'].replace('GB', ''))] and [int(vps['cpu'])] give the two
    numbers back, so a record written by [/create] never makes them raise
    [ValueError]. *)
Theorem created_figures_read_back rt i member ram_given cpu_given ipv4 ipv6 (w : State) :
  (0 < ram_given)%Z -> (0 < cpu_given)%Z ->
  succeeded (rt (calls w) (create_launch member ram_given cpu_given w)) = true ->
  exists vps,
    vps_data (exec (slash_create rt i member ram_given cpu_given ipv4 ipv6) w)
    = <[member := records_of member (vps_data w) ++ [vps]]> (vps_data w)
    /\ ram_gb vps = Some ram_given
    /\ cpu_cores vps = Some cpu_given.
Proof.
  intros Hram Hcpu Hs. unfold exec. rewrite slash_create_enters by assumption.
  cbv zeta. set (w1 := add_outbox _ _).
  change (calls w) with (calls w1) in Hs.
  destruct (execute_incus_returns rt w1 _ 300 Hs) as (v & lg & He).
  set (w2 := talk _ _ _ w1) in He.
  destruct (quiet_total_run (assign_addresses rt (derived_name member w) ipv4 ipv6) w2
              (quiet_assign_addresses _ _ _ _) (total_assign_addresses _ _ _ _))
    as (ips & c & o & lg' & Hips).
  set (w3 := talk c o lg' w2) in Hips.
  assert (Hw3 : vps_data w3 !! member = Some (records_of member (vps_data w))).
  { simpl. apply lookup_ensure_list. }
  eexists. split; [|split].
  - destruct (guild i).
    all: erewrite try_ret_eq;
      [|erewrite bind_ret_eq by exact He; erewrite bind_ret_eq by exact Hips;
        erewrite bind_ret_eq by (apply append_vps_present, Hw3); reflexivity].
    all: simpl; apply insert_ensure_list.
  - unfold ram_gb. cbn [ram]. apply int_of_written_ram. lia.
  - unfold cpu_cores. cbn [cpu]. apply int_str_of_Z.
Qed.

Lemma created_figures_read_back_witness :
  exists vps,
    vps_data (exec (slash_create obliging alice "7" 16 4 None None) stocked)
    = <["7" := [managed_record; running_record; vps]]> (vps_data stocked)
    /\ ram_gb vps = Some 16%Z /\ cpu_cores vps = Some 4%Z.
Proof.
  exact (created_figures_read_back obliging alice "7" 16 4 None None stocked
           ltac:(lia) ltac:(lia) eq_refl).
Defined.

(** ** Numbering the containers *)

Lemma append_cancel (s a b : string) : s +:+ a = s +:+ b -> a = b.
Proof.
  induction s as [|c s IH]; [trivial|].
  change (String c (s +:+ a) = String c (s +:+ b) -> a = b). intros [= H]. auto.
Qed.

Lemma str_of_Z_inj a b : Py.str_of_Z a = Py.str_of_Z b -> a = b.
Proof.
  intros H. pose proof (int_str_of_Z a) as Ha. rewrite H, int_str_of_Z in Ha. congruence.
Qed.

Lemma container_name_for_inj uid a b :
  container_name_for uid a = container_name_for uid b -> a = b.
Proof.
  unfold container_name_for. intros H.
  do 3 apply append_cancel in H. now apply str_of_Z_inj.
Qed.

Lemma numbered_NoDup uid l : numbered uid l -> NoDup (container_name <$> l).
Proof.
  intros Hn. apply NoDup_alt. intros a b name Ha Hb.
  rewrite list_lookup_fmap in Ha, Hb.
  destruct (l !! a) as [va|] eqn:Hva; [|discriminate].
  destruct (l !! b) as [vb|] eqn:Hvb; [|discriminate].
  cbn in Ha, Hb. injection Ha as Ha. injection Hb as Hb.
  rewrite (Hn a va Hva) in Ha. rewrite (Hn b vb Hvb) in Hb.
  rewrite <- Hb in Ha. apply container_name_for_inj in Ha. lia.
Qed.

Lemma numbered_snoc uid l vps :
  numbered uid l ->
  container_name vps = container_name_for uid (Z.of_nat (length l) + 1) ->
  numbered uid (l ++ [vps]).
Proof.
  intros Hn Hname k v Hk. apply lookup_app_Some in Hk as [Hk|[Hge Hk]].
  - now apply Hn.
  - apply list_lookup_singleton_Some in Hk as [Hk <-].
    rewrite Hname. f_equal. lia.
Qed.

(** The launch and what follows it in [slash_create] and [slash_buywc]:
    either the inventory is left as it was, or one record is appended to
    the owner's list. *)
Lemma provision_outcome rt command name ipv4 ipv6 user (record : string * string -> VPS)
    (tail : M State unit) (handler : exn -> M State unit) (w1 : State) l :
  vps_data w1 !! user = Some l ->
  quiet tail -> (forall e, quiet (handler e)) ->
  let w' := exec (try_except
                    (execute_incus rt command 300 ;;;
                     ips <- assign_addresses rt name ipv4 ipv6 ;;
                     append_vps user (record ips) ;;;
                     save_data ;;;
                     tail)
                    handler) w1 in
  vps_data w' = vps_data w1
  \/ exists ips, vps_data w' = <[user := l ++ [record ips]]> (vps_data w1).
Proof.
  intros Hl Htail Hhandler. cbv zeta. unfold exec.
  destruct (succeeded (rt (calls w1) command)) eqn:Hs.
  - destruct (execute_incus_returns rt w1 command 300 Hs) as (v & lg & He).
    set (w2 := talk _ _ _ w1) in He.
    destruct (quiet_total_run (assign_addresses rt name ipv4 ipv6) w2
                (quiet_assign_addresses _ _ _ _) (total_assign_addresses _ _ _ _))
      as (ips & c & o & lg' & Hips).
    set (w3 := talk c o lg' w2) in Hips.
    assert (Hw3 : vps_data w3 !! user = Some l) by exact Hl.
    right. exists ips.
    unfold try_except.
    erewrite bind_ret_eq by exact He. erewrite bind_ret_eq by exact Hips.
    erewrite bind_ret_eq by (apply append_vps_present, Hw3).
    erewrite bind_ret_eq by reflexivity.
    match goal with |- context [tail ?st] => set (w5 := st) end.
    destruct (Htail w5) as (c5 & o5 & l5 & Ht).
    destruct (tail w5) as [[[]|e] w6]; cbn in Ht; subst w6; [reflexivity|].
    destruct (Hhandler e (talk c5 o5 l5 w5)) as (c6 & o6 & l6 & Hh).
    rewrite Hh. reflexivity.
  - destruct (execute_incus_raises rt w1 command 300 Hs) as (e & lg & He).
    left. rewrite (try_raise_eq _ _ _ _ _ (bind_raise_eq _ _ _ _ _ He)).
    destruct (Hhandler e (talk [command] [] lg w1)) as (c6 & o6 & l6 & Hh).
    rewrite Hh. reflexivity.
Qed.

(** What [/create] and [/buywc] can do to the inventory: nothing, give
    the owner an empty list, or append one record to the owner's list. *)
Lemma create_outcome rt i member ram_given cpu_given ipv4 ipv6 (w : State) :
  let d := vps_data w in
  let d' := vps_data (exec (slash_create rt i member ram_given cpu_given ipv4 ipv6) w) in
  d' = d
  \/ d' = <[member := []]> d /\ d !! member = None
  \/ exists ips,
       (0 < ram_given)%Z /\ (0 < cpu_given)%Z
       /\ d' = <[member := records_of member d
                   ++ [mkVPS (derived_name member w) (Py.str_of_Z ram_given +:+ "GB")
                         (Py.str_of_Z cpu_given) "10GB" (Some "running") (now i)
                         (fst ips) (snd ips) (Some []) None None]]> d.
Proof.
  cbv zeta. destruct ((ram_given <=? 0)%Z || (cpu_given <=? 0)%Z) eqn:Hspec.
  { left. unfold exec, slash_create. now rewrite Hspec. }
  apply orb_false_iff in Hspec as [Hram Hcpu].
  apply Z.leb_gt in Hram. apply Z.leb_gt in Hcpu.
  unfold exec. rewrite slash_create_enters by assumption.
  cbv zeta. set (w1 := add_outbox _ _).
  assert (Hl : vps_data w1 !! member = Some (records_of member (vps_data w)))
    by apply lookup_ensure_list.
  destruct (provision_outcome rt (create_launch member ram_given cpu_given w)
              (derived_name member w) ipv4 ipv6 member
              (fun ips => mkVPS (derived_name member w) (Py.str_of_Z ram_given +:+ "GB")
                            (Py.str_of_Z cpu_given) "10GB" (Some "running") (now i)
                            (fst ips) (snd ips) (Some []) None None)
              ((if guild i then discord (AddRole member) else ret tt) ;;;
               discord (EditOriginalResponse
                          (create_success_embed "VPS Created Successfully" "")) ;;;
               discord (DirectMessage member
                          (create_success_embed "VPS Created!"
                             "Your VPS has been successfully deployed!")))
              (fun e => discord (EditOriginalResponse
                                   (create_error_embed "Creation Failed"
                                      ("Error: " +:+ exn_msg e))))
              w1 _ Hl) as [Hsame|(ips & Hadd)].
  - apply quiet_bind; [destruct (guild i); [apply quiet_discord|apply quiet_ret]|intros _].
    apply quiet_bind; [apply quiet_discord|intros _; apply quiet_discord].
  - intros e. apply quiet_discord.
  - unfold exec in Hsame. rewrite Hsame. cbn.
    destruct (vps_data w !! member) eqn:E; [now left|right; left; now split].
  - right. right. exists ips. unfold exec in Hadd. rewrite Hadd. cbn.
    split; [assumption|]. split; [assumption|]. apply insert_ensure_list.
Qed.

Lemma buywc_outcome rt i tier chip ipv4 ipv6 (w : State) :
  let d := vps_data w in
  let d' := vps_data (exec (slash_buywc rt i tier chip ipv4 ipv6) w) in
  d' = d
  \/ d' = <[user i := []]> d /\ d !! user i = None
  \/ exists ips spec,
       assoc tier plans = Some spec
       /\ d' = <[user i := records_of (user i) d
                   ++ [mkVPS (derived_name (user i) w) (p_ram spec) (p_cpu spec)
                         (p_storage spec) (Some "running") (now i)
                         (fst ips) (snd ips) (Some []) (Some tier) (Some chip)]]> d.
Proof.
  cbv zeta.
  destruct (assoc tier prices) as [by_processor|] eqn:Hplan.
  2: { left. unfold exec, slash_buywc. cbv zeta. now rewrite Hplan. }
  destruct (bool_decide (chip ∈ ["Intel"; "AMD"])) eqn:Hproc.
  2: { left. unfold exec, slash_buywc. cbv zeta. now rewrite Hplan, Hproc. }
  destruct (assoc chip by_processor) as [cost|] eqn:Hcost.
  2: { left. unfold exec, slash_buywc. cbv zeta. now rewrite Hplan, Hproc, Hcost. }
  apply bool_decide_eq_true_1 in Hproc.
  destruct (Z.lt_ge_cases (credits (user i) w) cost) as [Hlt|Hge].
  { left. unfold exec.
    now rewrite (buywc_insufficient rt i tier chip ipv4 ipv6 w by_processor cost
                   Hplan Hproc Hcost Hlt). }
  destruct (priced_plan tier chip by_processor cost Hplan Hcost)
    as (_ & spec & ram_read & Hspec & Hram).
  unfold exec.
  rewrite (slash_buywc_enters rt i tier chip ipv4 ipv6 w by_processor cost spec ram_read
             Hplan Hproc Hcost Hspec Hram ltac:(lia)).
  cbv zeta. set (w1 := add_outbox _ _).
  assert (Hl : vps_data w1 !! user i = Some (records_of (user i) (vps_data w)))
    by apply lookup_ensure_list.
  destruct (provision_outcome rt
              (launch_command (derived_name (user i) w) (ram_read * 1024) (p_cpu spec))
              (derived_name (user i) w) ipv4 ipv6 (user i)
              (fun ips => mkVPS (derived_name (user i) w) (p_ram spec) (p_cpu spec)
                            (p_storage spec) (Some "running") (now i)
                            (fst ips) (snd ips) (Some []) (Some tier) (Some chip))
              ((if guild i then discord (AddRole (user i)) else ret tt) ;;;
               discord (EditOriginalResponse
                          (create_success_embed "VPS Purchased Successfully" "")) ;;;
               discord (DirectMessage (user i)
                          (create_success_embed "VPS Purchased!"
                             ("Your " +:+ tier +:+ " VPS has been successfully deployed!"))))
              (fun e => discord (EditOriginalResponse
                                   (create_error_embed "Purchase Failed"
                                      ("Error: " +:+ exn_msg e))))
              w1 _ Hl) as [Hsame|(ips & Hadd)].
  - apply quiet_bind; [destruct (guild i); [apply quiet_discord|apply quiet_ret]|intros _].
    apply quiet_bind; [apply quiet_discord|intros _; apply quiet_discord].
  - intros e. apply quiet_discord.
  - unfold exec in Hsame. rewrite Hsame. cbn.
    destruct (vps_data w !! user i) eqn:E; [now left|right; left; now split].
  - right. right. exists ips, spec. unfold exec in Hadd. rewrite Hadd. cbn.
    split; [assumption|]. apply insert_ensure_list.
Qed.

Lemma all_numbered_empty user (d : Inventory) :
  all_numbered d -> all_numbered (<[user := []]> d).
Proof.
  intros Hd uid l Hl. destruct (decide (user = uid)) as [<-|Hne].
  - rewrite lookup_insert_eq in Hl. injection Hl as <-. intros k v Hk. discriminate.
  - rewrite lookup_insert_ne in Hl by assumption. now apply Hd.
Qed.

Lemma all_numbered_snoc user vps (d : Inventory) :
  all_numbered d ->
  container_name vps
  = container_name_for user (Z.of_nat (length (records_of user d)) + 1) ->
  all_numbered (<[user := records_of user d ++ [vps]]> d).
Proof.
  intros Hd Hname uid l Hl. destruct (decide (user = uid)) as [<-|Hne].
  - rewrite lookup_insert_eq in Hl. injection Hl as <-.
    apply numbered_snoc; [|assumption]. unfold records_of.
    destruct (d !! user) as [l|] eqn:E; [now apply (Hd user)|]. intros k v Hk. discriminate.
  - rewrite lookup_insert_ne in Hl by assumption. now apply Hd.
Qed.

Lemma provision_keeps_numbering rt op (w : State) :
  all_numbered (vps_data w) -> all_numbered (vps_data (provision_step rt w op)).
Proof.
  intros Hw. destruct op as [i member ram_given cpu_given ipv4 ipv6|i tier chip ipv4 ipv6];
    cbn [provision_step].
  - destruct (create_outcome rt i member ram_given cpu_given ipv4 ipv6 w)
      as [->|[[-> _]|(ips & _ & _ & ->)]];
      [assumption|now apply all_numbered_empty|now apply all_numbered_snoc].
  - destruct (buywc_outcome rt i tier chip ipv4 ipv6 w)
      as [->|[[-> _]|(ips & spec & _ & ->)]];
      [assumption|now apply all_numbered_empty|now apply all_numbered_snoc].
Qed.

(** X17.  Without deletions the containers are numbered and no name is
    used twice.  If every user's list is numbered (record [k] is named
    [vps-{user}-{k}]), it still is after any sequence of [/create] and
    [/buywc], whatever the runtime answers; and in a numbered inventory the
    container names within a user's list are pairwise different. *)
Theorem provisioning_keeps_names_apart rt (ops : list provision_op) (w : State) :
  all_numbered (vps_data w) ->
  let w' := fold_left (provision_step rt) ops w in
  all_numbered (vps_data w')
  /\ forall uid, NoDup (container_name <$> records_of uid (vps_data w')).
Proof.
  intros Hw. cbv zeta.
  assert (Hall : all_numbered (vps_data (fold_left (provision_step rt) ops w))).
  { revert w Hw. induction ops as [|op ops IH]; intros w Hw; [exact Hw|].
    cbn [fold_left]. now apply IH, provision_keeps_numbering. }
  split; [exact Hall|]. intros uid. unfold records_of.
  destruct (vps_data _ !! uid) as [l|] eqn:Hl; [|apply NoDup_nil_2].
  cbn. eapply numbered_NoDup, Hall, Hl.
Qed.

Lemma provisioning_keeps_names_apart_witness :
  NoDup (container_name <$>
           records_of "7"
             (vps_data (fold_left (provision_step obliging)
                          [Create alice "7" 1 1 None None;
                           Buy seven "Starter" "Intel" None None;
                           Create alice "7" 2 1 None None]
                          initial_state))).
Proof.
  refine (proj2 (provisioning_keeps_names_apart obliging _ initial_state _) "7").
  intros uid l Hl. discriminate.
Defined.

(** ** Showing the output of a command *)






(** ** Loading what was saved *)

Section Reloading.
Variable encode : VPS -> Loader.json.

Lemma load_arrays items : forall acc lg k,
  NoDup (fst <$> items) ->
  snd (Loader.load_items
         ((fun entry => (fst entry, Loader.JArray (encode <$> snd entry))) <$> items) acc lg)
  = lg
  /\ fst (Loader.load_items
            ((fun entry => (fst entry, Loader.JArray (encode <$> snd entry))) <$> items)
            acc lg) !! k
     = match (list_to_map items : gmap string (list VPS)) !! k with
       | Some l => Some (encode <$> l)
       | None => acc !! k
       end.
Proof.
  induction items as [|[uid l] items IH]; intros acc lg k Hnd.
  - cbn. now rewrite lookup_empty.
  - rewrite fmap_cons in Hnd. apply NoDup_cons in Hnd as [Hout Hnd].
    rewrite fmap_cons. cbn [Loader.load_items fst snd].
    destruct (IH (<[uid := encode <$> l]> acc) lg k Hnd) as [IH1 IH2].
    split; [exact IH1|]. rewrite IH2. cbn [list_to_map foldr].
    change (foldr _ ∅ items) with (list_to_map items : gmap string (list VPS)).
    destruct (decide (uid = k)) as [->|Hne].
    + rewrite (not_elem_of_list_to_map_1 _ _ Hout). cbn.
      now rewrite !lookup_insert_eq.
    + cbn. now rewrite !lookup_insert_ne by assumption.
Qed.

(** X19.  What [save_data] writes, [load_vps_data] reads back unchanged.
    The inventory file is an object that maps every user to the array of
    their records; in whatever order the users are written, loading it
    gives every user the list of their records, in the same order, and logs
    nothing. *)
Theorem saved_inventory_loads_back (d : Inventory) (items : list (string * list VPS)) :
  items ≡ₚ map_to_list d ->
  Loader.load_vps_data (Loader.Parsed (inventory_document encode items))
  = (Ret (fmap (M := gmap string) (fun l : list VPS => encode <$> l) d), []).
Proof.
  intros Hperm. unfold Loader.load_vps_data, inventory_document. cbv zeta.
  assert (Hnd : NoDup (fst <$> items)).
  { rewrite Hperm. apply NoDup_fst_map_to_list. }
  assert (Hmap : (list_to_map items : gmap string (list VPS)) = d).
  { rewrite (list_to_map_proper items (map_to_list d) Hnd Hperm).
    apply list_to_map_to_list. }
  f_equal.
  - f_equal. apply map_eq. intros k.
    rewrite (proj2 (load_arrays items ∅ [] k Hnd)), Hmap, lookup_fmap, lookup_empty.
    now destruct (d !! k).
  - exact (proj1 (load_arrays items ∅ [] "" Hnd)).
Qed.

End Reloading.

Lemma saved_inventory_loads_back_witness :
  Loader.load_vps_data
    (Loader.Parsed
       (inventory_document (fun vps => Loader.JObject
                                         [("container_name",
                                           Loader.JString (container_name vps))])
          (map_to_list stocked_inventory)))
  = (Ret (fmap (M := gmap string)
            (fun l : list VPS =>
               (fun vps => Loader.JObject
                             [("container_name", Loader.JString (container_name vps))])
                 <$> l)
            stocked_inventory), []).
Proof.
  exact (saved_inventory_loads_back _ stocked_inventory (map_to_list stocked_inventory)
           (reflexivity _)).
Defined.

(** ** The SSH button *)

(** X20.  The SSH button never delivers a link.  Past the access check,
    with its record found, the callback looks for [tmate] in the container
    and then calls [execute_lxc], which is not defined: whatever the check
    and the later [tmate] call would have answered, the only command line
    sent is the [which tmate] check, no direct message goes out, the last
    thing said is "SSH Error", and the inventory and the files are
    untouched. *)
Theorem ssh_button_never_delivers rt self i (check : res Z) (ssh : res (string * string))
    stamp (w : World Manage.Heap) vps record :
  Manage.denied self i = false ->
  Manage.selected_vps self w = (Ret vps, w) ->
  Manage.records (vps_data w) !! vps = Some record ->
  Views.tmate rt self i check ssh stamp w
  = (Ret tt,
     talk [which_tmate (container_name record)]
          ([SendMessage (create_info_embed "SSH Access" "Generating SSH connection...")]
             ++ match check with
                | Ret returncode =>
                    if (returncode =? 0)%Z then []
                    else [FollowupSend (create_info_embed "Installing SSH"
                                          "Installing tmate...")]
                | Raise _ => []
                end
             ++ [FollowupSend
                   (create_error_embed "SSH Error"
                      match check with
                      | Ret _ => "name 'execute_lxc' is not defined"
                      | Raise e => exn_msg e
                      end)])
          [] w).
Proof.
  intros Hd Hsel Hrec. unfold Views.tmate. rewrite Hd.
  erewrite bind_ret_eq by exact Hsel.
  erewrite bind_ret_eq by (apply field_present, Hrec).
  unfold bind at 1, discord at 1, modify at 1.
  destruct check as [returncode|e].
  - destruct (returncode =? 0)%Z eqn:Hrc.
    + erewrite try_raise_eq.
      2:{ unfold bind at 1, modify at 1. unfold bind at 1, ret at 1.
          rewrite Hrc. change (negb true) with false. cbv iota.
          unfold bind at 1, ret at 1.
          eapply bind_raise_eq, call_execute_lxc. }
      unfold discord, modify, talk, add_outbox, add_call, which_tmate. simpl.
      now rewrite ?app_nil_r, <- ?app_assoc.
    + erewrite try_raise_eq.
      2:{ unfold bind at 1, modify at 1. unfold bind at 1, ret at 1.
          rewrite Hrc. change (negb false) with true. cbv iota.
          unfold bind at 1. unfold bind at 1, discord at 1, modify at 1.
          erewrite bind_raise_eq by apply call_execute_lxc. reflexivity. }
      unfold discord, modify, talk, add_outbox, add_call, which_tmate. simpl.
      now rewrite ?app_nil_r, <- ?app_assoc.
  - erewrite try_raise_eq.
    2:{ unfold bind at 1, modify at 1. unfold bind at 1, raise at 1. reflexivity. }
    unfold discord, modify, talk, add_outbox, add_call, which_tmate. simpl.
    now rewrite ?app_nil_r, <- ?app_assoc.
Qed.

Lemma ssh_button_never_delivers_witness :
  Views.tmate obliging own_view seven (Ret 0%Z) (Ret ("ssh abc@tmate.io", "")) "20250101000000"
    managed
  = (Ret tt,
     talk [which_tmate "vps-7-1"]
          [SendMessage (create_info_embed "SSH Access" "Generating SSH connection...");
           FollowupSend (create_error_embed "SSH Error" "name 'execute_lxc' is not defined")]
          [] managed).
Proof.
  exact (ssh_button_never_delivers obliging own_view seven (Ret 0%Z)
           (Ret ("ssh abc@tmate.io", "")) "20250101000000" managed 0%nat managed_record
           eq_refl eq_refl eq_refl).
Defined.

(** ** Opening a view *)

Section OpeningFacts.
Variable get_user : Z -> option string.
Implicit Type w : World Manage.Heap.

Lemma for_each_silent {A} (body : A -> M (World Manage.Heap) unit) (l : list A) :
  (forall a w, snd (body a w) = w) -> forall w, snd (for_each l body w) = w.
Proof.
  intros Hbody. induction l as [|a l IH]; intros w; [reflexivity|].
  cbn [for_each]. unfold bind. pose proof (Hbody a w) as Ha.
  destruct (body a w) as [[[]|e] w1]; cbn in Ha; subst w1; [apply IH|reflexivity].
Qed.

Lemma create_vps_embed_silent self index w :
  snd (Views.create_vps_embed get_user self index w) = w.
Proof.
  unfold Views.create_vps_embed. unfold bind at 1.
  pose proof (list_item_silent (Manage.vps_list self) (Some index) w) as Hl.
  destruct (Manage.list_item _ _ w) as [[vps|e] w1]; cbn in Hl; subst w1; [|reflexivity].
  unfold bind at 1, get at 1. unfold bind at 1.
  pose proof (field_silent container_name "container_name" vps w) as Hf.
  destruct (Manage.field _ _ vps w) as [[name|e] w1]; cbn in Hf; subst w1; reflexivity.
Qed.

Lemma read_name_silent (vps_list : Manage.ref) (index : nat) w :
  snd ((vps <- Manage.list_item vps_list (Some index) ;;
        Manage.field container_name "container_name" vps ;;; ret tt) w) = w.
Proof.
  unfold bind at 1. pose proof (list_item_silent vps_list (Some index) w) as Hl.
  destruct (Manage.list_item vps_list (Some index) w) as [[vps|e] w1]; cbn in Hl; subst w1;
    [|reflexivity].
  unfold bind. pose proof (field_silent container_name "container_name" vps w) as Hf.
  destruct (Manage.field container_name "container_name" vps w) as [[name|e] w1];
    cbn in Hf; subst w1; reflexivity.
Qed.

(** What [__init__] stores in the view it builds. *)
Lemma new_view_fields user_id vps_list is_shared owner_id is_admin w view e w' :
  Views.new_view get_user user_id vps_list is_shared owner_id is_admin w
  = (Ret (view, e), w') ->
  w' = w
  /\ Manage.user_id view = user_id
  /\ Manage.vps_list view = vps_list
  /\ Manage.is_shared view = is_shared
  /\ Manage.owner_id view = or_else owner_id user_id
  /\ Manage.is_admin view = is_admin.
Proof.
  unfold Views.new_view. cbv zeta. unfold bind at 1, Views.list_len at 1.
  unfold bind at 1, get at 1, ret at 1.
  destruct (1 <? _)%nat.
  - unfold bind at 1.
    match goal with
    | |- context [for_each ?l ?body w] =>
        pose proof (for_each_silent body l (read_name_silent vps_list) w) as Hs;
        destruct (for_each l body w) as [[[]|x] w1]
    end; cbn in Hs; subst w1; [|discriminate].
    intros [= <- <- <-]. repeat split.
  - unfold bind at 1.
    match goal with
    | |- context [Views.create_vps_embed get_user ?self 0 w] =>
        pose proof (create_vps_embed_silent self 0 w) as Hs;
        destruct (Views.create_vps_embed get_user self 0 w) as [[emb|x] w1]
    end; cbn in Hs; subst w1; [|discriminate].
    intros [= <- <- <-]. repeat split.
Qed.

Lemma list_len_run (lr : Manage.ref) (l : list Manage.ref) w :
  Manage.lists (vps_data w) !! lr = Some l -> Views.list_len lr w = (Ret (length l), w).
Proof. intros H. unfold Views.list_len, bind, get, ret. now rewrite H. Qed.

Lemma list_item_run (lr : Manage.ref) (l : list Manage.ref) n (r : Manage.ref) w :
  Manage.lists (vps_data w) !! lr = Some l -> l !! n = Some r ->
  Manage.list_item lr (Some n) w = (Ret r, w).
Proof.
  intros Hl Hn. unfold Manage.list_item, bind, get, ret. rewrite Hl. cbn. now rewrite Hn.
Qed.

Lemma create_vps_embed_run self index w (l : list Manage.ref) (r : Manage.ref) record :
  Manage.lists (vps_data w) !! Manage.vps_list self = Some l ->
  l !! index = Some r ->
  Manage.records (vps_data w) !! r = Some record ->
  exists e, Views.create_vps_embed get_user self index w = (Ret e, w).
Proof.
  intros Hl Hn Hr. unfold Views.create_vps_embed.
  erewrite bind_ret_eq by (eapply list_item_run; eassumption).
  unfold bind at 1, get at 1.
  erewrite bind_ret_eq by (apply field_present; exact Hr).
  eexists. reflexivity.
Qed.

(** [__init__] on a list of one record. *)
Lemma new_view_single user_id (lr : Manage.ref) is_shared owner_id is_admin w
    (r : Manage.ref) record :
  Manage.lists (vps_data w) !! lr = Some [r] ->
  Manage.records (vps_data w) !! r = Some record ->
  exists e,
    Views.new_view get_user user_id lr is_shared owner_id is_admin w
    = (Ret (Manage.mkView user_id lr (Some 0%nat) is_shared (or_else owner_id user_id)
              is_admin, e), w).
Proof.
  intros Hl Hr. unfold Views.new_view. cbv zeta.
  erewrite bind_ret_eq by (apply list_len_run; exact Hl).
  cbn [length]. change (1 <? 1)%nat with false. cbv iota.
  destruct (create_vps_embed_run
              (Manage.mkView user_id lr (Some 0%nat) is_shared (or_else owner_id user_id)
                 is_admin) 0 w [r] r record Hl eq_refl Hr) as [e He].
  erewrite bind_ret_eq by exact He. now exists e.
Qed.

Lemma selected_vps_shared self w (lr : Manage.ref) (l : list Manage.ref) n (r : Manage.ref) :
  Manage.is_shared self = true ->
  Manage.selected_index self = Some n ->
  Manage.roots (vps_data w) !! Manage.owner_id self = Some lr ->
  Manage.lists (vps_data w) !! lr = Some l ->
  l !! n = Some r ->
  Manage.selected_vps self w = (Ret r, w).
Proof.
  intros Hs Hi Hroot Hl Hn. unfold Manage.selected_vps. rewrite Hs, Hi.
  unfold bind at 1, Manage.owner_list at 1. unfold bind at 1, get at 1.
  rewrite Hroot. unfold ret at 1. eapply list_item_run; eassumption.
Qed.

End OpeningFacts.

Section SharedViews.
Variable get_user : Z -> option string.
Implicit Type w : World Manage.Heap.

(** X21.  A shared view acts on the owner's first VPS.  [/manage_shared]
    with number [n] checks that the caller is on the [shared_with] list of
    the owner's [n]-th record and opens a view on the one-element list
    [[vps]]; the view therefore has [selected_index = 0], and its
    callbacks, which for a shared view read
    [vps_data[owner_id][selected_index]], resolve the first record of the
    owner's list, whatever [n] was. *)
Theorem shared_view_targets_the_first_record i owner vps_number w
    (lr : Manage.ref) (l : list Manage.ref) (shared first : Manage.ref) (record : VPS) :
  Manage.roots (vps_data w) !! owner = Some lr ->
  Manage.lists (vps_data w) !! lr = Some l ->
  (1 <= vps_number)%Z ->
  l !! Z.to_nat (vps_number - 1) = Some shared ->
  l !! 0%nat = Some first ->
  Manage.records (vps_data w) !! shared = Some record ->
  user i ∈ default [] (shared_with record) ->
  owner <> "" ->
  exists view w',
    Views.slash_manage_shared get_user i owner vps_number w = (Ret (Some view), w')
    /\ Manage.is_shared view = true
    /\ Manage.selected_index view = Some 0%nat
    /\ Manage.selected_vps view w' = (Ret first, w').
Proof.
  intros Hroot Hlist Hlo Hshared Hfirst Hrec Hmember Howner.
  unfold Views.slash_manage_shared. cbv zeta.
  unfold bind at 1, get at 1. rewrite Hroot.
  erewrite bind_ret_eq by (apply list_len_run; exact Hlist).
  assert ((vps_number <? 1)%Z || (Z.of_nat (length l) <? vps_number)%Z = false) as ->.
  { apply orb_false_iff. split; [apply Z.ltb_ge; lia|]. apply Z.ltb_ge.
    apply lookup_lt_Some in Hshared. lia. }
  erewrite bind_ret_eq by (eapply list_item_run; eassumption).
  unfold bind at 1, get at 1. rewrite Hrec.
  unfold invoker. rewrite bool_decide_eq_true_2 by assumption.
  change (negb true) with false. cbv iota.
  unfold bind at 1, Views.new_list at 1. unfold bind at 1, get at 1.
  unfold bind at 1, modify at 1. unfold ret at 1.
  set (wrapper := fresh (dom (Manage.lists (vps_data w)))).
  set (w1 := set_vps_data _ w).
  assert (Hfresh : wrapper <> lr).
  { intros Heq. apply (is_fresh (dom (Manage.lists (vps_data w)))).
    fold wrapper. rewrite Heq. apply elem_of_dom. now exists l. }
  assert (Hwrapper : Manage.lists (vps_data w1) !! wrapper = Some [shared])
    by apply lookup_insert_eq.
  assert (Hlist1 : Manage.lists (vps_data w1) !! lr = Some l).
  { cbn. now rewrite lookup_insert_ne. }
  destruct (new_view_single get_user (user i) wrapper true (Some owner) false w1
              shared record Hwrapper Hrec) as [e He].
  erewrite bind_ret_eq by exact He.
  unfold bind at 1, discord at 1, modify at 1. unfold ret at 1.
  do 2 eexists. split; [reflexivity|]. cbn [Manage.is_shared Manage.selected_index fst].
  split; [reflexivity|]. split; [reflexivity|].
  assert (or_else (Some owner) (user i) = owner) as ->.
  { unfold or_else. now destruct owner. }
  eapply selected_vps_shared; [reflexivity|reflexivity|exact Hroot|exact Hlist1|exact Hfirst].
Qed.

End SharedViews.

Lemma shared_view_targets_the_first_record_witness :
  exists view w',
    Views.slash_manage_shared (fun _ => None) eight "7" 2 two_managed = (Ret (Some view), w')
    /\ Manage.is_shared view = true
    /\ Manage.selected_index view = Some 0%nat
    /\ Manage.selected_vps view w' = (Ret 0%nat, w').
Proof.
  refine (shared_view_targets_the_first_record (fun _ => None) eight "7" 2 two_managed
            2%nat [0%nat; 1%nat] 1%nat 0%nat second_record
            eq_refl eq_refl ltac:(lia) eq_refl eq_refl eq_refl _ ltac:(discriminate)).
  apply list_elem_of_here.
Defined.

Section WhoMayReinstall.
Variable rt : Runtime.
Variable get_user : Z -> option string.
Implicit Type w : World Manage.Heap.

Lemma manage_shared_view i owner vps_number w view w' :
  Views.slash_manage_shared get_user i owner vps_number w = (Ret (Some view), w') ->
  Manage.is_shared view = true /\ Manage.user_id view = user i.
Proof.
  unfold Views.slash_manage_shared. cbv zeta. unfold bind at 1, get at 1.
  destruct (Manage.roots (vps_data w) !! owner) as [lr|]; [|discriminate].
  unfold bind at 1, Views.list_len at 1. unfold bind at 1, get at 1, ret at 1.
  destruct (_ || _); [discriminate|].
  unfold bind at 1.
  pose proof (list_item_silent lr (Some (Z.to_nat (vps_number - 1))) w) as Hl.
  destruct (Manage.list_item lr _ w) as [[vps|x] w1]; cbn in Hl; subst w1; [|discriminate].
  unfold bind at 1, get at 1.
  destruct (Manage.records (vps_data w) !! vps) as [record|]; [|discriminate].
  destruct (negb _); [discriminate|].
  unfold bind at 1, Views.new_list at 1. unfold bind at 1, get at 1.
  unfold bind at 1, modify at 1. unfold ret at 1.
  unfold bind at 1.
  match goal with
  | |- context [Views.new_view get_user ?u ?l ?s ?o ?a ?st] =>
      destruct (Views.new_view get_user u l s o a st) as [[[v e]|x] w2] eqn:Hnew
  end; [|discriminate].
  apply new_view_fields in Hnew as (_ & Hu & _ & Hs & _).
  intros [= <- _]. cbn [fst]. split; assumption.
Qed.

Lemma manage_other_view author member w view w' :
  Views.manage_vps get_user author (Some member) w = (Ret (Some view), w') ->
  Manage.is_admin view = true /\ is_admin author w = true.
Proof.
  unfold Views.manage_vps. unfold bind at 1, get at 1.
  destruct (is_admin author w); [|discriminate]. change (negb true) with false. cbv iota zeta.
  destruct (Manage.roots (vps_data w) !! Views.member_id member) as [lr|]; [|discriminate].
  unfold bind at 1, Views.list_len at 1. unfold bind at 1, get at 1, ret at 1.
  destruct (_ =? 0)%nat; [discriminate|].
  unfold bind at 1.
  match goal with
  | |- context [Views.new_view get_user ?u ?l ?s ?o ?a ?st] =>
      destruct (Views.new_view get_user u l s o a st) as [[[v e]|x] w2] eqn:Hnew
  end; [|discriminate].
  apply new_view_fields in Hnew as (_ & _ & _ & _ & _ & Ha).
  intros [= <- _]. cbn [fst]. split; [assumption|reflexivity].
Qed.

Lemma manage_own_view author w view w' :
  Views.manage_vps get_user author None w = (Ret (Some view), w') ->
  Manage.user_id view = author /\ Manage.owner_id view = author
  /\ Manage.is_shared view = false /\ Manage.is_admin view = false.
Proof.
  unfold Views.manage_vps. cbv zeta. unfold bind at 1, get at 1.
  destruct (Manage.roots (vps_data w) !! author) as [lr|]; [|discriminate].
  unfold bind at 1, Views.list_len at 1. unfold bind at 1, get at 1, ret at 1.
  destruct (_ =? 0)%nat; [discriminate|].
  unfold bind at 1.
  match goal with
  | |- context [Views.new_view get_user ?u ?l ?s ?o ?a ?st] =>
      destruct (Views.new_view get_user u l s o a st) as [[[v e]|x] w2] eqn:Hnew
  end; [|discriminate].
  apply new_view_fields in Hnew as (_ & Hu & _ & Hs & Ho & Ha).
  intros [= <- _]. cbn [fst]. repeat split; assumption.
Qed.

Lemma confirmation_needs_the_owner self i a w cv w' :
  Manage.action_callback rt self i a w = (Ret (Some cv), w') ->
  a = Manage.reinstall
  /\ Manage.is_shared self = false /\ Manage.is_admin self = false
  /\ user i = Manage.user_id self.
Proof.
  unfold Manage.action_callback.
  destruct (Manage.denied self i) eqn:Hd; [discriminate|].
  unfold bind at 1. pose proof (selected_vps_silent self w) as Hs.
  destruct (Manage.selected_vps self w) as [[vps|x] w1]; cbn in Hs; subst w1;
    [|discriminate].
  unfold bind at 1. pose proof (field_silent container_name "container_name" vps w) as Hf.
  destruct (Manage.field _ _ vps w) as [[name|x] w1]; cbn in Hf; subst w1; [|discriminate].
  destruct a.
  - destruct (Manage.is_shared self) eqn:Hshared; [discriminate|].
    destruct (Manage.is_admin self) eqn:Hadmin; [discriminate|].
    intros _. unfold Manage.denied in Hd. rewrite Hadmin in Hd.
    rewrite andb_true_r in Hd. apply negb_false_iff, String.eqb_eq in Hd.
    repeat split; assumption.
  - unfold bind at 1. unfold bind at 1, discord at 1, modify at 1.
    erewrite try_raise_eq by (eapply bind_raise_eq, call_execute_lxc). discriminate.
  - unfold bind at 1. unfold bind at 1, discord at 1, modify at 1.
    erewrite try_raise_eq by (eapply bind_raise_eq, call_execute_lxc). discriminate.
Qed.

(** X22.  Only the owner, on their own view, reaches the reinstall
    dialog.  A view answers a click with the confirmation dialog only for
    the Reinstall button, on a view that is neither shared nor an admin's,
    clicked by the user it was opened for.  The views [/manage_shared]
    opens are shared, those [.manage @user] opens are an admin's (and only
    an admin gets one), so no click on them is answered with the dialog;
    the view [.manage] opens for its author is the author's own. *)
Theorem reinstall_is_for_the_owner_alone :
  (forall self i a w cv w',
      Manage.action_callback rt self i a w = (Ret (Some cv), w') ->
      a = Manage.reinstall /\ Manage.is_shared self = false
      /\ Manage.is_admin self = false /\ user i = Manage.user_id self)
  /\ (forall i owner vps_number w view w1 clicker a w2,
         Views.slash_manage_shared get_user i owner vps_number w = (Ret (Some view), w1) ->
         forall cv, fst (Manage.action_callback rt view clicker a w2) <> Ret (Some cv))
  /\ (forall author member w view w1 clicker a w2,
         Views.manage_vps get_user author (Some member) w = (Ret (Some view), w1) ->
         is_admin author w = true
         /\ forall cv, fst (Manage.action_callback rt view clicker a w2) <> Ret (Some cv))
  /\ (forall author w view w1,
         Views.manage_vps get_user author None w = (Ret (Some view), w1) ->
         Manage.user_id view = author /\ Manage.owner_id view = author
         /\ Manage.is_shared view = false /\ Manage.is_admin view = false).
Proof.
  split; [exact confirmation_needs_the_owner|]. split; [|split].
  - intros i owner n w view w1 clicker a w2 Hopen.
    apply manage_shared_view in Hopen as [Hshared _].
    assert (forall cv, fst (Manage.action_callback rt view clicker a w2) <> Ret (Some cv))
      as Hnone.
    { intros cv Hcv.
      destruct (Manage.action_callback rt view clicker a w2) as [r w3] eqn:Hrun.
      cbn in Hcv. subst r.
      apply confirmation_needs_the_owner in Hrun as (_ & Hs & _). congruence. }
    exact Hnone.
  - intros author member w view w1 clicker a w2 Hopen.
    apply manage_other_view in Hopen as [Hadmin Hauthor]. split; [exact Hauthor|].
    intros cv Hcv.
    destruct (Manage.action_callback rt view clicker a w2) as [r w3] eqn:Hrun.
    cbn in Hcv. subst r.
    apply confirmation_needs_the_owner in Hrun as (_ & _ & Ha & _). congruence.
  - intros author w view w1 Hopen. exact (manage_own_view author w view w1 Hopen).
Qed.

End WhoMayReinstall.

Lemma shared_view_opens :
  exists view w1,
    Views.slash_manage_shared (fun _ => None) eight "7" 2 two_managed = (Ret (Some view), w1).
Proof. do 2 eexists. vm_compute. reflexivity. Defined.

Lemma reinstall_is_for_the_owner_alone_witness :
  exists view w1,
    Views.slash_manage_shared (fun _ => None) eight "7" 2 two_managed = (Ret (Some view), w1)
    /\ forall cv, fst (Manage.action_callback obliging view eight Manage.reinstall w1)
                  <> Ret (Some cv).
Proof.
  destruct shared_view_opens as (view & w1 & Hopen).
  exists view, w1. split; [exact Hopen|].
  exact (proj1 (proj2 (reinstall_is_for_the_owner_alone obliging (fun _ => None)))
           eight "7" 2 two_managed view w1 eight Manage.reinstall w1 Hopen).
Defined.

(** ** Restarting a VPS *)

Lemma mark_first_running_again name l l' :
  mark_first_running name l = Some l' ->
  mark_first_running name l' = Some l'.
Proof.
  revert l'. induction l as [|vps l IH]; intros l' H; [discriminate|].
  cbn [mark_first_running] in H. destruct (String.eqb (container_name vps) name) eqn:E.
  - injection H as <-. cbn [mark_first_running]. 
    change (container_name (set_status "running" vps)) with (container_name vps).
    rewrite E. reflexivity.
  - destruct (mark_first_running name l) as [rest|]; [|discriminate].
    injection H as <-. cbn [mark_first_running]. rewrite E, (IH rest eq_refl). reflexivity.
Qed.

Lemma mark_first_running_none name l :
  mark_first_running name l = None <-> forall vps, vps ∈ l -> container_name vps <> name.
Proof.
  induction l as [|vps l IH]; cbn [mark_first_running].
  - split; [|reflexivity]. intros _ v Hv. now apply elem_of_nil in Hv.
  - destruct (String.eqb_spec (container_name vps) name) as [He|Hne].
    + split; [discriminate|]. intros H. destruct (H vps); [apply list_elem_of_here|exact He].
    + destruct (mark_first_running name l) as [rest|]; cbn.
      * split; [discriminate|]. intros H.
        assert (Some rest = None) as Hn; [|discriminate].
        apply IH. intros v Hv. apply H. now apply list_elem_of_further.
      * split; [|reflexivity]. intros _ v Hv. apply elem_of_cons in Hv as [->|Hv];
          [assumption|]. now apply (proj1 IH).
Qed.

(** The loop of [slash_restart_vps] over the users: it always comes to
    its end; every user it visits has their list gone over once; and
    either nothing was changed and nothing saved, or the inventory file was
    rewritten after the last change. *)
Lemma restart_loop name (order : list string) : forall w : State,
  let w' := exec (for_each order (mark_restarted name)) w in
  fst (for_each order (mark_restarted name) w) = Ret tt
  /\ (forall uid, vps_data w' !! uid
                  = if bool_decide (uid ∈ order)
                    then restarted name <$> vps_data w !! uid
                    else vps_data w !! uid)
  /\ (user_data w' = user_data w /\ admin_data w' = admin_data w
      /\ calls w' = calls w /\ outbox w' = outbox w)
  /\ ((vps_data w' = vps_data w /\ disk w' = disk w)
      \/ disk w' = mkDisk (user_data w) (vps_data w') (admin_data w))
  /\ ((forall uid l vps, uid ∈ order -> vps_data w !! uid = Some l -> vps ∈ l ->
                         container_name vps <> name) ->
      vps_data w' = vps_data w /\ disk w' = disk w).
Proof.
  induction order as [|uid order IH]; intros w; cbv zeta.
  - cbn. repeat split; auto.
  - unfold exec.
    destruct (for_each (uid :: order) (mark_restarted name) w) as [r w'] eqn:Hrun.
    cbn [for_each] in Hrun. unfold bind at 1, mark_restarted at 1 in Hrun.
    unfold bind at 1, get at 1 in Hrun.
    assert (Hmem : forall k, k <> uid ->
              bool_decide (k ∈ uid :: order) = bool_decide (k ∈ order)).
    { intros k Hk. apply bool_decide_ext. rewrite elem_of_cons. tauto. }
    destruct (vps_data w !! uid) as [l|] eqn:Hl; cbn [mbind option_bind] in Hrun.
    1: destruct (mark_first_running name l) as [marked|] eqn:Hmark.
    + unfold bind at 1, modify at 1 in Hrun.
      unfold save_data in Hrun. unfold bind at 1, modify at 1, logger at 1 in Hrun.
      unfold modify at 1 in Hrun.
      match type of Hrun with for_each _ _ ?st = _ => set (w1 := st) in Hrun end.
      specialize (IH w1). cbv zeta in IH. unfold exec in IH. rewrite Hrun in IH.
      cbn [fst snd] in *. destruct IH as (Hr & Hd & (Hu & Ha & Hc & Ho) & Hdisk & Hnone).
      split; [exact Hr|]. split; [|split; [|split]].
      * intros k. rewrite Hd. cbn.
        destruct (decide (k = uid)) as [->|Hne].
        -- rewrite lookup_insert_eq, (bool_decide_eq_true_2 (uid ∈ uid :: order))
             by apply list_elem_of_here.
           rewrite Hl. cbn. unfold restarted at 2. rewrite Hmark. cbn.
           case_bool_decide; [|reflexivity]. cbn. f_equal.
           unfold restarted. now rewrite (mark_first_running_again name l marked Hmark).
        -- rewrite lookup_insert_ne by congruence. now rewrite Hmem.
      * repeat split; assumption.
      * right. destruct Hdisk as [[Hsame Hdisk]|Hdisk]; rewrite Hdisk; [|reflexivity].
        cbn. now rewrite Hsame.
      * intros Habsent. exfalso.
        assert (mark_first_running name l = None) as Hn; [|congruence].
        apply mark_first_running_none. intros vps Hvps.
        apply (Habsent uid l vps); [apply list_elem_of_here|exact Hl|exact Hvps].
    + unfold ret at 1 in Hrun.
      specialize (IH w). cbv zeta in IH. unfold exec in IH. rewrite Hrun in IH.
      cbn [fst snd] in *. destruct IH as (Hr & Hd & Hframe & Hdisk & Hnone).
      split; [exact Hr|]. split; [|split; [exact Hframe|split; [exact Hdisk|]]].
      * intros k. rewrite Hd. destruct (decide (k = uid)) as [->|Hne].
        -- rewrite (bool_decide_eq_true_2 (uid ∈ uid :: order)) by apply list_elem_of_here.
           rewrite Hl. cbn. unfold restarted. rewrite Hmark. cbn.
           now case_bool_decide.
        -- now rewrite Hmem.
      * intros Habsent. apply Hnone. intros k l' vps Hk. apply Habsent.
        now apply list_elem_of_further.
    + unfold ret at 1 in Hrun.
      specialize (IH w). cbv zeta in IH. unfold exec in IH. rewrite Hrun in IH.
      cbn [fst snd] in *. destruct IH as (Hr & Hd & Hframe & Hdisk & Hnone).
      split; [exact Hr|]. split; [|split; [exact Hframe|split; [exact Hdisk|]]].
      * intros k. rewrite Hd. destruct (decide (k = uid)) as [->|Hne].
        -- rewrite (bool_decide_eq_true_2 (uid ∈ uid :: order)) by apply list_elem_of_here.
           rewrite Hl. cbn. now case_bool_decide.
        -- now rewrite Hmem.
      * intros Habsent. apply Hnone. intros k l' vps Hk. apply Habsent.
        now apply list_elem_of_further.
Qed.

(** X23.  [/restart_vps].  When the runtime fails, the inventory and the
    files stay as they were.  When it succeeds, every user's list is gone
    over once: the first record with that container name is marked
    running, and nothing else changes; either a record was found and the
    inventory file is in step with memory, or nothing was changed and
    nothing saved.  In particular, with no record of that name the command
    still answers "VPS Restarted" and leaves no trace of the restart. *)
Theorem restart_marks_the_named_record rt (order : list string) i name (w : State) :
  let w' := exec (slash_restart_vps rt order i name) w in
  (succeeded (rt (calls w) (restart_command name)) = false ->
   vps_data w' = vps_data w /\ disk w' = disk w)
  /\ (succeeded (rt (calls w) (restart_command name)) = true ->
      (forall uid, vps_data w' !! uid
                   = if bool_decide (uid ∈ order)
                     then restarted name <$> vps_data w !! uid
                     else vps_data w !! uid)
      /\ ((vps_data w' = vps_data w /\ disk w' = disk w)
          \/ vps_data_json (disk w') = vps_data w')
      /\ ((forall uid l vps, uid ∈ order -> vps_data w !! uid = Some l -> vps ∈ l ->
                             container_name vps <> name) ->
          vps_data w' = vps_data w /\ disk w' = disk w)
      /\ last (outbox w')
         = Some (EditOriginalResponse
                   (create_success_embed "VPS Restarted"
                      ("VPS `" +:+ name +:+ "` has been restarted successfully!")))).
Proof.
  cbv zeta. unfold exec.
  destruct (slash_restart_vps rt order i name w) as [r w'] eqn:Hcmd. cbn [snd].
  unfold slash_restart_vps in Hcmd.
  unfold bind at 1, discord at 1, modify at 1 in Hcmd.
  set (w1 := add_outbox _ w) in Hcmd. fold (restart_command name) in Hcmd.
  split; intros Hs; change (calls w) with (calls w1) in Hs.
  - destruct (execute_incus_raises rt w1 _ 300 Hs) as (e & lg & He).
    rewrite (try_raise_eq _ _ _ _ _ (bind_raise_eq _ _ _ _ _ He)) in Hcmd.
    injection Hcmd as <- <-. split; reflexivity.
  - destruct (execute_incus_returns rt w1 _ 300 Hs) as (v & lg & He).
    set (w2 := talk _ _ _ w1) in He.
    pose proof (restart_loop name order w2) as Hloop. cbv zeta in Hloop. unfold exec in Hloop.
    destruct (for_each order (mark_restarted name) w2) as [r' w3] eqn:Hrun.
    cbn [fst snd] in Hloop. destruct Hloop as (-> & Hd & (Hu & Ha & Hc & Ho) & Hdisk & Hnone).
    erewrite try_ret_eq in Hcmd
      by (erewrite bind_ret_eq by exact He; erewrite bind_ret_eq by exact Hrun; reflexivity).
    injection Hcmd as <- <-.
    cbn. split; [exact Hd|]. split; [|split].
    + destruct Hdisk as [Hsame|Hdisk]; [left; exact Hsame|right]. now rewrite Hdisk.
    + exact Hnone.
    + now rewrite last_snoc.
Qed.

Lemma restart_marks_the_named_record_witness :
  records_of "7" (vps_data (exec (slash_restart_vps obliging ["7"; "8"] alice "vps-7-1") stocked))
  = [set_status "running" managed_record; running_record]
  /\ vps_data (exec (slash_restart_vps obliging ["7"; "8"] alice "vps-9-9") stocked)
     = vps_data stocked
  /\ vps_data (exec (slash_restart_vps refusing ["7"; "8"] alice "vps-7-1") stocked)
     = vps_data stocked.
Proof.
  split; [|split].
  - destruct (proj2 (restart_marks_the_named_record obliging ["7"; "8"] alice "vps-7-1" stocked)
                eq_refl) as (H & _).
    unfold records_of. rewrite (H "7"). reflexivity.
  - destruct (proj2 (restart_marks_the_named_record obliging ["7"; "8"] alice "vps-9-9" stocked)
                eq_refl) as (_ & _ & H & _).
    apply H. intros uid l vps Huid Hl Hvps.
    apply elem_of_cons in Huid as [->|Huid];
      [|apply list_elem_of_singleton in Huid as ->].
    + vm_compute in Hl. injection Hl as <-.
      apply elem_of_cons in Hvps as [->|Hvps];
        [discriminate|apply list_elem_of_singleton in Hvps as ->; discriminate].
    + vm_compute in Hl. injection Hl as <-.
      apply list_elem_of_singleton in Hvps as ->. discriminate.
  - exact (proj1 (proj1 (restart_marks_the_named_record refusing ["7"; "8"] alice "vps-7-1"
                           stocked) eq_refl)).
Defined.

(** ** Setting static addresses *)

Lemma find_name_sound name l : forall idx,
  find_name name l = Some idx ->
  exists vps, l !! idx = Some vps /\ container_name vps = name.
Proof.
  induction l as [|vps l IH]; intros idx H; [discriminate|].
  cbn [find_name] in H. destruct (String.eqb_spec (container_name vps) name) as [He|Hne].
  - injection H as <-. now exists vps.
  - destruct (find_name name l) as [j|]; [|discriminate]. injection H as <-.
    destruct (IH j eq_refl) as (v & Hv & Hn). now exists v.
Qed.

Lemma find_name_absent name l :
  (forall vps, vps ∈ l -> container_name vps <> name) -> find_name name l = None.
Proof.
  induction l as [|vps l IH]; intros H; [reflexivity|].
  cbn [find_name]. destruct (String.eqb_spec (container_name vps) name) as [He|Hne].
  - destruct (H vps); [apply list_elem_of_here|exact He].
  - rewrite IH; [reflexivity|]. intros v Hv. apply H. now apply list_elem_of_further.
Qed.

Lemma find_owner_sound name order (d : Inventory) : forall uid idx,
  find_owner name order d = Some (uid, idx) ->
  uid ∈ order
  /\ exists l vps, d !! uid = Some l /\ l !! idx = Some vps /\ container_name vps = name.
Proof.
  induction order as [|u order IH]; intros uid idx H; [discriminate|].
  cbn [find_owner] in H.
  destruct (d !! u ≫= find_name name) as [j|] eqn:Hj.
  - injection H as <- <-. split; [apply list_elem_of_here|].
    destruct (d !! u) as [l|]; [|discriminate]. cbn in Hj.
    destruct (find_name_sound name l j Hj) as (vps & Hv & Hn). now exists l, vps.
  - destruct (IH uid idx H) as [Hin Hrest]. split; [now apply list_elem_of_further|exact Hrest].
Qed.

Lemma find_owner_absent name order (d : Inventory) :
  (forall uid l vps, uid ∈ order -> d !! uid = Some l -> vps ∈ l ->
                     container_name vps <> name) ->
  find_owner name order d = None.
Proof.
  induction order as [|u order IH]; intros H; [reflexivity|].
  cbn [find_owner]. destruct (d !! u) as [l|] eqn:Hl; cbn.
  - rewrite find_name_absent.
    + apply IH. intros uid l' vps Hin. apply H. now apply list_elem_of_further.
    + intros vps Hvps. apply (H u l vps); [apply list_elem_of_here|exact Hl|exact Hvps].
  - apply IH. intros uid l' vps Hin. apply H. now apply list_elem_of_further.
Qed.

(** X24.  [/set_ip].  For a container name no record carries, nothing is
    sent to the runtime and the answer is "VPS Not Found".  Otherwise the
    first record of that name is the one concerned: when [set_static_ip]
    reports failure, the inventory and the files stay as they were; when it
    reports success, that record alone is rewritten, an address that was
    not given keeping its old value, and the inventory file is brought in
    step with memory. *)
Theorem set_ip_rewrites_the_named_record rt (order : list string) i name ipv4_given ipv6_given
    (w : State) :
  let w' := exec (slash_set_ip rt order i name ipv4_given ipv6_given) w in
  ((forall uid l vps, uid ∈ order -> vps_data w !! uid = Some l -> vps ∈ l ->
                      container_name vps <> name) ->
   calls w' = calls w /\ vps_data w' = vps_data w /\ disk w' = disk w
   /\ outbox w' = outbox w ++ [SendMessage (create_error_embed "VPS Not Found"
                                              ("No VPS with container `" +:+ name +:+ "`."))])
  /\ (forall uid idx,
         find_owner name order (vps_data w) = Some (uid, idx) ->
         exists l vps,
           vps_data w !! uid = Some l /\ l !! idx = Some vps /\ container_name vps = name
           /\ (fst (set_static_ip rt name ipv4_given ipv6_given w) = Ret false ->
               vps_data w' = vps_data w /\ disk w' = disk w)
           /\ (fst (set_static_ip rt name ipv4_given ipv6_given w) = Ret true ->
               vps_data w'
               = <[uid := <[idx := set_ipv6 (or_else ipv6_given (ipv6 vps))
                                     (set_ipv4 (or_else ipv4_given (ipv4 vps)) vps)]> l]>
                   (vps_data w)
               /\ vps_data_json (disk w') = vps_data w')).
Proof.
  cbv zeta. unfold exec.
  destruct (slash_set_ip rt order i name ipv4_given ipv6_given w) as [r w'] eqn:Hcmd.
  cbn [snd]. unfold slash_set_ip in Hcmd. unfold bind at 1, get at 1 in Hcmd.
  split.
  - intros Habsent. rewrite (find_owner_absent name order _ Habsent) in Hcmd.
    injection Hcmd as <- <-. repeat split.
  - intros uid idx Hfound. rewrite Hfound in Hcmd.
    destruct (find_owner_sound name order _ uid idx Hfound) as (_ & l & vps & Hl & Hv & Hn).
    exists l, vps. split; [exact Hl|]. split; [exact Hv|]. split; [exact Hn|].
    destruct (quiet_total_run (set_static_ip rt name ipv4_given ipv6_given) w
                (quiet_set_static_ip _ _ _ _) (total_set_static_ip _ _ _ _))
      as (b & c & o & lg & Hset).
    rewrite (bind_ret_eq _ _ _ _ _ Hset) in Hcmd. rewrite Hset. cbn [fst].
    destruct b.
    + split; [discriminate|]. intros _.
      unfold bind at 1, modify at 1 in Hcmd. unfold save_data in Hcmd.
      unfold bind at 1 in Hcmd. unfold bind at 1, modify at 1, logger at 1 in Hcmd.
      unfold modify at 1 in Hcmd. unfold bind at 1, get at 1 in Hcmd.
      unfold discord, modify in Hcmd. injection Hcmd as <- <-.
      cbn. rewrite Hl. split; [|reflexivity]. f_equal.
      rewrite list_insert_alter. apply list_alter_ext; [|reflexivity].
      intros x Hx. rewrite Hv in Hx. now injection Hx as <-.
    + split; [|discriminate]. intros _.
      unfold discord, modify in Hcmd. injection Hcmd as <- <-. split; reflexivity.
Qed.

Lemma set_ip_rewrites_the_named_record_witness :
  exists l vps,
    vps_data stocked !! "7" = Some l /\ l !! 1%nat = Some vps
    /\ container_name vps = "vps-7-2"
    /\ (fst (set_static_ip obliging "vps-7-2" (Some "10.0.0.9") None stocked) = Ret false ->
        vps_data (exec (slash_set_ip obliging ["7"; "8"] alice "vps-7-2"
                          (Some "10.0.0.9") None) stocked) = vps_data stocked
        /\ disk (exec (slash_set_ip obliging ["7"; "8"] alice "vps-7-2"
                         (Some "10.0.0.9") None) stocked) = disk stocked)
    /\ (fst (set_static_ip obliging "vps-7-2" (Some "10.0.0.9") None stocked) = Ret true ->
        vps_data (exec (slash_set_ip obliging ["7"; "8"] alice "vps-7-2"
                          (Some "10.0.0.9") None) stocked)
        = <["7" := <[1%nat := set_ipv6 (or_else None (ipv6 vps))
                                (set_ipv4 (or_else (Some "10.0.0.9") (ipv4 vps)) vps)]> l]>
            (vps_data stocked)
        /\ vps_data_json (disk (exec (slash_set_ip obliging ["7"; "8"] alice "vps-7-2"
                                        (Some "10.0.0.9") None) stocked))
           = vps_data (exec (slash_set_ip obliging ["7"; "8"] alice "vps-7-2"
                               (Some "10.0.0.9") None) stocked)).
Proof.
  exact (proj2 (set_ip_rewrites_the_named_record obliging ["7"; "8"] alice "vps-7-2"
                  (Some "10.0.0.9") None stocked) "7" 1%nat eq_refl).
Defined.

Section StaticAddresses.
Context {St : Type} (rt : Runtime).
Implicit Type w : World St.

(** X25.  [set_static_ip] gives up at the first command that fails, and
    restarts the container even when there is nothing to set.  If the IPv4
    command fails, neither the IPv6 command nor the restart is sent and the
    answer is [False]; with no address given at all, the restart is the one
    command sent, and the answer tells whether it succeeded.  It never
    raises. *)
Theorem set_static_ip_stops_at_the_first_failure name w :
  (forall address ipv6_given,
      address <> "" ->
      succeeded (rt (calls w) (address_command name "ipv4" address)) = false ->
      exists lg, set_static_ip rt name (Some address) ipv6_given w
                 = (Ret false, talk [address_command name "ipv4" address] [] lg w))
  /\ (exists lg, set_static_ip rt name None None w
                 = (Ret (succeeded (rt (calls w) (restart_command name))),
                    talk [restart_command name] [] lg w))
  /\ (forall ipv4_given ipv6_given,
         exists answer, outcome (set_static_ip rt name ipv4_given ipv6_given) w = Ret answer).
Proof.
  split; [|split].
  3:{ intros ipv4_given ipv6_given.
      exact (total_set_static_ip rt name ipv4_given ipv6_given w). }
  - intros address ipv6_given Haddress Hs. unfold set_static_ip.
    assert (Py.truthy_opt (Some address) = true) as -> by now destruct address.
    destruct (execute_incus_raises rt w _ 300 Hs) as (e & lg & He).
    erewrite try_raise_eq.
    2:{ eapply bind_raise_eq. eapply bind_raise_eq. exact He. }
    eexists (lg ++ [_]). unfold bind, logger, modify, ret. cbn. unfold talk, add_log. cbn.
    rewrite app_nil_r, app_assoc. reflexivity.
  - unfold set_static_ip. cbn [Py.truthy_opt]. fold (restart_command name).
    destruct (succeeded (rt (calls w) (restart_command name))) eqn:Hs.
    + destruct (execute_incus_returns rt w _ 300 Hs) as (v & lg & He).
      erewrite try_ret_eq.
      2:{ unfold bind at 1, ret at 1. unfold bind at 1, ret at 1.
          erewrite bind_ret_eq by exact He. reflexivity. }
      now exists lg.
    + destruct (execute_incus_raises rt w _ 300 Hs) as (e & lg & He).
      erewrite try_raise_eq.
      2:{ unfold bind at 1, ret at 1. unfold bind at 1, ret at 1.
          eapply bind_raise_eq. exact He. }
      eexists (lg ++ [_]). unfold bind, logger, modify, ret. cbn. unfold talk, add_log. cbn.
      rewrite app_nil_r, app_assoc. reflexivity.
Qed.

End StaticAddresses.

Lemma set_static_ip_stops_at_the_first_failure_witness :
  exists lg, set_static_ip refusing "vps-7-1" (Some "10.0.0.9") (Some "fd42::9") stocked
             = (Ret false, talk [address_command "vps-7-1" "ipv4" "10.0.0.9"] [] lg stocked).
Proof.
  exact (proj1 (set_static_ip_stops_at_the_first_failure refusing "vps-7-1" stocked)
           "10.0.0.9" (Some "fd42::9") ltac:(discriminate) eq_refl).
Defined.

(** ** Snapshots *)



(** ** Creating a VPS whose addresses cannot be read *)

(** X27.  A VPS whose addresses cannot be read is created all the same,
    with the addresses recorded as "Error".  When the launch succeeds but
    the address query that follows fails, or prints nothing, and no static
    address was asked for, [/create] appends the record with [ipv4] and
    [ipv6] both ["Error"], saves it, and answers "VPS Created
    Successfully". *)
Theorem create_records_unreadable_addresses rt i member ram_given cpu_given (w : State) :
  (0 < ram_given)%Z -> (0 < cpu_given)%Z ->
  succeeded (rt (calls w) (create_launch member ram_given cpu_given w)) = true ->
  (let asked := calls w ++ [create_launch member ram_given cpu_given w] in
   succeeded (rt asked (ip_command (derived_name member w))) = false
   \/ exists blank stderr,
        rt asked (ip_command (derived_name member w)) = Exited 0 blank stderr
        /\ Py.strip blank = "") ->
  let w' := exec (slash_create rt i member ram_given cpu_given None None) w in
  vps_data w'
  = <[member := records_of member (vps_data w)
                  ++ [mkVPS (derived_name member w) (Py.str_of_Z ram_given +:+ "GB")
                        (Py.str_of_Z cpu_given) "10GB" (Some "running") (now i)
                        "Error" "Error" (Some []) None None]]> (vps_data w)
  /\ vps_data_json (disk w') = vps_data w'
  /\ EditOriginalResponse (create_success_embed "VPS Created Successfully" "") ∈ outbox w'.
Proof.
  intros Hram Hcpu Hs Hips. cbv zeta in Hips |- *. unfold exec.
  destruct (slash_create rt i member ram_given cpu_given None None w) as [r w'] eqn:Hcmd.
  cbn [snd]. rewrite slash_create_enters in Hcmd by assumption.
  cbv zeta in Hcmd. set (w1 := add_outbox _ _) in Hcmd.
  change (calls w) with (calls w1) in Hs.
  destruct (execute_incus_returns rt w1 _ 300 Hs) as (v & lg & He).
  set (w2 := talk _ _ _ w1) in He.
  change (calls w ++ [create_launch member ram_given cpu_given w]) with (calls w2) in Hips.
  assert (exists lg', get_container_ips rt (derived_name member w) w2
                      = (Ret ("Error", "Error"),
                         talk [ip_command (derived_name member w)] [] lg' w2))
    as (lg' & Hget).
  { destruct Hips as [Hfail|(blank & stderr & Hrt & Hblank)].
    - now apply get_container_ips_failed.
    - now apply (get_container_ips_blank rt _ w2 blank stderr). }
  set (w3 := talk _ _ _ w2) in Hget.
  assert (Hassign : assign_addresses rt (derived_name member w) None None w2
                    = (Ret ("Error", "Error"), w3)).
  { unfold assign_addresses. unfold bind at 1, sleep at 1, ret at 1.
    erewrite bind_ret_eq by exact Hget. reflexivity. }
  assert (Hw3 : vps_data w3 !! member = Some (records_of member (vps_data w))).
  { simpl. apply lookup_ensure_list. }
  destruct (guild i).
  all: erewrite try_ret_eq in Hcmd;
    [|erewrite bind_ret_eq by exact He; erewrite bind_ret_eq by exact Hassign;
      erewrite bind_ret_eq by (apply append_vps_present, Hw3); reflexivity].
  all: injection Hcmd as <- <-; simpl.
  all: split; [apply insert_ensure_list|]; split; [reflexivity|].
  all: rewrite !elem_of_app, !list_elem_of_singleton; tauto.
Qed.

Lemma create_records_unreadable_addresses_witness :
  exists vps,
    records_of "7" (vps_data (exec (slash_create obliging alice "7" 1 1 None None)
                                initial_state)) = [vps]
    /\ ipv4 vps = "Error" /\ ipv6 vps = "Error".
Proof.
  destruct (create_records_unreadable_addresses obliging alice "7" 1 1 initial_state
              ltac:(lia) ltac:(lia) eq_refl) as (H & _).
  - right. exists "", "". split; reflexivity.
  - eexists. split.
    + unfold records_of. rewrite H, lookup_insert_eq. reflexivity.
    + split; reflexivity.
Defined.

(** ** Statistics *)

Lemma tally_readable (l : list VPS) : forall acc,
  (forall vps, vps ∈ l -> is_Some (ram_gb vps) /\ is_Some (cpu_cores vps)) ->
  exists acc', tally l acc = Ret acc'.
Proof.
  induction l as [|vps l IH]; intros acc Hl; [now exists acc|].
  cbn [tally]. destruct (Hl vps ltac:(apply list_elem_of_here)) as [[ram_read Hram] [cores Hcpu]].
  unfold ram_gb in Hram. unfold cpu_cores in Hcpu. rewrite Hram, Hcpu.
  apply IH. intros v Hv. apply Hl. now apply list_elem_of_further.
Qed.

Lemma tally_all_readable (lists : list (list VPS)) : forall acc,
  (forall l vps, l ∈ lists -> vps ∈ l -> is_Some (ram_gb vps) /\ is_Some (cpu_cores vps)) ->
  exists acc', tally_all lists acc = Ret acc'.
Proof.
  induction lists as [|l lists IH]; intros acc Hall; [now exists acc|].
  cbn [tally_all].
  destruct (tally_readable l acc) as [acc' ->].
  { intros vps Hvps. apply (Hall l vps); [apply list_elem_of_here|exact Hvps]. }
  apply IH. intros l' vps Hl'. apply Hall. now apply list_elem_of_further.
Qed.

Lemma server_totals_readable order (w : State) :
  all_readable (vps_data w) -> exists t, server_totals order w = Ret t.
Proof.
  intros Hw. unfold server_totals. cbv zeta.
  destruct (tally_all_readable (omap (fun user_id => vps_data w !! user_id) order)
              (0%Z, 0%Z, 0%nat)) as [[[ram_sum cpu_sum] running] ->].
  - intros l vps Hl Hvps. apply list_elem_of_omap in Hl as (uid & _ & Hl).
    now apply (Hw uid l vps).
  - eexists. reflexivity.
Qed.

Lemma all_readable_empty user (d : Inventory) :
  all_readable d -> all_readable (<[user := []]> d).
Proof.
  intros Hd uid l vps Hl Hvps. destruct (decide (user = uid)) as [<-|Hne].
  - rewrite lookup_insert_eq in Hl. injection Hl as <-. now apply elem_of_nil in Hvps.
  - rewrite lookup_insert_ne in Hl by assumption. now apply (Hd uid l vps).
Qed.

Lemma all_readable_snoc user vps (d : Inventory) :
  all_readable d ->
  is_Some (ram_gb vps) -> is_Some (cpu_cores vps) ->
  all_readable (<[user := records_of user d ++ [vps]]> d).
Proof.
  intros Hd Hram Hcpu uid l v Hl Hv. destruct (decide (user = uid)) as [<-|Hne].
  - rewrite lookup_insert_eq in Hl. injection Hl as <-.
    apply elem_of_app in Hv as [Hv|Hv].
    + unfold records_of in Hv. destruct (d !! user) as [l|] eqn:E.
      * now apply (Hd user l v).
      * now apply elem_of_nil in Hv.
    + apply list_elem_of_singleton in Hv as ->. now split.
  - rewrite lookup_insert_ne in Hl by assumption. now apply (Hd uid l v).
Qed.

Lemma plan_figures_readable tier spec :
  assoc tier plans = Some spec ->
  is_Some (Py.int (Py.replace "GB" "" (p_ram spec))) /\ is_Some (Py.int (p_cpu spec)).
Proof.
  unfold plans. cbn [assoc]. intros Hspec.
  destruct (String.eqb tier "Starter"); [injection Hspec as <-; split; eexists; reflexivity|].
  destruct (String.eqb tier "Basic"); [injection Hspec as <-; split; eexists; reflexivity|].
  destruct (String.eqb tier "Standard"); [injection Hspec as <-; split; eexists; reflexivity|].
  destruct (String.eqb tier "Pro"); [injection Hspec as <-; split; eexists; reflexivity|].
  discriminate.
Qed.

Lemma provision_keeps_readable rt op (w : State) :
  all_readable (vps_data w) -> all_readable (vps_data (provision_step rt w op)).
Proof.
  intros Hw. destruct op as [i member ram_given cpu_given ipv4 ipv6|i tier chip ipv4 ipv6];
    cbn [provision_step].
  - destruct (create_outcome rt i member ram_given cpu_given ipv4 ipv6 w)
      as [->|[[-> _]|(ips & Hram & Hcpu & ->)]];
      [assumption|now apply all_readable_empty|].
    apply all_readable_snoc; [assumption| |].
    + exists ram_given. unfold ram_gb. cbn [ram]. apply int_of_written_ram. lia.
    + exists cpu_given. unfold cpu_cores. cbn [cpu]. apply int_str_of_Z.
  - destruct (buywc_outcome rt i tier chip ipv4 ipv6 w)
      as [->|[[-> _]|(ips & spec & Hspec & ->)]];
      [assumption|now apply all_readable_empty|].
    destruct (plan_figures_readable tier spec Hspec) as [Hr Hc].
    now apply all_readable_snoc.
Qed.

(** X28.  The statistics never trip over what the bot provisioned.  If
    every record has a RAM and a CPU figure that [int] reads, so has every
    record after any sequence of [/create] and [/buywc], whatever the
    runtime answers; and on such an inventory the loops of
    [/serverstats] raise no [ValueError]: the command works out its totals
    and answers. *)
Theorem statistics_read_what_was_provisioned rt (ops : list provision_op)
    (order : list string) i (w : State) :
  all_readable (vps_data w) ->
  let w' := fold_left (provision_step rt) ops w in
  all_readable (vps_data w')
  /\ (exists t, server_totals order w' = Ret t)
  /\ slash_server_stats order i w'
     = (Ret tt, add_outbox (SendMessage (mk_embed Plain "Server Statistics"
                                           "Current server overview")) w').
Proof.
  intros Hw. cbv zeta.
  assert (Hall : all_readable (vps_data (fold_left (provision_step rt) ops w))).
  { revert w Hw. induction ops as [|op ops IH]; intros w Hw; [exact Hw|].
    cbn [fold_left]. now apply IH, provision_keeps_readable. }
  split; [exact Hall|].
  destruct (server_totals_readable order _ Hall) as [t Ht].
  split; [now exists t|].
  unfold slash_server_stats, bind, get. rewrite Ht. reflexivity.
Qed.

Lemma statistics_read_what_was_provisioned_witness :
  exists t,
    server_totals ["7"]
      (fold_left (provision_step obliging)
         [Create alice "7" 16 4 None None; Buy seven "Starter" "Intel" None None]
         (exec (slash_admin_credits alice "7" 100) initial_state))
    = Ret t.
Proof.
  refine (proj1 (proj2 (statistics_read_what_was_provisioned obliging _ ["7"] alice _ _))).
  intros uid l vps Hl. discriminate.
Defined.
